(** * Seat reservation services of the bus booking backend

    A shallow embedding of [booking/services.py]: the expiry sweeper, the
    hold / release / contact / claim / admin-booking operations and the public
    seat map, over a seat table modelled as a list of rows.

    Conventions.
    - A timestamp is a [Z] counting microseconds from 1970-01-01T00:00:00 on
      the clock's own calendar; [timedelta(minutes=m)] is [m * 60000000]
      microseconds.  Python's [timedelta] and [datetime] are bounded, and
      building or adding one out of range raises [OverflowError]: that path
      is part of the model.
    - Every call of [_now()] in the source is a separate clock reading, so an
      operation takes one time argument per reading ([t_sweep] for the reading
      inside [expire_holds], [now] for the operation's own reading, [t_count]
      for the one inside [_count_holds_for_token]).  A real clock gives
      [t_sweep <= now <= t_count]; theorems that need it say so.
    - A Django queryset is lazy: it is modelled as a row predicate that is
      evaluated against the table each time the source evaluates it.
    - Text is a [string] holding the UTF-8 bytes of a Python [str].
      [str.strip] and [str.upper] follow the interpreter's Unicode tables,
      and a queryset without [order_by] yields its rows in an order the
      database chooses; the operations take the three from a [Runtime], and
      every theorem holds for every runtime.
    - [booking/models.py] is not among the sources.  The random code
      generators [Seat.generate_claim_code] and [Seat.generate_booking_code]
      are therefore arguments (the code the generator returned), and so is the
      value the model layer stores in [updated_at] on [save]. *)

From Stdlib Require Import ZArith List String Ascii Bool Lia DecimalString.
From Stdlib Require Import Sorting.Permutation.
Import ListNotations.
Open Scope Z_scope.
Set Warnings "-register-all".

(** ** Python helpers *)

Module Py.

(** *** ASCII text

    [str.strip] and [str.upper] as they act on ASCII text, where no Unicode
    table is needed: the white space of ASCII is the characters 9 to 13 and
    28 to 32, and its cased letters are a-z and A-Z.  On other text the
    interpreter's methods do more (U+00A0 and U+3000 are stripped, accented
    letters are upper-cased), so the operations below never use these
    definitions: they take the two methods from the [Runtime].  Only the
    examples, whose text is ASCII, run them. *)
Definition ascii_isspace (c : ascii) : bool :=
  let n := nat_of_ascii c in
  ((9 <=? n) && (n <=? 13) || (28 <=? n) && (n <=? 32))%nat.

Fixpoint ascii_lstrip (s : string) : string :=
  match s with
  | EmptyString => EmptyString
  | String c s' => if ascii_isspace c then ascii_lstrip s' else s
  end.

Fixpoint ascii_rstrip (s : string) : string :=
  match s with
  | EmptyString => EmptyString
  | String c s' =>
      match ascii_rstrip s' with
      | EmptyString =>
          if ascii_isspace c then EmptyString else String c EmptyString
      | r => String c r
      end
  end.

Definition ascii_strip (s : string) : string := ascii_rstrip (ascii_lstrip s).

Definition ascii_upper_char (c : ascii) : ascii :=
  let n := nat_of_ascii c in
  if ((97 <=? n) && (n <=? 122))%nat then ascii_of_nat (n - 32) else c.

Fixpoint ascii_upper (s : string) : string :=
  match s with
  | EmptyString => EmptyString
  | String c s' => String (ascii_upper_char c) (ascii_upper s')
  end.

(** [sep.join(l)] *)
Fixpoint join (sep : string) (l : list string) : string :=
  match l with
  | [] => EmptyString
  | [x] => x
  | x :: l' => (x ++ sep ++ join sep l')%string
  end.

(** [str(n)] for an int. *)
Definition str_of_int (n : Z) : string := NilZero.string_of_int (Z.to_int n).

(** [needle in hay] *)
Definition contains (needle hay : string) : bool :=
  match index 0 needle hay with Some _ => true | None => false end.

(** Truth value of a [str | None]. *)
Definition truthy (o : option string) : bool :=
  match o with
  | Some s => negb (s =? "")%string
  | None => false
  end.

(** *** Dates

    [timedelta(minutes=m)] for an int [m], in microseconds.  A [timedelta]
    holds at most 999999999 days either way (its days are [m // 1440], the
    floor); beyond that the constructor raises [OverflowError], here
    [None]. *)
Definition timedelta_minutes (m : Z) : option Z :=
  let days := m / 1440 in
  if (-999999999 <=? days) && (days <=? 999999999)
  then Some (m * 60000000)
  else None.

(** [datetime.min] (0001-01-01T00:00:00) and [datetime.max]
    (9999-12-31T23:59:59.999999). *)
Definition datetime_min : Z := -62135596800000000.
Definition datetime_max : Z := 253402300799999999.

(** [t + d] for a [datetime] and a [timedelta]: [None] where the sum leaves
    the years 1 to 9999 and the addition raises [OverflowError]. *)
Definition datetime_add (t d : Z) : option Z :=
  let sum := t + d in
  if (datetime_min <=? sum) && (sum <=? datetime_max) then Some sum else None.

(** [t + timedelta(minutes=m)] *)
Definition plus_minutes (t m : Z) : option Z :=
  match timedelta_minutes m with
  | Some d => datetime_add t d
  | None => None
  end.

End Py.

(** ** Rows *)

Module Seat.

Inductive Status := AVAILABLE | HOLD | BOOKED.

Definition Status_eqb (a b : Status) : bool :=
  match a, b with
  | AVAILABLE, AVAILABLE | HOLD, HOLD | BOOKED, BOOKED => true
  | _, _ => false
  end.

Record t := mk
  { id : Z;
    trip_id : Z;
    code : string;
    status : Status;
    hold_token : option string;
    hold_until : option Z;
    customer_name : option string;
    customer_wa : option string;
    claim_code : option string;
    booking_code : option string;
    booked_at : option Z;
    updated_at : Z }.

Definition set_status v (s : t) : t :=
  mk (id s) (trip_id s) (code s) v (hold_token s) (hold_until s)
     (customer_name s) (customer_wa s) (claim_code s) (booking_code s)
     (booked_at s) (updated_at s).
Definition set_hold_token v (s : t) : t :=
  mk (id s) (trip_id s) (code s) (status s) v (hold_until s)
     (customer_name s) (customer_wa s) (claim_code s) (booking_code s)
     (booked_at s) (updated_at s).
Definition set_hold_until v (s : t) : t :=
  mk (id s) (trip_id s) (code s) (status s) (hold_token s) v
     (customer_name s) (customer_wa s) (claim_code s) (booking_code s)
     (booked_at s) (updated_at s).
Definition set_customer_name v (s : t) : t :=
  mk (id s) (trip_id s) (code s) (status s) (hold_token s) (hold_until s)
     v (customer_wa s) (claim_code s) (booking_code s)
     (booked_at s) (updated_at s).
Definition set_customer_wa v (s : t) : t :=
  mk (id s) (trip_id s) (code s) (status s) (hold_token s) (hold_until s)
     (customer_name s) v (claim_code s) (booking_code s)
     (booked_at s) (updated_at s).
Definition set_claim_code v (s : t) : t :=
  mk (id s) (trip_id s) (code s) (status s) (hold_token s) (hold_until s)
     (customer_name s) (customer_wa s) v (booking_code s)
     (booked_at s) (updated_at s).
Definition set_booking_code v (s : t) : t :=
  mk (id s) (trip_id s) (code s) (status s) (hold_token s) (hold_until s)
     (customer_name s) (customer_wa s) (claim_code s) v
     (booked_at s) (updated_at s).
Definition set_booked_at v (s : t) : t :=
  mk (id s) (trip_id s) (code s) (status s) (hold_token s) (hold_until s)
     (customer_name s) (customer_wa s) (claim_code s) (booking_code s)
     v (updated_at s).
Definition set_updated_at v (s : t) : t :=
  mk (id s) (trip_id s) (code s) (status s) (hold_token s) (hold_until s)
     (customer_name s) (customer_wa s) (claim_code s) (booking_code s)
     (booked_at s) v.

End Seat.

Module Trip.

Record t := mk
  { id : Z;
    title : string;
    bus_type : string;
    route_from : string;
    route_to : string;
    depart_at : Z;
    price : Z;
    capacity_total : Z;
    admin_wa : option string;
    is_active : bool }.

End Trip.

(** ** The interpreter and the database

    What the services use and the repository does not define.  [str_strip]
    is [str.strip] and [str_upper] is [str.upper], on UTF-8 text.  [db_order]
    is the order in which the database hands over the rows of a queryset
    that has no [order_by], given the selected rows in table order: some
    rearrangement of them, which one is the database's choice (or that of a
    default ordering declared in [booking/models.py], which is not among the
    sources). *)
Class Runtime := mkRuntime
  { str_strip : string -> string;
    str_upper : string -> string;
    db_order : list Seat.t -> list Seat.t;
    db_order_perm : forall rows, Permutation (db_order rows) rows }.

(** Column comparisons as the ORM's SQL has them: a NULL never matches. *)

Definition col_eq (o : option string) (v : string) : bool :=
  match o with Some x => (x =? v)%string | None => false end.

Definition col_lt (o : option Z) (v : Z) : bool :=
  match o with Some x => x <? v | None => false end.

Definition col_gte (o : option Z) (v : Z) : bool :=
  match o with Some x => x >=? v | None => false end.

Definition code_in (l : list string) (c : string) : bool :=
  existsb (String.eqb c) l.

Definition is_status (st : Seat.Status) (s : Seat.t) : bool :=
  Seat.Status_eqb (Seat.status s) st.

(** ** Results and payloads *)

(** JSON-like payload values.  [VIso t] stands for the [isoformat()] string
    of the timestamp [t], [VStatus st] for the stored value of the status. *)
Inductive value :=
| VNone
| VInt (n : Z)
| VStr (s : string)
| VIso (t : Z)
| VStatus (st : Seat.Status)
| VList (l : list value)
| VDict (d : list (string * value)).

Definition opt_str (o : option string) : value :=
  match o with Some s => VStr s | None => VNone end.

Definition opt_iso (o : option Z) : value :=
  match o with Some t => VIso t | None => VNone end.

Definition dict_keys (v : value) : list string :=
  match v with VDict d => map fst d | _ => [] end.

Record ServiceResult := mkResult
  { ok : bool;
    message : string;
    data : option value }.

Definition failure (msg : string) : ServiceResult := mkResult false msg None.

(** ** The store and the transaction monad *)

Definition DB := list Seat.t.

Inductive exn :=
| Seat_DoesNotExist
| Seat_MultipleObjectsReturned
| Trip_DoesNotExist
| Trip_MultipleObjectsReturned
| OverflowError.

Inductive outcome (A : Type) :=
| Return (a : A)
| Raise (e : exn).
Arguments Return {A} a.
Arguments Raise {A} e.

(** A computation against the seat table: a value or an exception, and the
    table as the computation left it. *)
Definition M (A : Type) := DB -> outcome A * DB.

Definition ret {A} (a : A) : M A := fun db => (Return a, db).

Definition raise {A} (e : exn) : M A := fun db => (Raise e, db).

Definition bind {A B} (m : M A) (k : A -> M B) : M B :=
  fun db =>
    match m db with
    | (Return a, db') => k a db'
    | (Raise e, db') => (Raise e, db')
    end.

Notation "x <- m ;; k" := (bind m (fun x => k))
  (at level 61, m at next level, right associativity).
Notation "m ;;; k" := (bind m (fun _ => k))
  (at level 61, right associativity).

(** [try: m except e: h] *)
Definition try_except {A} (m : M A) (e : exn) (h : M A) : M A :=
  fun db =>
    match m db with
    | (Raise e', db') =>
        match e, e' with
        | Seat_DoesNotExist, Seat_DoesNotExist
        | Seat_MultipleObjectsReturned, Seat_MultipleObjectsReturned
        | Trip_DoesNotExist, Trip_DoesNotExist
        | Trip_MultipleObjectsReturned, Trip_MultipleObjectsReturned
        | OverflowError, OverflowError => h db'
        | _, _ => (Raise e', db')
        end
    | r => r
    end.

(** A Python expression that raises [OverflowError] where it has no value. *)
Definition or_overflow {A} (o : option A) : M A :=
  match o with
  | Some a => ret a
  | None => raise OverflowError
  end.

(** [@transaction.atomic]: the writes of a body that raises are rolled back;
    a body that returns, whatever it returns, is committed. *)
Definition transaction_atomic {A} (body : M A) : M A :=
  fun db =>
    match body db with
    | (Raise e, _) => (Raise e, db)
    | (Return a, db') => (Return a, db')
    end.

(** *** Querysets *)

Definition qs_count (p : Seat.t -> bool) : M Z :=
  fun db => (Return (Z.of_nat (List.length (filter p db))), db).

Definition qs_exists (p : Seat.t -> bool) : M bool :=
  fun db => (Return (existsb p db), db).

(** [qs.update(...)]: one UPDATE over the rows the predicate selects. *)
Definition qs_update (p : Seat.t -> bool) (f : Seat.t -> Seat.t) : M Z :=
  fun db =>
    (Return (Z.of_nat (List.length (filter p db))),
     map (fun s => if p s then f s else s) db).

(** [qs.get()] *)
Definition qs_get (p : Seat.t -> bool) : M Seat.t :=
  fun db =>
    match filter p db with
    | [] => (Raise Seat_DoesNotExist, db)
    | [s] => (Return s, db)
    | _ => (Raise Seat_MultipleObjectsReturned, db)
    end.

(** [qs.values_list("code", flat=True)] on a queryset with no [order_by]:
    the codes come in the order the database yields the rows. *)
Definition qs_codes {rt : Runtime} (p : Seat.t -> bool) : M (list string) :=
  fun db => (Return (map Seat.code (db_order (filter p db))), db).

(** [.order_by("code")]: a stable insertion sort on the code. *)
Fixpoint insert_by_code (s : Seat.t) (l : list Seat.t) : list Seat.t :=
  match l with
  | [] => [s]
  | x :: l' =>
      if String.leb (Seat.code s) (Seat.code x) then s :: l
      else x :: insert_by_code s l'
  end.

Fixpoint order_by_code (l : list Seat.t) : list Seat.t :=
  match l with
  | [] => []
  | x :: l' => insert_by_code x (order_by_code l')
  end.

Definition qs_codes_ordered (p : Seat.t -> bool) : M (list string) :=
  fun db => (Return (map Seat.code (order_by_code (filter p db))), db).

(** [qs.aggregate(mx=Max("hold_until"))["mx"]]: NULLs are skipped. *)
Definition max_opt (a b : option Z) : option Z :=
  match a, b with
  | Some x, Some y => Some (Z.max x y)
  | Some x, None => Some x
  | None, o => o
  end.

Definition qs_max_hold_until (p : Seat.t -> bool) : M (option Z) :=
  fun db =>
    (Return (fold_right max_opt None (map Seat.hold_until (filter p db))), db).

(** [seat.save()] and [seat.save(update_fields=...)]: an UPDATE of the row
    with the instance's primary key; [write] copies the saved columns of the
    instance onto the stored row. *)
Definition save (inst : Seat.t) (write : Seat.t -> Seat.t -> Seat.t) : M unit :=
  fun db =>
    (Return tt,
     map (fun r => if Seat.id r =? Seat.id inst then write inst r else r) db).

Definition all_fields (inst _ : Seat.t) : Seat.t := inst.

Definition fields_hold_until_updated_at (inst r : Seat.t) : Seat.t :=
  Seat.set_updated_at (Seat.updated_at inst)
    (Seat.set_hold_until (Seat.hold_until inst) r).

(** ** Housekeeping *)

Definition HOLD_MINUTES_DEFAULT : Z := 10.
Definition MAX_HOLD_PER_SESSION_DEFAULT : Z := 4.

(** The rows [expire_holds] selects: [status=HOLD, hold_until__lt=now]. *)
Definition expired (now : Z) (s : Seat.t) : bool :=
  is_status Seat.HOLD s && col_lt (Seat.hold_until s) now.

(** The columns [expire_holds] writes; [booking_code] is left as stored. *)
Definition released (s : Seat.t) : Seat.t :=
  Seat.set_claim_code None
    (Seat.set_customer_wa None
       (Seat.set_customer_name None
          (Seat.set_hold_until None
             (Seat.set_hold_token None
                (Seat.set_status Seat.AVAILABLE s))))).

Definition expire_holds (t_sweep : Z) : M Z :=
  let now := t_sweep in
  qs_update (expired now) released.

(** The table after a sweep at [now]. *)
Definition swept (now : Z) (db : DB) : DB := snd (expire_holds now db).

(** ** Queries on trips *)

Definition trip_get (p : Trip.t -> bool) (trips : list Trip.t) : M Trip.t :=
  fun db =>
    match filter p trips with
    | [] => (Raise Trip_DoesNotExist, db)
    | [t] => (Return t, db)
    | _ => (Raise Trip_MultipleObjectsReturned, db)
    end.

Definition active_trip (trip_id : Z) (t : Trip.t) : bool :=
  (Trip.id t =? trip_id) && Trip.is_active t.

Definition get_trip_with_seats (trips : list Trip.t) (trip_id : Z)
  : M (option Trip.t) :=
  try_except
    (t <- trip_get (active_trip trip_id) trips ;; ret (Some t))
    Trip_DoesNotExist
    (ret None).

Definition admin_wa_or_empty (t : Trip.t) : string :=
  match Trip.admin_wa t with
  | Some s => s
  | None => EmptyString
  end.

(** ** Public API payloads *)

Definition seat_map_entry (s : Seat.t) : value :=
  VDict [ ("id"%string, VInt (Seat.id s));
          ("code"%string, VStr (Seat.code s));
          ("status"%string, VStatus (Seat.status s));
          ("hold_until"%string, opt_iso (Seat.hold_until s)) ].

Definition trip_payload (t : Trip.t) : value :=
  VDict [ ("id"%string, VInt (Trip.id t));
          ("title"%string, VStr (Trip.title t));
          ("bus_type"%string, VStr (Trip.bus_type t));
          ("route_from"%string, VStr (Trip.route_from t));
          ("route_to"%string, VStr (Trip.route_to t));
          ("depart_at"%string, VIso (Trip.depart_at t));
          ("price"%string, VInt (Trip.price t));
          ("capacity_total"%string, VInt (Trip.capacity_total t));
          ("admin_wa"%string, VStr (admin_wa_or_empty t)) ].

Definition of_trip (trip_id : Z) (s : Seat.t) : bool :=
  Seat.trip_id s =? trip_id.

Definition get_seat_map (t_sweep : Z) (trips : list Trip.t) (trip_id : Z)
  : M ServiceResult :=
  expire_holds t_sweep ;;;
  trip <- get_trip_with_seats trips trip_id ;;
  match trip with
  | None => ret (failure "Trip tidak ditemukan.")
  | Some trip =>
      fun db =>
        let seats := order_by_code (filter (of_trip (Trip.id trip)) db) in
        (Return
           (mkResult true "OK"
              (Some (VDict [ ("trip"%string, trip_payload trip);
                             ("seats"%string,
                               VList (map seat_map_entry seats)) ]))),
         db)
  end.

Definition seat_payload (seat : Seat.t) : value :=
  VDict [ ("id"%string, VInt (Seat.id seat));
          ("trip_id"%string, VInt (Seat.trip_id seat));
          ("code"%string, VStr (Seat.code seat));
          ("status"%string, VStatus (Seat.status seat));
          ("hold_until"%string, opt_iso (Seat.hold_until seat));
          ("claim_code"%string, opt_str (Seat.claim_code seat));
          ("booking_code"%string, opt_str (Seat.booking_code seat)) ].

(** ** Hold logic *)

(** [trip_id=..., status=HOLD, hold_token=..., hold_until__gte=now] *)
Definition active_hold_of (trip_id : Z) (hold_token : string) (now : Z)
    (s : Seat.t) : bool :=
  of_trip trip_id s && is_status Seat.HOLD s
  && col_eq (Seat.hold_token s) hold_token
  && col_gte (Seat.hold_until s) now.

Definition _count_holds_for_token (t_count : Z) (trip_id : Z)
    (hold_token : string) : M Z :=
  let now := t_count in
  qs_count (active_hold_of trip_id hold_token now).

Definition seat_at (trip_id : Z) (seat_code : string) (s : Seat.t) : bool :=
  of_trip trip_id s && (Seat.code s =? seat_code)%string.

(** [try: seat = ....get(...) except Seat.DoesNotExist: ...] *)
Definition get_seat_or_none (trip_id : Z) (seat_code : string)
  : M (option Seat.t) :=
  try_except
    (s <- qs_get (seat_at trip_id seat_code) ;; ret (Some s))
    Seat_DoesNotExist
    (ret None).

Definition hold_seat (t_sweep now t_count t_save : Z)
    (trip_id : Z) (seat_code hold_token : string)
    (hold_minutes max_hold_per_session : Z) : M ServiceResult :=
  transaction_atomic
    (expire_holds t_sweep ;;;
     current_holds <- _count_holds_for_token t_count trip_id hold_token ;;
     if current_holds >=? max_hold_per_session then
       ret (failure ("Maksimal hold "
                     ++ Py.str_of_int max_hold_per_session ++ " kursi."))
     else
       found <- get_seat_or_none trip_id seat_code ;;
       match found with
       | None => ret (failure "Kursi tidak ditemukan.")
       | Some seat =>
           if is_status Seat.BOOKED seat then
             ret (failure "Kursi sudah terisi (BOOKED).")
           else if is_status Seat.HOLD seat
                   && col_gte (Seat.hold_until seat) now then
             if negb (col_eq (Seat.hold_token seat) hold_token) then
               ret (failure "Kursi sedang di-hold user lain.")
             else
               hold_until <- or_overflow (Py.plus_minutes now hold_minutes) ;;
               let seat := Seat.set_hold_until (Some hold_until) seat in
               let seat := Seat.set_updated_at t_save seat in
               save seat fields_hold_until_updated_at ;;;
               ret (mkResult true "Hold diperpanjang."
                      (Some (seat_payload seat)))
           else
             let seat := Seat.set_status Seat.HOLD seat in
             let seat := Seat.set_hold_token (Some hold_token) seat in
             hold_until <- or_overflow (Py.plus_minutes now hold_minutes) ;;
             let seat := Seat.set_hold_until (Some hold_until) seat in
             let seat := Seat.set_customer_name None seat in
             let seat := Seat.set_customer_wa None seat in
             let seat := Seat.set_claim_code None seat in
             let seat := Seat.set_booked_at None seat in
             let seat := Seat.set_booking_code None seat in
             let seat := Seat.set_updated_at t_save seat in
             save seat all_fields ;;;
             ret (mkResult true "Kursi berhasil di-hold."
                    (Some (seat_payload seat)))
       end)%string.

Definition release_seat (t_sweep now t_save : Z)
    (trip_id : Z) (seat_code hold_token : string) : M ServiceResult :=
  transaction_atomic
    (expire_holds t_sweep ;;;
     found <- get_seat_or_none trip_id seat_code ;;
     match found with
     | None => ret (failure "Kursi tidak ditemukan.")
     | Some seat =>
         if negb (is_status Seat.HOLD seat)
            || match Seat.hold_until seat with
               | None => true
               | Some u => u <? now
               end
         then ret (failure "Kursi tidak sedang di-hold aktif.")
         else if negb (col_eq (Seat.hold_token seat) hold_token) then
           ret (failure "Tidak punya akses untuk melepas hold ini.")
         else
           let seat := Seat.set_status Seat.AVAILABLE seat in
           let seat := Seat.set_hold_token None seat in
           let seat := Seat.set_hold_until None seat in
           let seat := Seat.set_customer_name None seat in
           let seat := Seat.set_customer_wa None seat in
           let seat := Seat.set_claim_code None seat in
           let seat := Seat.set_updated_at t_save seat in
           save seat all_fields ;;;
           ret (mkResult true "Hold dilepas." (Some (seat_payload seat)))
     end).

(** ** Contact + Claim *)

(** The columns the [update] of [attach_contact_and_generate_claim] sets. *)
Definition attach_columns {rt : Runtime}
    (claim_code customer_name customer_wa : string) (s : Seat.t) : Seat.t :=
  Seat.set_claim_code (Some claim_code)
    (Seat.set_customer_wa (Some (str_strip customer_wa))
       (Seat.set_customer_name (Some (str_strip customer_name)) s)).

Definition attach_contact_and_generate_claim {rt : Runtime} (t_sweep now : Z)
    (generated_claim_code : string) (trips : list Trip.t)
    (trip_id : Z) (hold_token customer_name customer_wa : string)
  : M ServiceResult :=
  transaction_atomic
    (expire_holds t_sweep ;;;
     trip <- try_except
               (t <- trip_get (active_trip trip_id) trips ;; ret (Some t))
               Trip_DoesNotExist
               (ret None) ;;
     match trip with
     | None => ret (failure "Trip tidak ditemukan.")
     | Some trip =>
         let seats := active_hold_of trip_id hold_token now in
         nonempty <- qs_exists seats ;;
         if negb nonempty then
           ret (failure "Tidak ada kursi hold aktif untuk token ini.")
         else
           let claim_code := generated_claim_code in
           qs_update seats
             (attach_columns claim_code customer_name customer_wa) ;;;
           seat_codes <- qs_codes_ordered seats ;;
           hold_until_max <- qs_max_hold_until seats ;;
           ret (mkResult true "Kontak disimpan & claim code dibuat."
                  (Some (VDict
                     [ ("claim_code"%string, VStr claim_code);
                       ("seat_codes"%string, VList (map VStr seat_codes));
                       ("hold_until"%string, opt_iso hold_until_max);
                       ("admin_wa"%string, VStr (admin_wa_or_empty trip)) ])))
     end).

(** The [Q] object of [claim_hold_by_code]. *)
Definition claim_q {rt : Runtime} (trip_id : Z) (claim_code : string)
    (customer_wa : option string) (now : Z) (s : Seat.t) : bool :=
  let q :=
    of_trip trip_id s && is_status Seat.HOLD s
    && col_gte (Seat.hold_until s) now
    && col_eq (Seat.claim_code s) (str_upper (str_strip claim_code)) in
  if Py.truthy customer_wa then
    match customer_wa with
    | Some wa => q && col_eq (Seat.customer_wa s) (str_strip wa)
    | None => q
    end
  else q.

Definition claim_hold_by_code {rt : Runtime} (t_sweep now : Z)
    (trip_id : Z) (claim_code new_hold_token : string)
    (customer_wa : option string) : M ServiceResult :=
  transaction_atomic
    (expire_holds t_sweep ;;;
     let seats := claim_q trip_id claim_code customer_wa now in
     nonempty <- qs_exists seats ;;
     if negb nonempty then
       ret (failure "Claim code tidak valid atau sudah expired.")
     else
       qs_update seats (Seat.set_hold_token (Some new_hold_token)) ;;;
       seat_codes <- qs_codes_ordered seats ;;
       hold_until_max <- qs_max_hold_until seats ;;
       ret (mkResult true "Hold berhasil di-claim."
              (Some (VDict
                 [ ("seat_codes"%string, VList (map VStr seat_codes));
                   ("hold_until"%string, opt_iso hold_until_max) ])))).

(** ** Admin: BOOKED + booking_code *)

(** [trip_id=trip_id, code__in=seat_codes] *)
Definition requested (trip_id : Z) (seat_codes : list string) (s : Seat.t)
  : bool :=
  of_trip trip_id s && code_in seat_codes (Seat.code s).

Definition requested_booked (trip_id : Z) (seat_codes : list string)
    (s : Seat.t) : bool :=
  requested trip_id seat_codes s && is_status Seat.BOOKED s.

Definition not_found_message : string := "Ada kursi yang tidak ditemukan.".

Definition already_booked_message (already_booked : list string) : string :=
  ("Kursi sudah BOOKED: " ++ Py.join ", " already_booked)%string.

(** The columns the [update] of each admin operation sets. *)
Definition book_columns (now : Z) (booking_code : string) (s : Seat.t)
  : Seat.t :=
  Seat.set_hold_until None
    (Seat.set_hold_token None
       (Seat.set_booking_code (Some booking_code)
          (Seat.set_booked_at (Some now)
             (Seat.set_status Seat.BOOKED s)))).

Definition confirm_columns (now : Z) (s : Seat.t) : Seat.t :=
  Seat.set_hold_until None
    (Seat.set_hold_token None
       (Seat.set_booked_at (Some now)
          (Seat.set_status Seat.BOOKED s))).

Definition admin_generate_booking_code_and_book {rt : Runtime}
    (t_sweep now : Z)
    (generated_booking_code : string)
    (trip_id : Z) (seat_codes : list string) : M ServiceResult :=
  transaction_atomic
    (expire_holds t_sweep ;;;
     let seats := requested trip_id seat_codes in
     n <- qs_count seats ;;
     if negb (n =? Z.of_nat (List.length seat_codes)) then
       ret (failure not_found_message)
     else
       already_booked <- qs_codes (requested_booked trip_id seat_codes) ;;
       match already_booked with
       | _ :: _ => ret (failure (already_booked_message already_booked))
       | [] =>
           let booking_code := generated_booking_code in
           qs_update seats (book_columns now booking_code) ;;;
           ret (mkResult true "BOOKED + booking code dibuat."
                  (Some (VDict
                     [ ("seat_codes"%string, VList (map VStr seat_codes));
                       ("booking_code"%string, VStr booking_code) ])))
       end).

(** ** Legacy admin confirm *)

Definition confirm_booked_by_admin {rt : Runtime} (t_sweep now : Z)
    (trip_id : Z) (seat_codes : list string) : M ServiceResult :=
  transaction_atomic
    (expire_holds t_sweep ;;;
     let seats := requested trip_id seat_codes in
     n <- qs_count seats ;;
     if negb (n =? Z.of_nat (List.length seat_codes)) then
       ret (failure not_found_message)
     else
       already_booked <- qs_codes (requested_booked trip_id seat_codes) ;;
       match already_booked with
       | _ :: _ => ret (failure (already_booked_message already_booked))
       | [] =>
           qs_update seats (confirm_columns now) ;;;
           ret (mkResult true "Kursi berhasil dikonfirmasi BOOKED."
                  (Some (VDict
                     [ ("seat_codes"%string, VList (map VStr seat_codes)) ])))
       end).

(** ** Sample data, after the fixtures of [booking/tests.py] *)

Module Sample.

(** The runtime of the examples.  Their text is ASCII, on which [str.strip]
    and [str.upper] are the two ASCII functions; and the database yields
    rows in table order, the tables of the examples being listed by seat
    code wherever more than one row is yielded that way. *)
Definition runtime : Runtime :=
  mkRuntime Py.ascii_strip Py.ascii_upper (fun rows => rows)
    (fun rows => Permutation_refl rows).

Definition trip1 : Trip.t :=
  Trip.mk 1 "Jakarta - Bandung (Pagi)" "EXEC" "Jakarta" "Bandung"
    86400000000 150000 4 None true.

Definition trips : list Trip.t := [trip1].

(** A fresh seat, as [Seat.objects.create(trip=..., code=...)] makes it. *)
Definition fresh (id : Z) (code : string) : Seat.t :=
  Seat.mk id 1 code Seat.AVAILABLE None None None None None None None 0.

(** A seat on hold for [token] until [u]. *)
Definition held (id : Z) (code token : string) (u : Z) : Seat.t :=
  Seat.set_hold_until (Some u)
    (Seat.set_hold_token (Some token)
       (Seat.set_status Seat.HOLD (fresh id code))).

(** A seat on hold with contact data and a claim code attached. *)
Definition claimed (id : Z) (code token : string) (u : Z)
    (name wa claim : string) : Seat.t :=
  Seat.set_claim_code (Some claim)
    (Seat.set_customer_wa (Some wa)
       (Seat.set_customer_name (Some name) (held id code token u))).

Definition booked (id : Z) (code : string) (at_ : Z) : Seat.t :=
  Seat.set_booked_at (Some at_)
    (Seat.set_status Seat.BOOKED (fresh id code)).

Definition tokenA : string := "tokenA".
Definition tokenB : string := "tokenB".

(** The clock reading used as "now" in the examples. *)
Definition t0 : Z := 1000000000.
Definition minute : Z := 60000000.

(** The four seats of the test fixture. *)
Definition db0 : DB :=
  [fresh 1 "A1"; fresh 2 "A2"; fresh 3 "A3"; fresh 4 "A4"].

(** The table after a call, whatever it returned. *)
Definition after {A} (m : M A) (db : DB) : DB := snd (m db).

Definition succeeded (m : M ServiceResult) (db : DB) : bool :=
  match fst (m db) with
  | Return r => ok r
  | Raise _ => false
  end.

Definition seat_of (code : string) (db : DB) : option Seat.t :=
  find (seat_at 1 code) db.

Definition hold (code token : string) : M ServiceResult :=
  hold_seat t0 t0 t0 t0 1 code token HOLD_MINUTES_DEFAULT
    MAX_HOLD_PER_SESSION_DEFAULT.

End Sample.

(** ** The reservation engine as one entry point *)

(** One constructor per operation of the engine, with the arguments of the
    call; the generated codes ride along with the two operations that draw
    one. *)
Inductive call :=
| Hold (trip_id : Z) (seat_code hold_token : string)
       (hold_minutes max_hold_per_session : Z)
| Release (trip_id : Z) (seat_code hold_token : string)
| Attach (generated_claim_code : string) (trips : list Trip.t) (trip_id : Z)
         (hold_token customer_name customer_wa : string)
| Claim (trip_id : Z) (claim_code new_hold_token : string)
        (customer_wa : option string)
| AdminBook (generated_booking_code : string) (trip_id : Z)
            (seat_codes : list string)
| AdminConfirm (trip_id : Z) (seat_codes : list string).

Definition perform {rt : Runtime} (t_sweep now t_count t_save : Z) (c : call)
  : M ServiceResult :=
  match c with
  | Hold trip_id seat_code hold_token hold_minutes max_hold_per_session =>
      hold_seat t_sweep now t_count t_save trip_id seat_code hold_token
        hold_minutes max_hold_per_session
  | Release trip_id seat_code hold_token =>
      release_seat t_sweep now t_save trip_id seat_code hold_token
  | Attach generated trips trip_id hold_token customer_name customer_wa =>
      attach_contact_and_generate_claim t_sweep now generated trips trip_id
        hold_token customer_name customer_wa
  | Claim trip_id claim_code new_hold_token customer_wa =>
      claim_hold_by_code t_sweep now trip_id claim_code new_hold_token
        customer_wa
  | AdminBook generated trip_id seat_codes =>
      admin_generate_booking_code_and_book t_sweep now generated trip_id
        seat_codes
  | AdminConfirm trip_id seat_codes =>
      confirm_booked_by_admin t_sweep now trip_id seat_codes
  end.

(** ** What the sweep does to one row *)

Definition sweep_row (now : Z) (s : Seat.t) : Seat.t :=
  if expired now s then released s else s.

(** Each (trip, code) pair names at most one row: the uniqueness the seat
    model declares and [get(trip_id=..., code=...)] relies on. *)
Definition seat_key (s : Seat.t) : Z * string := (Seat.trip_id s, Seat.code s).

Definition unique_codes (db : DB) : Prop := NoDup (map seat_key db).

(** What a call that selects rows with [p] and rewrites them with [f]
    leaves in place of a row [s] it found in the table: the sweep first,
    then the rewrite if the row is selected. *)
Definition row_after (t_sweep : Z) (p : Seat.t -> bool)
    (f : Seat.t -> Seat.t) (s : Seat.t) : Seat.t :=
  if p s then f (sweep_row t_sweep s) else sweep_row t_sweep s.

(** A row with the private columns blanked: two tables differ only in
    [hold_token], [claim_code], [booking_code], [customer_name] and
    [customer_wa] exactly when their scrubbed rows are the same. *)
Definition scrub (s : Seat.t) : Seat.t :=
  Seat.set_customer_wa None
    (Seat.set_customer_name None
       (Seat.set_booking_code None
          (Seat.set_claim_code None
             (Seat.set_hold_token None s)))).

(** The per-seat entries [get_seat_map] renders for a trip. *)
Definition seat_entries (t_sweep : Z) (trip_id : Z) (db : DB) : list value :=
  map seat_map_entry
    (order_by_code (filter (of_trip trip_id) (swept t_sweep db))).

(** A predicate that only selects holds that are live at [now]. *)
Definition selects_live (now : Z) (p : Seat.t -> bool) : Prop :=
  forall s, p s = true ->
            is_status Seat.HOLD s && col_gte (Seat.hold_until s) now = true.

(** ** Trip listing *)

(** [.order_by("depart_at")]: a stable insertion sort on the departure. *)
Fixpoint insert_by_depart (t : Trip.t) (l : list Trip.t) : list Trip.t :=
  match l with
  | [] => [t]
  | x :: l' =>
      if Trip.depart_at t <=? Trip.depart_at x then t :: l
      else x :: insert_by_depart t l'
  end.

Fixpoint order_by_depart (l : list Trip.t) : list Trip.t :=
  match l with
  | [] => []
  | x :: l' => insert_by_depart x (order_by_depart l')
  end.

Definition list_trips (trips : list Trip.t) : list Trip.t :=
  order_by_depart (filter Trip.is_active trips).

(** The orders of the two [order_by] clauses. *)
Definition code_le (a b : Seat.t) : Prop :=
  String.leb (Seat.code a) (Seat.code b) = true.

Definition depart_le (a b : Trip.t) : Prop :=
  Trip.depart_at a <= Trip.depart_at b.

(** ** Row invariants *)

(** What never changes in a seat row: its primary key, its trip and its
    code. *)
Definition seat_ident (s : Seat.t) : Z * Z * string :=
  (Seat.id s, Seat.trip_id s, Seat.code s).

Definition unique_ids (db : DB) : Prop := NoDup (map Seat.id db).

Definition is_some {A} (o : option A) : bool :=
  match o with Some _ => true | None => false end.

Definition is_none {A} (o : option A) : bool := negb (is_some o).

(** The shape of a row in each status: an AVAILABLE row carries no hold and
    no claim code, a HOLD row has a holder and a deadline and no booking
    code, a BOOKED row has a booking time and no hold. *)
Definition row_ok (s : Seat.t) : bool :=
  match Seat.status s with
  | Seat.AVAILABLE =>
      is_none (Seat.hold_token s) && is_none (Seat.hold_until s)
      && is_none (Seat.claim_code s)
  | Seat.HOLD =>
      is_some (Seat.hold_token s) && is_some (Seat.hold_until s)
      && is_none (Seat.booking_code s)
  | Seat.BOOKED =>
      is_none (Seat.hold_token s) && is_none (Seat.hold_until s)
      && is_some (Seat.booked_at s)
  end.

Definition count_status (st : Seat.Status) (db : DB) : Z :=
  Z.of_nat (List.length (filter (is_status st) db)).

(** ** The rows [hold_seat] and [release_seat] save *)

(** The instance [hold_seat] saves when it extends a hold. *)
Definition refreshed (hold_until t_save : Z) (seat : Seat.t) : Seat.t :=
  Seat.set_updated_at t_save (Seat.set_hold_until (Some hold_until) seat).

(** The instance [hold_seat] saves when it takes a seat. *)
Definition acquired (hold_until t_save : Z) (hold_token : string)
    (seat : Seat.t) : Seat.t :=
  Seat.set_updated_at t_save
    (Seat.set_booking_code None
       (Seat.set_booked_at None
          (Seat.set_claim_code None
             (Seat.set_customer_wa None
                (Seat.set_customer_name None
                   (Seat.set_hold_until (Some hold_until)
                      (Seat.set_hold_token (Some hold_token)
                         (Seat.set_status Seat.HOLD seat)))))))).

(** The instance [release_seat] saves. *)
Definition freed (t_save : Z) (seat : Seat.t) : Seat.t :=
  Seat.set_updated_at t_save
    (Seat.set_claim_code None
       (Seat.set_customer_wa None
          (Seat.set_customer_name None
             (Seat.set_hold_until None
                (Seat.set_hold_token None
                   (Seat.set_status Seat.AVAILABLE seat)))))).

(** The table after [save]. *)
Definition saved (inst : Seat.t) (write : Seat.t -> Seat.t -> Seat.t)
    (db : DB) : DB :=
  snd (save inst write db).

(** A hold that is live at [now]. *)
Definition live_hold (now : Z) (s : Seat.t) : bool :=
  is_status Seat.HOLD s && col_gte (Seat.hold_until s) now.

(** The table after [qs.update(...)]. *)
Definition updated (p : Seat.t -> bool) (f : Seat.t -> Seat.t) (db : DB)
  : DB :=
  snd (qs_update p f db).

(** Every write an operation makes after its sweep, on the swept table:
    none, one of the three [save]s with the row they load, or one of the
    four [update]s with the rows they select. *)
Inductive table_write {rt : Runtime} (now t_save : Z) (db : DB)
  : DB -> Prop :=
| W_none : table_write now t_save db db
| W_refresh seat hold_until :
    In seat db -> live_hold now seat = true ->
    table_write now t_save db
      (saved (refreshed hold_until t_save seat)
         fields_hold_until_updated_at db)
| W_acquire seat hold_until hold_token :
    In seat db -> is_status Seat.BOOKED seat = false ->
    table_write now t_save db
      (saved (acquired hold_until t_save hold_token seat) all_fields db)
| W_free seat :
    In seat db -> live_hold now seat = true ->
    table_write now t_save db (saved (freed t_save seat) all_fields db)
| W_attach trip_id hold_token claim_code customer_name customer_wa :
    table_write now t_save db
      (updated (active_hold_of trip_id hold_token now)
         (attach_columns claim_code customer_name customer_wa) db)
| W_claim trip_id claim_code customer_wa new_hold_token :
    table_write now t_save db
      (updated (claim_q trip_id claim_code customer_wa now)
         (Seat.set_hold_token (Some new_hold_token)) db)
| W_book trip_id seat_codes booking_code :
    filter (requested_booked trip_id seat_codes) db = [] ->
    table_write now t_save db
      (updated (requested trip_id seat_codes)
         (book_columns now booking_code) db)
| W_confirm trip_id seat_codes :
    filter (requested_booked trip_id seat_codes) db = [] ->
    table_write now t_save db
      (updated (requested trip_id seat_codes) (confirm_columns now) db).

(** A row rewrite is gentle on a table when every row it changes was not
    BOOKED, keeps its primary key, trip and code, and stays well shaped if
    it was. *)
Definition gentle (g : Seat.t -> Seat.t) (db : DB) : Prop :=
  forall r, In r db ->
            g r = r
            \/ (is_status Seat.BOOKED r = false
                /\ seat_ident (g r) = seat_ident r
                /\ (row_ok r = true -> row_ok (g r) = true)).

(** ** The management command [generate_seats] *)

(** [booking/management/commands/generate_seats.py].  The command works on
    the seat table and the trip table and prints to its standard output; the
    colour wrappers [style.WARNING] / [style.SUCCESS] are left out of the
    printed lines.  Its [CommandError]s come before its first write.  The
    one raise after a write is the [ValueError] of [chr] when the row letters
    run past the last code point: the rollback of [@transaction.atomic] then
    undoes the delete of [--reset], and what was printed stays printed. *)
Module GenerateSeats.

(** One byte of UTF-8 text. *)
Definition byte (k : Z) (rest : string) : string :=
  String (ascii_of_N (Z.to_N k)) rest.

(** [chr(n)] for a code point [n] (0 to 0x10FFFF), as UTF-8 text of one to
    four bytes.  Outside that range [chr] raises [ValueError]; [handle]
    tests for it before it asks for a letter.  From 0xD800 to 0xDFFF the
    letter is a lone surrogate, written here in the three bytes of the same
    scheme; whether the database driver then stores such a code is outside
    the repository. *)
Definition chr (n : Z) : string :=
  if n <? 128 then byte n EmptyString
  else if n <? 2048 then
    byte (192 + n / 64) (byte (128 + n mod 64) EmptyString)
  else if n <? 65536 then
    byte (224 + n / 4096)
      (byte (128 + n / 64 mod 64) (byte (128 + n mod 64) EmptyString))
  else
    byte (240 + n / 262144)
      (byte (128 + n / 4096 mod 64)
         (byte (128 + n / 64 mod 64) (byte (128 + n mod 64) EmptyString))).

(** The last code point, [0x10FFFF]. *)
Definition maxunicode : Z := 1114111.

(** [row_letters(n)]: [chr(ord("A") + i) for i in range(n)]. *)
Definition row_letters (n : Z) : list string :=
  map (fun i => chr (65 + Z.of_nat i)) (seq 0 (Z.to_nat n)).

(** [range(1, n + 1)] *)
Definition numbers (n : Z) : list Z :=
  map (fun i => Z.of_nat i) (seq 1 (Z.to_nat n)).

Record options := mkOptions
  { trip : Z;
    rows : Z;
    seats_per_row : Z;
    prefix : option string;
    reset : bool }.

(** The two tables and what the command wrote to its standard output. *)
Record world := mkWorld
  { seats : list Seat.t;
    trips : list Trip.t;
    stdout : list string }.

Inductive result :=
| Done
| CommandError (msg : string)
| MultipleObjectsReturned
| ValueError.

(** The codes the two loops walk through, in order:
    [f"{prefix}{row}{num}"]. *)
Definition layout_codes (prefix : string) (rows seats_per_row : Z)
  : list string :=
  flat_map
    (fun row =>
       map (fun num => (prefix ++ row ++ Py.str_of_int num)%string)
         (numbers seats_per_row))
    (row_letters rows).

(** The rows a [bulk_create] of the given codes appends, [stored i t c]
    being the row the database holds for the [i]-th instance
    [Seat(trip=t, code=c, status=AVAILABLE)] of the batch. *)
Fixpoint bulk_rows (stored : nat -> Z -> string -> Seat.t) (i : nat)
    (trip_id : Z) (codes : list string) : list Seat.t :=
  match codes with
  | [] => []
  | c :: codes' => stored i trip_id c :: bulk_rows stored (S i) trip_id codes'
  end.

(** What the source fixes about such a row. *)
Definition stored_ok (stored : nat -> Z -> string -> Seat.t) : Prop :=
  forall i t c,
    Seat.trip_id (stored i t c) = t
    /\ Seat.code (stored i t c) = c
    /\ Seat.status (stored i t c) = Seat.AVAILABLE.

(** A database for the examples: ids are handed out from [first_id] on and
    every other column is empty. *)
Definition sample_stored (first_id : Z) (i : nat) (t : Z) (c : string)
  : Seat.t :=
  Seat.mk (first_id + Z.of_nat i) t c Seat.AVAILABLE None None None None None
    None None 0.

Definition set_capacity_total (v : Z) (t : Trip.t) : Trip.t :=
  Trip.mk (Trip.id t) (Trip.title t) (Trip.bus_type t) (Trip.route_from t)
    (Trip.route_to t) (Trip.depart_at t) (Trip.price t) v (Trip.admin_wa t)
    (Trip.is_active t).

Definition handle {rt : Runtime} (stored : nat -> Z -> string -> Seat.t)
    (o : options) (w : world) : result * world :=
  let trip_id := trip o in
  let rows := rows o in
  let seats_per_row := seats_per_row o in
  let prefix :=
    str_upper (str_strip (if Py.truthy (prefix o)
                          then match prefix o with
                               | Some p => p
                               | None => EmptyString
                               end
                          else EmptyString)) in
  if (rows <=? 0) || (seats_per_row <=? 0) then
    (CommandError "--rows dan --seats-per-row harus > 0", w)
  else
    match filter (fun t => Trip.id t =? trip_id) (trips w) with
    | [] =>
        (CommandError
           ("Trip id=" ++ Py.str_of_int trip_id ++ " tidak ditemukan."), w)
    | [trip] =>
        let mine := of_trip (Trip.id trip) in
        let w1 :=
          if reset o then
            let deleted := Z.of_nat (List.length (filter mine (seats w))) in
            mkWorld (filter (fun s => negb (mine s)) (seats w)) (trips w)
              (stdout w
               ++ [("Reset: hapus " ++ Py.str_of_int deleted ++ " seat.")%string])
          else w in
        (* the last row letter asked for is [chr(ord("A") + rows - 1)] *)
        if maxunicode <? 65 + (rows - 1) then
          (ValueError, mkWorld (seats w) (trips w) (stdout w1))
        else
          let existing_codes := map Seat.code (filter mine (seats w1)) in
          let seats_to_create :=
            bulk_rows stored 0 (Trip.id trip)
              (filter (fun code => negb (code_in existing_codes code))
                 (layout_codes prefix rows seats_per_row)) in
          let seats2 := (seats w1 ++ seats_to_create)%list in
          let created_count := Z.of_nat (List.length seats_to_create) in
          let total_seats := Z.of_nat (List.length (filter mine seats2)) in
          let trips2 :=
            if negb (Trip.capacity_total trip =? total_seats) then
              map (fun t => if Trip.id t =? Trip.id trip
                            then set_capacity_total total_seats t else t)
                (trips w1)
            else trips w1 in
          (Done,
           mkWorld seats2 trips2
             (stdout w1
              ++ [("Selesai. Dibuat " ++ Py.str_of_int created_count
                   ++ " seat baru. Total seat trip sekarang: "
                   ++ Py.str_of_int total_seats ++ ".")%string]))
    | _ => (MultipleObjectsReturned, w)
    end.

End GenerateSeats.

(** ** Properties of the sweep *)

Lemma swept_map now db : swept now db = map (sweep_row now) db.
Proof. reflexivity. Qed.

Lemma expire_holds_run now db :
  expire_holds now db =
  (Return (Z.of_nat (List.length (filter (expired now) db))), swept now db).
Proof. reflexivity. Qed.

Lemma sweep_row_not_expired now s :
  expired now s = false -> sweep_row now s = s.
Proof. unfold sweep_row. now intros ->. Qed.

Lemma sweep_row_keys now s :
  Seat.id (sweep_row now s) = Seat.id s
  /\ Seat.trip_id (sweep_row now s) = Seat.trip_id s
  /\ Seat.code (sweep_row now s) = Seat.code s.
Proof. unfold sweep_row. destruct (expired now s); simpl; auto. Qed.

Lemma sweep_row_clean now s : expired now (sweep_row now s) = false.
Proof.
  unfold sweep_row. destruct (expired now s) eqn:E; [reflexivity | exact E].
Qed.

Lemma sweep_row_booked now s :
  is_status Seat.BOOKED (sweep_row now s) = is_status Seat.BOOKED s.
Proof.
  unfold sweep_row. destruct (expired now s) eqn:E; [|reflexivity].
  unfold expired in E. apply andb_true_iff in E as [E _].
  unfold is_status in *. simpl.
  destruct (Seat.status s); simpl in *; congruence.
Qed.

Lemma of_trip_sweep now trip_id s :
  of_trip trip_id (sweep_row now s) = of_trip trip_id s.
Proof.
  unfold of_trip. destruct (sweep_row_keys now s) as (_ & -> & _). reflexivity.
Qed.

Lemma seat_at_sweep now trip_id seat_code s :
  seat_at trip_id seat_code (sweep_row now s) = seat_at trip_id seat_code s.
Proof.
  unfold seat_at. rewrite of_trip_sweep.
  destruct (sweep_row_keys now s) as (_ & _ & ->). reflexivity.
Qed.

Lemma requested_sweep now trip_id seat_codes s :
  requested trip_id seat_codes (sweep_row now s)
  = requested trip_id seat_codes s.
Proof.
  unfold requested. rewrite of_trip_sweep.
  destruct (sweep_row_keys now s) as (_ & _ & ->). reflexivity.
Qed.

Lemma requested_booked_sweep now trip_id seat_codes s :
  requested_booked trip_id seat_codes (sweep_row now s)
  = requested_booked trip_id seat_codes s.
Proof.
  unfold requested_booked. now rewrite requested_sweep, sweep_row_booked.
Qed.

Lemma live_not_expired t_sweep now s :
  t_sweep <= now ->
  is_status Seat.HOLD s && col_gte (Seat.hold_until s) now = true ->
  expired t_sweep s = false.
Proof.
  intros Hle H. unfold expired.
  apply andb_true_iff in H as [-> H]. simpl.
  unfold col_gte, col_lt in *. destruct (Seat.hold_until s); [|reflexivity].
  apply Z.ltb_ge. apply Z.geb_le in H. lia.
Qed.

Lemma released_not_hold s : is_status Seat.HOLD (released s) = false.
Proof. reflexivity. Qed.

Lemma selects_live_sweep t_sweep now p s :
  t_sweep <= now ->
  selects_live now p ->
  (forall s', p (released s') = false) ->
  p (sweep_row t_sweep s) = p s.
Proof.
  intros Hle Hp Hrel. unfold sweep_row.
  destruct (expired t_sweep s) eqn:E; [|reflexivity].
  rewrite Hrel. destruct (p s) eqn:Ps; [|reflexivity].
  apply Hp in Ps. apply (live_not_expired t_sweep) in Ps; [congruence | exact Hle].
Qed.

Lemma active_hold_live trip_id hold_token now :
  selects_live now (active_hold_of trip_id hold_token now).
Proof.
  intros s H. unfold active_hold_of in H.
  repeat (apply andb_true_iff in H as [H ?]).
  apply andb_true_iff; split; assumption.
Qed.

Lemma active_hold_released trip_id hold_token now s :
  active_hold_of trip_id hold_token now (released s) = false.
Proof.
  unfold active_hold_of. rewrite released_not_hold.
  now rewrite andb_false_r.
Qed.

Lemma active_hold_sweep t_sweep now trip_id hold_token s :
  t_sweep <= now ->
  active_hold_of trip_id hold_token now (sweep_row t_sweep s)
  = active_hold_of trip_id hold_token now s.
Proof.
  intros Hle. apply (selects_live_sweep t_sweep now); auto.
  - apply active_hold_live.
  - apply active_hold_released.
Qed.

Lemma claim_q_live {rt : Runtime} trip_id claim_code customer_wa now :
  selects_live now (claim_q trip_id claim_code customer_wa now).
Proof.
  intros s H. unfold claim_q in H.
  assert (Hq : of_trip trip_id s && is_status Seat.HOLD s
               && col_gte (Seat.hold_until s) now
               && col_eq (Seat.claim_code s) (str_upper (str_strip claim_code))
               = true).
  { destruct (Py.truthy customer_wa); [destruct customer_wa|]; auto.
    now apply andb_true_iff in H as [H _]. }
  repeat (apply andb_true_iff in Hq as [Hq ?]).
  apply andb_true_iff; split; assumption.
Qed.

Lemma claim_q_released {rt : Runtime} trip_id claim_code customer_wa now s :
  claim_q trip_id claim_code customer_wa now (released s) = false.
Proof.
  unfold claim_q. rewrite released_not_hold.
  rewrite andb_false_r. simpl.
  destruct (Py.truthy customer_wa); [destruct customer_wa|]; reflexivity.
Qed.

Lemma claim_q_sweep {rt : Runtime}
    t_sweep now trip_id claim_code customer_wa s :
  t_sweep <= now ->
  claim_q trip_id claim_code customer_wa now (sweep_row t_sweep s)
  = claim_q trip_id claim_code customer_wa now s.
Proof.
  intros Hle. apply (selects_live_sweep t_sweep now); auto.
  - apply claim_q_live.
  - apply claim_q_released.
Qed.

(** Lists: filtering and testing through a map that respects the predicate. *)

Lemma filter_map_compat {A} (p : A -> bool) (f : A -> A) (l : list A) :
  (forall x, p (f x) = p x) ->
  filter p (map f l) = map f (filter p l).
Proof.
  intros H. induction l as [|x l IH]; simpl; [reflexivity|].
  rewrite H. destruct (p x); simpl; now rewrite IH.
Qed.

Lemma existsb_map_compat {A} (p : A -> bool) (f : A -> A) (l : list A) :
  (forall x, p (f x) = p x) ->
  existsb p (map f l) = existsb p l.
Proof.
  intros H. induction l as [|x l IH]; simpl; [reflexivity|].
  now rewrite H, IH.
Qed.


(** ** Proof automation for running an operation *)

Ltac unfold_ops :=
  unfold perform, hold_seat, release_seat, attach_contact_and_generate_claim,
    claim_hold_by_code, admin_generate_booking_code_and_book,
    confirm_booked_by_admin, get_seat_map, get_seat_or_none,
    get_trip_with_seats, _count_holds_for_token, transaction_atomic,
    try_except, trip_get, or_overflow, bind, ret, raise, save, qs_get,
    qs_count, qs_exists, qs_codes, qs_codes_ordered, qs_max_hold_until,
    qs_update in *;
  rewrite ?expire_holds_run in *;
  cbv beta iota in *.

(** Split on every test the run of an operation went through. *)
Ltac split_run H :=
  repeat match type of H with
    | context [match ?x with _ => _ end] =>
        lazymatch x with
        | context [match _ with _ => _ end] => fail
        | _ => destruct x eqn:?; cbv beta iota in H
        end
    end.

(** ** The expiry sweeper *)

(** C6, as amended: after [expire_holds] ran at [now], a seat that is still
    on HOLD and has a deadline has it at [now] or later; a hold whose
    deadline is exactly [now] is not released. *)
Theorem expire_holds_no_stale_hold now db s u :
  In s (swept now db) ->
  Seat.status s = Seat.HOLD ->
  Seat.hold_until s = Some u ->
  now <= u.
Proof.
  rewrite swept_map. intros Hin Hst Hu.
  apply in_map_iff in Hin as (s0 & <- & _).
  pose proof (sweep_row_clean now s0) as Hc.
  unfold expired, is_status in Hc. rewrite Hst, Hu in Hc. simpl in Hc.
  apply Z.ltb_ge in Hc. exact Hc.
Qed.

Lemma expire_holds_no_stale_hold_witness :
  let db := [Sample.held 1 "A1" Sample.tokenA (Sample.t0 + Sample.minute);
             Sample.held 2 "A2" Sample.tokenB (Sample.t0 - Sample.minute)] in
  let s := Sample.held 1 "A1" Sample.tokenA (Sample.t0 + Sample.minute) in
  In s (swept Sample.t0 db)
  /\ Seat.status s = Seat.HOLD
  /\ Sample.t0 <= Sample.t0 + Sample.minute.
Proof.
  intros db s.
  assert (Hin : In s (swept Sample.t0 db)) by (left; reflexivity).
  split; [exact Hin | split; [reflexivity | ]].
  exact (expire_holds_no_stale_hold Sample.t0 db s _ Hin eq_refl eq_refl).
Defined.

(** C6, as stated, fails: a hold whose deadline equals the sweep time
    survives the sweep, and its deadline is not strictly after that time. *)
Lemma expire_holds_keeps_hold_due_now :
  let db := [Sample.held 1 "A1" Sample.tokenA Sample.t0] in
  ~ (forall s, In s (swept Sample.t0 db) ->
               Seat.status s = Seat.HOLD ->
               exists u, Seat.hold_until s = Some u /\ Sample.t0 < u).
Proof.
  intros db H.
  destruct (H (Sample.held 1 "A1" Sample.tokenA Sample.t0)) as (u & Hu & Hlt).
  - left. reflexivity.
  - reflexivity.
  - simpl in Hu. injection Hu as <-. lia.
Qed.

(** ** Failure and the transaction *)

(** C2, as amended: an operation that returns a failure result leaves the
    table exactly as its own initial sweep left it.  A returned failure is
    not an exception, so the transaction commits; every failure test comes
    before the first write other than the sweep. *)
Theorem failure_commits_only_the_sweep {rt : Runtime}
    t_sweep now t_count t_save c db r db' :
  perform t_sweep now t_count t_save c db = (Return r, db') ->
  ok r = false ->
  db' = swept t_sweep db.
Proof.
  intros H Hok.
  destruct c; unfold_ops; split_run H;
    try discriminate; inversion H; subst; simpl in Hok;
    try discriminate; reflexivity.
Qed.

(** What the decorator is for: an operation that raises (two rows under one
    trip and code make [get] raise, a hold too long for a [datetime] makes
    the deadline raise) leaves the table as it found it, the sweep
    included. *)
Lemma raise_rolls_back {rt : Runtime} t_sweep now t_count t_save c db e db' :
  perform t_sweep now t_count t_save c db = (Raise e, db') ->
  db' = db.
Proof.
  intros H.
  destruct c; unfold_ops; split_run H;
    try discriminate; inversion H; subst; reflexivity.
Qed.

Lemma failure_commits_only_the_sweep_witness :
  let db := [Sample.held 1 "A1" Sample.tokenA (Sample.t0 - Sample.minute)] in
  let c := Hold 1 "Z9" Sample.tokenB 10 4 in
  let r := failure "Kursi tidak ditemukan." in
  perform (rt := Sample.runtime) Sample.t0 Sample.t0 Sample.t0 Sample.t0 c db
  = (Return r, [Sample.fresh 1 "A1"])
  /\ ok r = false
  /\ [Sample.fresh 1 "A1"] = swept Sample.t0 db.
Proof.
  intros db c r.
  assert (Hrun : perform (rt := Sample.runtime) Sample.t0 Sample.t0 Sample.t0
                   Sample.t0 c db
                 = (Return r, [Sample.fresh 1 "A1"])) by reflexivity.
  split; [exact Hrun | split; [reflexivity | ]].
  exact (failure_commits_only_the_sweep (rt := Sample.runtime) _ _ _ _ c db r
           _ Hrun eq_refl).
Defined.

(** C2, as stated, fails: a hold request for a seat that does not exist
    returns a failure, yet the stale hold that was in the table has been
    released by the call and stays released. *)
Lemma failed_hold_still_sweeps :
  let db := [Sample.held 1 "A1" Sample.tokenA (Sample.t0 - Sample.minute)] in
  exists r db',
    perform (rt := Sample.runtime) Sample.t0 Sample.t0 Sample.t0 Sample.t0
      (Hold 1 "Z9" Sample.tokenB 10 4) db = (Return r, db')
    /\ ok r = false
    /\ db' <> db.
Proof.
  cbv zeta.
  exists (failure "Kursi tidak ditemukan."), [Sample.fresh 1 "A1"].
  split; [vm_compute; reflexivity|].
  split; [reflexivity|].
  intros H. vm_compute in H. discriminate H.
Qed.

(** ** Admin booking *)

Lemma filter_swept t_sweep (p : Seat.t -> bool) db :
  (forall s, p (sweep_row t_sweep s) = p s) ->
  filter p (swept t_sweep db) = map (sweep_row t_sweep) (filter p db).
Proof. intros H. rewrite swept_map. now apply filter_map_compat. Qed.

Lemma update_swept t_sweep (p : Seat.t -> bool) f db :
  (forall s, p (sweep_row t_sweep s) = p s) ->
  map (fun s => if p s then f s else s) (swept t_sweep db)
  = map (row_after t_sweep p f) db.
Proof.
  intros H. rewrite swept_map, map_map. apply map_ext. intros s.
  unfold row_after. now rewrite H.
Qed.

Lemma count_requested_swept t_sweep trip_id seat_codes db :
  (Z.of_nat (List.length (filter (requested trip_id seat_codes)
                            (swept t_sweep db)))
   =? Z.of_nat (List.length seat_codes))
  = Nat.eqb (List.length (filter (requested trip_id seat_codes) db))
            (List.length seat_codes).
Proof.
  rewrite filter_swept by (intros; apply requested_sweep).
  rewrite length_map.
  destruct (Nat.eqb_spec
              (List.length (filter (requested trip_id seat_codes) db))
              (List.length seat_codes)) as [->|Hne];
    [apply Z.eqb_refl | apply Z.eqb_neq; lia].
Qed.

(** A BOOKED row is never stale, so the sweep leaves the loaded BOOKED rows
    as they are. *)
Lemma booked_rows_swept t_sweep trip_id seat_codes db :
  filter (requested_booked trip_id seat_codes) (swept t_sweep db)
  = filter (requested_booked trip_id seat_codes) db.
Proof.
  rewrite filter_swept by (intros; apply requested_booked_sweep).
  rewrite <- (map_id (filter _ db)) at 2. apply map_ext_in.
  intros s Hs. apply filter_In in Hs as [_ Hs].
  unfold requested_booked in Hs. apply andb_true_iff in Hs as [_ Hb].
  apply sweep_row_not_expired. unfold expired, is_status in *.
  destruct (Seat.status s); simpl in *; congruence.
Qed.

(** Whatever order the database picks, it yields no row exactly when none is
    selected. *)
Lemma db_order_empty {rt : Runtime} rows : db_order rows = [] <-> rows = [].
Proof.
  split; intros H.
  - apply Permutation_nil. rewrite <- H. apply db_order_perm.
  - subst rows. apply Permutation_nil.
    apply Permutation_sym, db_order_perm.
Qed.

(** The two admin operations in closed form, over the table as the caller
    found it: the sweep changes neither which rows are loaded nor which of
    them are BOOKED. *)
Lemma admin_book_run {rt : Runtime}
    t_sweep now generated trip_id seat_codes db :
  admin_generate_booking_code_and_book t_sweep now generated trip_id
    seat_codes db
  = if negb (Nat.eqb (List.length (filter (requested trip_id seat_codes) db))
                     (List.length seat_codes))
    then (Return (failure not_found_message), swept t_sweep db)
    else
      match map Seat.code
              (db_order (filter (requested_booked trip_id seat_codes) db)) with
      | (_ :: _) as already_booked =>
          (Return (failure (already_booked_message already_booked)),
           swept t_sweep db)
      | [] =>
          (Return
             (mkResult true "BOOKED + booking code dibuat."
                (Some (VDict
                   [ ("seat_codes"%string, VList (map VStr seat_codes));
                     ("booking_code"%string, VStr generated) ]))),
           map (row_after t_sweep (requested trip_id seat_codes)
                  (book_columns now generated)) db)
      end.
Proof.
  unfold_ops.
  rewrite count_requested_swept.
  destruct (Nat.eqb _ _); cbv beta iota delta [negb]; [|reflexivity].
  rewrite booked_rows_swept.
  destruct (map Seat.code _); cbv beta iota; [|reflexivity].
  rewrite update_swept by (intros; apply requested_sweep).
  reflexivity.
Qed.

Lemma admin_confirm_run {rt : Runtime} t_sweep now trip_id seat_codes db :
  confirm_booked_by_admin t_sweep now trip_id seat_codes db
  = if negb (Nat.eqb (List.length (filter (requested trip_id seat_codes) db))
                     (List.length seat_codes))
    then (Return (failure not_found_message), swept t_sweep db)
    else
      match map Seat.code
              (db_order (filter (requested_booked trip_id seat_codes) db)) with
      | (_ :: _) as already_booked =>
          (Return (failure (already_booked_message already_booked)),
           swept t_sweep db)
      | [] =>
          (Return
             (mkResult true "Kursi berhasil dikonfirmasi BOOKED."
                (Some (VDict
                   [ ("seat_codes"%string, VList (map VStr seat_codes)) ]))),
           map (row_after t_sweep (requested trip_id seat_codes)
                  (confirm_columns now)) db)
      end.
Proof.
  unfold_ops.
  rewrite count_requested_swept.
  destruct (Nat.eqb _ _); cbv beta iota delta [negb]; [|reflexivity].
  rewrite booked_rows_swept.
  destruct (map Seat.code _); cbv beta iota; [|reflexivity].
  rewrite update_swept by (intros; apply requested_sweep).
  reflexivity.
Qed.

(** C3, as amended: when the number of rows loaded for the request differs
    from the number of requested codes, both admin operations fail with one
    fixed message, the same whichever codes are missing; it names none of
    them.  Nothing but the sweep is written. *)
Theorem admin_count_mismatch_not_found {rt : Runtime}
    t_sweep now generated trip_id seat_codes db :
  List.length (filter (requested trip_id seat_codes) db)
    <> List.length seat_codes ->
  admin_generate_booking_code_and_book t_sweep now generated trip_id
    seat_codes db
  = (Return (failure "Ada kursi yang tidak ditemukan."), swept t_sweep db)
  /\ confirm_booked_by_admin t_sweep now trip_id seat_codes db
     = (Return (failure "Ada kursi yang tidak ditemukan."), swept t_sweep db).
Proof.
  intros Hne. rewrite admin_book_run, admin_confirm_run.
  apply Nat.eqb_neq in Hne. rewrite Hne. split; reflexivity.
Qed.

Lemma admin_count_mismatch_not_found_witness :
  let db := [Sample.fresh 1 "A1"] in
  let seat_codes := ["A1"; "Z9"]%string in
  List.length (filter (requested 1 seat_codes) db) <> List.length seat_codes
  /\ admin_generate_booking_code_and_book (rt := Sample.runtime)
       Sample.t0 Sample.t0 "BK-1" 1
       seat_codes db
     = (Return (failure "Ada kursi yang tidak ditemukan."), db)
  /\ confirm_booked_by_admin (rt := Sample.runtime)
       Sample.t0 Sample.t0 1 seat_codes db
     = (Return (failure "Ada kursi yang tidak ditemukan."), db).
Proof.
  intros db seat_codes.
  assert (Hne : List.length (filter (requested 1 seat_codes) db)
                <> List.length seat_codes) by (simpl; lia).
  split; [exact Hne | ].
  exact (admin_count_mismatch_not_found (rt := Sample.runtime)
           Sample.t0 Sample.t0 "BK-1" 1
           seat_codes db Hne).
Defined.

(** C3, as stated, fails: seat Z9 is requested and does not exist, the call
    fails on the count, and the message does not mention Z9. *)
Lemma not_found_message_names_no_code :
  let db := [Sample.fresh 1 "A1"] in
  let seat_codes := ["A1"; "Z9"]%string in
  exists r db',
    admin_generate_booking_code_and_book (rt := Sample.runtime)
      Sample.t0 Sample.t0 "BK-1" 1
      seat_codes db = (Return r, db')
    /\ confirm_booked_by_admin (rt := Sample.runtime)
         Sample.t0 Sample.t0 1 seat_codes db
       = (Return r, db')
    /\ List.length (filter (requested 1 seat_codes) db)
       <> List.length seat_codes
    /\ ok r = false
    /\ In "Z9"%string seat_codes
    /\ (forall s, In s db -> Seat.code s <> "Z9"%string)
    /\ Py.contains "Z9" (message r) = false.
Proof.
  intros db seat_codes. eexists. eexists.
  split; [reflexivity|]. split; [reflexivity|].
  split; [simpl; lia|]. split; [reflexivity|].
  split; [right; left; reflexivity|].
  split; [|reflexivity].
  intros s [<-|[]]. discriminate.
Qed.

(** C4, as amended: when the count test passes and a loaded seat is already
    BOOKED, both admin operations fail with the message that lists the codes
    of the loaded BOOKED seats, each loaded BOOKED seat once, in the order
    the database yields them; and the table is left as the sweep left it: no
    seat is booked, and the only rows that differ from before the call are
    stale holds the sweep released. *)
Theorem admin_already_booked {rt : Runtime}
    t_sweep now generated trip_id seat_codes db s :
  List.length (filter (requested trip_id seat_codes) db)
    = List.length seat_codes ->
  In s db ->
  requested trip_id seat_codes s = true ->
  Seat.status s = Seat.BOOKED ->
  let booked := filter (requested_booked trip_id seat_codes) db in
  let offending := map Seat.code (db_order booked) in
  In (Seat.code s) offending
  /\ Permutation offending (map Seat.code booked)
  /\ admin_generate_booking_code_and_book t_sweep now generated trip_id
       seat_codes db
     = (Return (failure ("Kursi sudah BOOKED: " ++ Py.join ", " offending)),
        swept t_sweep db)
  /\ confirm_booked_by_admin t_sweep now trip_id seat_codes db
     = (Return (failure ("Kursi sudah BOOKED: " ++ Py.join ", " offending)),
        swept t_sweep db).
Proof.
  intros Hlen Hin Hreq Hst booked offending.
  assert (Hperm : Permutation offending (map Seat.code booked))
    by apply Permutation_map, db_order_perm.
  assert (Hoff : In (Seat.code s) offending).
  { apply (Permutation_in _ (Permutation_sym Hperm)).
    apply in_map. apply filter_In. split; [exact Hin|].
    unfold requested_booked, is_status. rewrite Hreq, Hst. reflexivity. }
  split; [exact Hoff|]. split; [exact Hperm|].
  rewrite admin_book_run, admin_confirm_run.
  apply Nat.eqb_eq in Hlen. rewrite Hlen. simpl negb. cbv iota.
  fold booked. fold offending. destruct offending; [destruct Hoff|].
  split; reflexivity.
Qed.

Lemma admin_already_booked_witness :
  let a1 := Sample.booked 1 "A1" 5 in
  let a2 := Sample.held 2 "A2" Sample.tokenA (Sample.t0 + Sample.minute) in
  let b1 := Sample.booked 3 "B1" 6 in
  let db := [a1; a2; b1] in
  let seat_codes := ["B1"; "A2"; "A1"]%string in
  admin_generate_booking_code_and_book (rt := Sample.runtime)
    Sample.t0 Sample.t0 "BK-1" 1 seat_codes db
  = (Return (failure "Kursi sudah BOOKED: A1, B1"), db)
  /\ confirm_booked_by_admin (rt := Sample.runtime)
       Sample.t0 Sample.t0 1 seat_codes db
     = (Return (failure "Kursi sudah BOOKED: A1, B1"), db).
Proof.
  intros a1 a2 b1 db seat_codes.
  exact (proj2 (proj2
           (admin_already_booked (rt := Sample.runtime) Sample.t0 Sample.t0
              "BK-1" 1 seat_codes db a1 eq_refl (or_introl eq_refl) eq_refl
              eq_refl))).
Defined.

(** C4, as stated, fails.  A1 is BOOKED and A2 is a stale hold: the call
    fails on A1, yet the requested seat A2 is no longer as it was before the
    call.  And when the BOOKED seat A1 is requested together with a code that
    does not exist, the failure is the not-found one, not the one that names
    A1. *)
Lemma booked_conflict_still_sweeps_requested_seat :
  let a1 := Sample.booked 1 "A1" 5 in
  let a2 := Sample.held 2 "A2" Sample.tokenA (Sample.t0 - Sample.minute) in
  let db := [a1; a2] in
  let seat_codes := ["A1"; "A2"]%string in
  (exists r db',
      admin_generate_booking_code_and_book (rt := Sample.runtime)
        Sample.t0 Sample.t0 "BK-1" 1
        seat_codes db = (Return r, db')
      /\ confirm_booked_by_admin (rt := Sample.runtime)
           Sample.t0 Sample.t0 1 seat_codes db
         = (Return r, db')
      /\ ok r = false
      /\ requested 1 seat_codes a2 = true
      /\ nth_error db 1 = Some a2
      /\ nth_error db' 1 = Some (Sample.fresh 2 "A2")
      /\ Sample.fresh 2 "A2" <> a2)
  /\ (exists r,
        requested_booked 1 ["A1"; "Z9"]%string a1 = true
        /\ admin_generate_booking_code_and_book (rt := Sample.runtime)
             Sample.t0 Sample.t0 "BK-1" 1
             ["A1"; "Z9"]%string [a1] = (Return r, [a1])
        /\ confirm_booked_by_admin (rt := Sample.runtime) Sample.t0 Sample.t0 1
             ["A1"; "Z9"]%string [a1] = (Return r, [a1])
        /\ message r = not_found_message
        /\ Py.contains "A1" (message r) = false).
Proof.
  intros a1 a2 db seat_codes. split.
  - eexists. eexists. repeat (split; [reflexivity|]). discriminate.
  - eexists. repeat (split; [reflexivity|]). reflexivity.
Qed.

(** Loaded rows of a table with unique (trip, code) pairs have pairwise
    different codes, all taken from the request. *)
Lemma requested_code_key trip_id seat_codes db c :
  In c (map Seat.code (filter (requested trip_id seat_codes) db)) ->
  In (trip_id, c) (map seat_key db) /\ In c seat_codes.
Proof.
  intros H. apply in_map_iff in H as (s & <- & Hs).
  apply filter_In in Hs as [Hin Hreq].
  unfold requested, of_trip in Hreq. apply andb_true_iff in Hreq as [Ht Hc].
  apply Z.eqb_eq in Ht. split.
  - apply in_map_iff. exists s. split; [|exact Hin].
    unfold seat_key. now rewrite Ht.
  - unfold code_in in Hc. apply existsb_exists in Hc as (c & Hc & E).
    apply String.eqb_eq in E. now subst.
Qed.

Lemma requested_codes_NoDup trip_id seat_codes db :
  unique_codes db ->
  NoDup (map Seat.code (filter (requested trip_id seat_codes) db)).
Proof.
  unfold unique_codes. induction db as [|s db IH]; simpl; intros Hnd.
  - constructor.
  - inversion Hnd as [|? ? Hnotin Hnd']; subst.
    destruct (requested trip_id seat_codes s) eqn:Hreq; simpl; [|now apply IH].
    constructor; [|now apply IH].
    intros Hc. apply requested_code_key in Hc as [Hc _]. apply Hnotin.
    unfold requested, of_trip in Hreq. apply andb_true_iff in Hreq as [Ht _].
    apply Z.eqb_eq in Ht. unfold seat_key at 1. now rewrite Ht.
Qed.

Lemma nodup_length_le (l : list string) :
  (List.length (nodup string_dec l) <= List.length l)%nat.
Proof.
  induction l as [|a l IH]; simpl; [lia|].
  destruct (in_dec string_dec a l); simpl; lia.
Qed.

Lemma nodup_length_lt (l : list string) :
  ~ NoDup l -> (List.length (nodup string_dec l) < List.length l)%nat.
Proof.
  induction l as [|a l IH]; intros Hn.
  - exfalso. apply Hn. constructor.
  - simpl. destruct (in_dec string_dec a l) as [Hin|Hnin]; simpl.
    + pose proof (nodup_length_le l). lia.
    + apply -> Nat.succ_lt_mono. apply IH. intros Hnd. apply Hn.
      now constructor.
Qed.

Lemma requested_count_le trip_id seat_codes db :
  unique_codes db ->
  (List.length (filter (requested trip_id seat_codes) db)
   <= List.length (nodup string_dec seat_codes))%nat.
Proof.
  intros Hu. rewrite <- (length_map Seat.code).
  apply NoDup_incl_length; [now apply requested_codes_NoDup|].
  intros c Hc. apply nodup_In. now apply requested_code_key in Hc as [_ Hc].
Qed.

(** C10: a request that names a code twice fails the count test, whether or
    not every named seat exists, because the loaded rows are distinct rows
    while the request list is counted with its repetitions. *)
Theorem duplicate_codes_not_found {rt : Runtime}
    t_sweep now generated trip_id seat_codes db :
  unique_codes db ->
  ~ NoDup seat_codes ->
  admin_generate_booking_code_and_book t_sweep now generated trip_id
    seat_codes db
  = (Return (failure "Ada kursi yang tidak ditemukan."), swept t_sweep db)
  /\ confirm_booked_by_admin t_sweep now trip_id seat_codes db
     = (Return (failure "Ada kursi yang tidak ditemukan."), swept t_sweep db).
Proof.
  intros Hu Hdup.
  pose proof (requested_count_le trip_id seat_codes db Hu) as Hle.
  pose proof (nodup_length_lt seat_codes Hdup) as Hlt.
  rewrite admin_book_run, admin_confirm_run.
  replace (Nat.eqb _ _) with false by (symmetry; apply Nat.eqb_neq; lia).
  split; reflexivity.
Qed.

Lemma duplicate_codes_not_found_witness :
  let db := [Sample.fresh 1 "A1"; Sample.fresh 2 "A2"] in
  let seat_codes := ["A1"; "A1"]%string in
  (forall c, In c seat_codes -> exists s, In s db /\ Seat.code s = c)
  /\ admin_generate_booking_code_and_book (rt := Sample.runtime)
       Sample.t0 Sample.t0 "BK-1" 1
       seat_codes db
     = (Return (failure "Ada kursi yang tidak ditemukan."), db)
  /\ confirm_booked_by_admin (rt := Sample.runtime)
       Sample.t0 Sample.t0 1 seat_codes db
     = (Return (failure "Ada kursi yang tidak ditemukan."), db).
Proof.
  intros db seat_codes. split.
  - intros c [<-|[<-|[]]]; exists (Sample.fresh 1 "A1");
      (split; [left; reflexivity | reflexivity]).
  - apply (duplicate_codes_not_found (rt := Sample.runtime)
             Sample.t0 Sample.t0 "BK-1" 1
             seat_codes db).
    + unfold unique_codes. simpl.
      constructor; [intros [H|[]]; discriminate|].
      constructor; [intros []|constructor].
    + intros H. inversion H as [|? ? Hnotin _]; subst.
      apply Hnotin. left. reflexivity.
Defined.

(** C9, as amended: the admin operations never look at who holds a seat.
    When the count test passes (as many rows are loaded as codes are
    requested) and no loaded seat is BOOKED, both succeed, and every loaded
    seat, whether it was AVAILABLE or on hold for any token with any
    deadline, ends up BOOKED with [hold_token] and [hold_until] cleared. *)
Theorem admin_books_without_hold {rt : Runtime}
    t_sweep now generated trip_id seat_codes db :
  List.length (filter (requested trip_id seat_codes) db)
    = List.length seat_codes ->
  (forall s, In s db -> requested trip_id seat_codes s = true ->
             Seat.status s <> Seat.BOOKED) ->
  let booked := row_after t_sweep (requested trip_id seat_codes)
                  (book_columns now generated) in
  let confirmed := row_after t_sweep (requested trip_id seat_codes)
                     (confirm_columns now) in
  (exists r, admin_generate_booking_code_and_book t_sweep now generated
               trip_id seat_codes db = (Return r, map booked db)
             /\ ok r = true)
  /\ (exists r, confirm_booked_by_admin t_sweep now trip_id seat_codes db
                = (Return r, map confirmed db)
                /\ ok r = true)
  /\ forall s, requested trip_id seat_codes s = true ->
       (seat_key (booked s) = seat_key s
        /\ Seat.status (booked s) = Seat.BOOKED
        /\ Seat.hold_token (booked s) = None
        /\ Seat.hold_until (booked s) = None
        /\ Seat.booked_at (booked s) = Some now
        /\ Seat.booking_code (booked s) = Some generated)
       /\ (seat_key (confirmed s) = seat_key s
           /\ Seat.status (confirmed s) = Seat.BOOKED
           /\ Seat.hold_token (confirmed s) = None
           /\ Seat.hold_until (confirmed s) = None
           /\ Seat.booked_at (confirmed s) = Some now).
Proof.
  intros Hlen Hfree booked confirmed.
  assert (Hnone : map Seat.code
                    (db_order (filter (requested_booked trip_id seat_codes) db))
                  = []).
  { destruct (filter (requested_booked trip_id seat_codes) db) as [|s l] eqn:E;
      [now rewrite (proj2 (db_order_empty []) eq_refl)|].
    assert (Hs : In s (filter (requested_booked trip_id seat_codes) db))
      by (rewrite E; left; reflexivity).
    apply filter_In in Hs as [Hin Hrb]. unfold requested_booked in Hrb.
    apply andb_true_iff in Hrb as [Hreq Hb]. exfalso.
    apply (Hfree s Hin Hreq). unfold is_status in Hb.
    destruct (Seat.status s); simpl in Hb; congruence. }
  apply Nat.eqb_eq in Hlen.
  split; [|split].
  - rewrite admin_book_run, Hlen, Hnone. eexists. split; reflexivity.
  - rewrite admin_confirm_run, Hlen, Hnone. eexists. split; reflexivity.
  - intros s Hreq. unfold booked, confirmed, row_after. rewrite Hreq.
    unfold seat_key.
    destruct (sweep_row_keys t_sweep s) as (_ & Ht & Hc).
    split; simpl; rewrite Ht, Hc; repeat split; reflexivity.
Qed.

Lemma admin_books_without_hold_witness :
  let a1 := Sample.fresh 1 "A1" in
  let a2 := Sample.held 2 "A2" Sample.tokenB (Sample.t0 + Sample.minute) in
  let a3 := Sample.held 3 "A3" Sample.tokenA (Sample.t0 + Sample.minute) in
  let db := [a1; a2; a3] in
  let seat_codes := ["A1"; "A2"]%string in
  let b := book_columns Sample.t0 "BK-1" in
  let c := confirm_columns Sample.t0 in
  (exists r, admin_generate_booking_code_and_book (rt := Sample.runtime)
               Sample.t0 Sample.t0 "BK-1"
               1 seat_codes db = (Return r, [b a1; b a2; a3])
             /\ ok r = true)
  /\ (exists r, confirm_booked_by_admin (rt := Sample.runtime)
       Sample.t0 Sample.t0 1 seat_codes db
                = (Return r, [c a1; c a2; a3])
                /\ ok r = true)
  /\ Seat.status (b a2) = Seat.BOOKED
  /\ Seat.hold_token (b a2) = None
  /\ Seat.hold_until (c a2) = None.
Proof.
  intros a1 a2 a3 db seat_codes b c.
  assert (Hfree : forall s, In s db -> requested 1 seat_codes s = true ->
                            Seat.status s <> Seat.BOOKED).
  { intros s [<-|[<-|[<-|[]]]] _; discriminate. }
  destruct (admin_books_without_hold (rt := Sample.runtime)
              Sample.t0 Sample.t0 "BK-1" 1 seat_codes
              db eq_refl Hfree) as (H1 & H2 & H3).
  split; [exact H1 | split; [exact H2 | ]].
  destruct (H3 a2 eq_refl) as ((_ & Hs & Ht & _) & (_ & _ & _ & Hu & _)).
  split; [exact Hs | split; [exact Ht | exact Hu]].
Defined.

(** C9, as stated, fails: an already-BOOKED seat is not the only cause of
    failure.  A1 is AVAILABLE and no seat is BOOKED; requested together with
    a code that does not exist, or requested twice, it is not booked: both
    operations fail on the count test and A1 stays AVAILABLE. *)
Lemma admin_booking_fails_with_no_seat_booked :
  let a1 := Sample.fresh 1 "A1" in
  let db := [a1] in
  Seat.status a1 = Seat.AVAILABLE
  /\ filter (is_status Seat.BOOKED) db = []
  /\ requested 1 ["A1"; "Z9"]%string a1 = true
  /\ requested 1 ["A1"; "A1"]%string a1 = true
  /\ admin_generate_booking_code_and_book (rt := Sample.runtime)
       Sample.t0 Sample.t0 "BK-1" 1 ["A1"; "Z9"]%string db
     = (Return (failure "Ada kursi yang tidak ditemukan."), db)
  /\ confirm_booked_by_admin (rt := Sample.runtime)
       Sample.t0 Sample.t0 1 ["A1"; "Z9"]%string db
     = (Return (failure "Ada kursi yang tidak ditemukan."), db)
  /\ admin_generate_booking_code_and_book (rt := Sample.runtime)
       Sample.t0 Sample.t0 "BK-1" 1 ["A1"; "A1"]%string db
     = (Return (failure "Ada kursi yang tidak ditemukan."), db)
  /\ confirm_booked_by_admin (rt := Sample.runtime)
       Sample.t0 Sample.t0 1 ["A1"; "A1"]%string db
     = (Return (failure "Ada kursi yang tidak ditemukan."), db).
Proof.
  cbv zeta. repeat split; vm_compute; reflexivity.
Qed.

(** ** Holding a seat *)

Lemma count_holds_swept t_sweep t_count trip_id hold_token db :
  t_sweep <= t_count ->
  filter (active_hold_of trip_id hold_token t_count) (swept t_sweep db)
  = map (sweep_row t_sweep)
      (filter (active_hold_of trip_id hold_token t_count) db).
Proof.
  intros Hle. apply filter_swept. intros s. now apply active_hold_sweep.
Qed.

Lemma save_keeps_tokens inst rows :
  map Seat.hold_token
    (map (fun r => if Seat.id r =? Seat.id inst
                   then fields_hold_until_updated_at inst r else r) rows)
  = map Seat.hold_token rows.
Proof.
  rewrite map_map. apply map_ext. intros r.
  destruct (Seat.id r =? Seat.id inst); reflexivity.
Qed.

(** [t + timedelta(minutes=m)] has a value exactly when the [timedelta] and
    the sum are both in range, and then it is [t] plus [m] minutes. *)
Lemma plus_minutes_spec t m u :
  Py.plus_minutes t m = Some u <->
  -999999999 <= m / 1440 <= 999999999
  /\ Py.datetime_min <= t + m * 60000000 <= Py.datetime_max
  /\ u = t + m * 60000000.
Proof.
  unfold Py.plus_minutes, Py.timedelta_minutes, Py.datetime_add. cbv zeta.
  split.
  - destruct ((-999999999 <=? m / 1440) && (m / 1440 <=? 999999999)) eqn:Ed;
      [|discriminate].
    destruct ((Py.datetime_min <=? t + m * 60000000)
              && (t + m * 60000000 <=? Py.datetime_max)) eqn:Es;
      [|discriminate].
    intros E. injection E as <-.
    apply andb_true_iff in Ed as [D1 D2], Es as [S1 S2].
    apply Z.leb_le in D1, D2, S1, S2. lia.
  - intros (Hd & Hs & ->).
    replace ((-999999999 <=? m / 1440) && (m / 1440 <=? 999999999)) with true
      by (symmetry; apply andb_true_iff; split; apply Z.leb_le; lia).
    replace ((Py.datetime_min <=? t + m * 60000000)
             && (t + m * 60000000 <=? Py.datetime_max)) with true
      by (symmetry; apply andb_true_iff; split; apply Z.leb_le; lia).
    reflexivity.
Qed.

(** C1, as amended: a hold request for a seat the caller already holds,
    before its deadline, succeeds as an extension, moves [hold_until] to
    [now + hold_minutes] and leaves every [hold_token] alone, provided the
    caller's number of live holds in the trip (this seat included) is below
    [max_hold_per_session], since the quota test runs first, and provided
    [now + timedelta(minutes=hold_minutes)] has a value.  Where it has none
    the call raises [OverflowError] and the transaction is rolled back. *)
Theorem hold_seat_same_token_refresh
    t_sweep now t_count t_save trip_id seat_code hold_token hold_minutes
    max_hold_per_session db seat u current_holds :
  t_sweep <= now <= t_count ->
  filter (seat_at trip_id seat_code) db = [seat] ->
  Seat.status seat = Seat.HOLD ->
  Seat.hold_until seat = Some u ->
  now <= u ->
  Seat.hold_token seat = Some hold_token ->
  _count_holds_for_token t_count trip_id hold_token db
    = (Return current_holds, db) ->
  current_holds < max_hold_per_session ->
  (forall hold_until,
      Py.plus_minutes now hold_minutes = Some hold_until ->
      let seat' :=
        Seat.set_updated_at t_save
          (Seat.set_hold_until (Some hold_until) seat) in
      exists db',
        hold_seat t_sweep now t_count t_save trip_id seat_code hold_token
          hold_minutes max_hold_per_session db
        = (Return (mkResult true "Hold diperpanjang."
                     (Some (seat_payload seat'))), db')
        /\ filter (seat_at trip_id seat_code) db' = [seat']
        /\ Seat.hold_until seat' = Some (now + hold_minutes * 60000000)
        /\ Seat.hold_token seat' = Some hold_token
        /\ map Seat.hold_token db' = map Seat.hold_token (swept t_sweep db))
  /\ (Py.plus_minutes now hold_minutes = None ->
      hold_seat t_sweep now t_count t_save trip_id seat_code hold_token
        hold_minutes max_hold_per_session db
      = (Raise OverflowError, db)).
Proof.
  intros [Hle1 Hle2] Hget Hst Hu Hnow Htok Hcount Hquota.
  assert (Hlive : is_status Seat.HOLD seat
                  && col_gte (Seat.hold_until seat) now = true).
  { unfold is_status, col_gte. rewrite Hst, Hu. simpl.
    apply Z.geb_le. exact Hnow. }
  assert (Hkeep : sweep_row t_sweep seat = seat).
  { apply sweep_row_not_expired.
    now apply (live_not_expired t_sweep now). }
  assert (Hget' : filter (seat_at trip_id seat_code) (swept t_sweep db)
                  = [seat]).
  { rewrite filter_swept by (intros; apply seat_at_sweep).
    rewrite Hget. simpl. now rewrite Hkeep. }
  unfold _count_holds_for_token, qs_count in Hcount.
  injection Hcount as Hcount.
  unfold_ops.
  rewrite count_holds_swept by lia. rewrite length_map, Hcount.
  replace (current_holds >=? max_hold_per_session) with false
    by (symmetry; rewrite Z.geb_leb; apply Z.leb_gt; lia).
  cbv beta iota. rewrite Hget'. cbv beta iota.
  rewrite Hlive.
  replace (is_status Seat.BOOKED seat) with false
    by (unfold is_status; now rewrite Hst).
  replace (col_eq (Seat.hold_token seat) hold_token) with true
    by (rewrite Htok; simpl; symmetry; apply String.eqb_refl).
  cbv beta iota delta [negb].
  split.
  - intros hold_until Hplus. rewrite Hplus. cbv beta iota zeta.
    eexists. split; [reflexivity|].
    split; [|split; [|split; [exact Htok|apply save_keeps_tokens]]].
    + rewrite filter_map_compat.
      * rewrite Hget'. simpl. now rewrite Z.eqb_refl.
      * intros r. destruct (Seat.id r =? _); reflexivity.
    + apply plus_minutes_spec in Hplus as (_ & _ & ->). reflexivity.
  - intros Hplus. rewrite Hplus. reflexivity.
Qed.

Lemma hold_seat_same_token_refresh_witness :
  let a1 := Sample.held 1 "A1" Sample.tokenA (Sample.t0 + Sample.minute) in
  let a2 := Sample.held 2 "A2" Sample.tokenA (Sample.t0 + Sample.minute) in
  let a3 := Sample.held 3 "A3" Sample.tokenA (Sample.t0 + Sample.minute) in
  let db := [a1; a2; a3; Sample.fresh 4 "A4"] in
  let a1' :=
    Seat.set_updated_at (Sample.t0 + 3)
      (Seat.set_hold_until (Some (Sample.t0 + 1 + 10 * Sample.minute)) a1) in
  exists db',
    hold_seat Sample.t0 (Sample.t0 + 1) (Sample.t0 + 2) (Sample.t0 + 3)
      1 "A1" Sample.tokenA HOLD_MINUTES_DEFAULT MAX_HOLD_PER_SESSION_DEFAULT
      db
    = (Return (mkResult true "Hold diperpanjang." (Some (seat_payload a1'))),
       db')
    /\ filter (seat_at 1 "A1") db' = [a1']
    /\ Seat.hold_until a1' = Some (Sample.t0 + 1 + 10 * Sample.minute)
    /\ Seat.hold_token a1' = Some Sample.tokenA
    /\ map Seat.hold_token db' = map Seat.hold_token (swept Sample.t0 db).
Proof.
  intros a1 a2 a3 db a1'.
  refine (proj1
            (hold_seat_same_token_refresh Sample.t0 (Sample.t0 + 1)
               (Sample.t0 + 2) (Sample.t0 + 3) 1 "A1" Sample.tokenA
               HOLD_MINUTES_DEFAULT MAX_HOLD_PER_SESSION_DEFAULT db a1
               (Sample.t0 + Sample.minute) 3 _ eq_refl eq_refl eq_refl _
               eq_refl eq_refl eq_refl)
            (Sample.t0 + 1 + 10 * Sample.minute) eq_refl).
  - unfold Sample.t0. lia.
  - unfold Sample.t0, Sample.minute. lia.
Defined.

(** C1, as stated, fails.  (1) The session holds four seats, all before
    their deadline, and asks again for one of them with the default quota of
    four: the quota test rejects the request before the seat is looked at.
    (2) The session holds one seat and asks for it again with a hold of ten
    thousand million minutes, which ends after the year 9999: the call
    raises [OverflowError], and the table is as before the call, the stale
    hold on A2 included. *)
Lemma hold_seat_refresh_blocked_or_overflows :
  let a1 := Sample.held 1 "A1" Sample.tokenA (Sample.t0 + Sample.minute) in
  let a2 := Sample.held 2 "A2" Sample.tokenA (Sample.t0 + Sample.minute) in
  let a3 := Sample.held 3 "A3" Sample.tokenA (Sample.t0 + Sample.minute) in
  let a4 := Sample.held 4 "A4" Sample.tokenA (Sample.t0 + Sample.minute) in
  let stale := Sample.held 2 "A2" Sample.tokenB (Sample.t0 - Sample.minute) in
  filter (seat_at 1 "A1") [a1; a2; a3; a4] = [a1]
  /\ filter (seat_at 1 "A1") [a1; stale] = [a1]
  /\ Seat.status a1 = Seat.HOLD
  /\ Seat.hold_token a1 = Some Sample.tokenA
  /\ Seat.hold_until a1 = Some (Sample.t0 + Sample.minute)
  /\ Sample.t0 <= Sample.t0 + Sample.minute
  /\ hold_seat Sample.t0 Sample.t0 Sample.t0 Sample.t0 1 "A1" Sample.tokenA
       HOLD_MINUTES_DEFAULT MAX_HOLD_PER_SESSION_DEFAULT [a1; a2; a3; a4]
     = (Return (failure "Maksimal hold 4 kursi."), [a1; a2; a3; a4])
  /\ hold_seat Sample.t0 Sample.t0 Sample.t0 Sample.t0 1 "A1" Sample.tokenA
       10000000000 MAX_HOLD_PER_SESSION_DEFAULT [a1; stale]
     = (Raise OverflowError, [a1; stale]).
Proof.
  cbv zeta.
  repeat (split; [reflexivity|]).
  split; [unfold Sample.minute; lia|].
  split; vm_compute; reflexivity.
Qed.

(** ** Claim transfer *)

Lemma exists_swept t_sweep (p : Seat.t -> bool) db :
  (forall s, p (sweep_row t_sweep s) = p s) ->
  existsb p (swept t_sweep db) = existsb p db.
Proof. intros H. rewrite swept_map. now apply existsb_map_compat. Qed.

Lemma row_after_selected t_sweep now p f s :
  t_sweep <= now ->
  selects_live now p ->
  p s = true ->
  row_after t_sweep p f s = f s.
Proof.
  intros Hle Hlive Hp. unfold row_after. rewrite Hp.
  rewrite sweep_row_not_expired; [reflexivity|].
  apply (live_not_expired t_sweep now); auto.
Qed.

Lemma row_after_other t_sweep p f s :
  p s = false ->
  row_after t_sweep p f s = sweep_row t_sweep s
  /\ (expired t_sweep s = false -> row_after t_sweep p f s = s).
Proof.
  intros Hp. unfold row_after. rewrite Hp. split; [reflexivity|].
  apply sweep_row_not_expired.
Qed.

(** C5, as amended: after a successful [claim_hold_by_code], every matched
    seat is the seat it was with [hold_token] replaced by the new token and
    nothing else changed; every other seat is as the call's initial sweep
    leaves it, that is untouched unless it was a stale hold.  The matched
    seats are those the lookup selects, the typed code and handle being
    normalised by [str.strip] and [str.upper] themselves, whatever the
    text. *)
Theorem claim_hold_by_code_frame {rt : Runtime}
    t_sweep now trip_id claim_code new_hold_token customer_wa db r db' :
  t_sweep <= now ->
  claim_hold_by_code t_sweep now trip_id claim_code new_hold_token
    customer_wa db = (Return r, db') ->
  ok r = true ->
  let matched := claim_q trip_id claim_code customer_wa now in
  let after := row_after t_sweep matched
                 (Seat.set_hold_token (Some new_hold_token)) in
  db' = map after db
  /\ (forall s, matched s = true ->
                after s = Seat.set_hold_token (Some new_hold_token) s
                /\ Seat.hold_until (after s) = Seat.hold_until s
                /\ Seat.customer_name (after s) = Seat.customer_name s
                /\ Seat.customer_wa (after s) = Seat.customer_wa s
                /\ Seat.claim_code (after s) = Seat.claim_code s
                /\ Seat.status (after s) = Seat.status s)
  /\ (forall s, matched s = false ->
                after s = sweep_row t_sweep s
                /\ (expired t_sweep s = false -> after s = s)).
Proof.
  intros Hle H Hok matched after.
  split; [|split].
  - unfold_ops.
    rewrite exists_swept in H by (intros; now apply claim_q_sweep).
    destruct (existsb _ db); cbv beta iota delta [negb] in H.
    + rewrite update_swept in H by (intros; now apply claim_q_sweep).
      now inversion H.
    + inversion H; subst. discriminate.
  - intros s Hs.
    assert (E : after s = Seat.set_hold_token (Some new_hold_token) s)
      by (apply (row_after_selected t_sweep now);
          [exact Hle | apply claim_q_live | exact Hs]).
    rewrite E. repeat split; reflexivity.
  - intros s Hs. now apply row_after_other.
Qed.

Lemma claim_hold_by_code_frame_witness :
  let a1 := Sample.claimed 1 "A1" Sample.tokenA (Sample.t0 + Sample.minute)
              "Budi" "08123456789" "ABCD-1234" in
  let a2 := Sample.held 2 "A2" Sample.tokenA (Sample.t0 + Sample.minute) in
  let db := [a1; a2] in
  let matched := claim_q (rt := Sample.runtime)
                   1 " abcd-1234" (Some "08123456789"%string)
                   Sample.t0 in
  let after := row_after Sample.t0 matched
                 (Seat.set_hold_token (Some Sample.tokenB)) in
  matched a1 = true
  /\ matched a2 = false
  /\ after a1 = Seat.set_hold_token (Some Sample.tokenB) a1
  /\ Seat.hold_until (after a1) = Seat.hold_until a1
  /\ after a2 = a2.
Proof.
  intros a1 a2 db matched after.
  destruct (claim_hold_by_code_frame (rt := Sample.runtime)
              Sample.t0 Sample.t0 1 " abcd-1234"
              Sample.tokenB (Some "08123456789"%string) db _ _
              (Z.le_refl _) eq_refl eq_refl) as (_ & Hin & Hout).
  destruct (Hin a1 eq_refl) as (E1 & E2 & _).
  destruct (Hout a2 eq_refl) as (_ & E3).
  split; [reflexivity | split; [reflexivity | ]].
  split; [exact E1 | split; [exact E2 | exact (E3 eq_refl)]].
Defined.

(** C5, as stated, fails: the claim succeeds on A1, and A2, which is not a
    matched seat, is a stale hold that the call releases. *)
Lemma claim_hold_by_code_sweeps_other_seat :
  let a1 := Sample.claimed 1 "A1" Sample.tokenA (Sample.t0 + Sample.minute)
              "Budi" "08123456789" "ABCD-1234" in
  let a2 := Sample.held 2 "A2" Sample.tokenB (Sample.t0 - Sample.minute) in
  let db := [a1; a2] in
  exists r db',
    claim_hold_by_code (rt := Sample.runtime)
      Sample.t0 Sample.t0 1 "ABCD-1234" "tokenC" None db
    = (Return r, db')
    /\ ok r = true
    /\ claim_q (rt := Sample.runtime) 1 "ABCD-1234" None Sample.t0 a2 = false
    /\ nth_error db 1 = Some a2
    /\ nth_error db' 1 = Some (Sample.fresh 2 "A2")
    /\ Sample.fresh 2 "A2" <> a2.
Proof.
  intros a1 a2 db. eexists. eexists.
  repeat (split; [reflexivity|]). discriminate.
Qed.

(** ** Contact and claim code *)

(** C8, as amended: for an active trip, [attach_contact_and_generate_claim]
    writes the generated claim code, and the name and contact handle as
    [str.strip] returns them (whatever the text, ASCII or not), onto exactly
    the seats of the trip that are on hold for the caller's token with a
    deadline not before [now]; every other seat is as the call's initial
    sweep leaves it, so its claim code is kept unless it was a stale hold.
    When no seat qualifies the call fails with the no-active-hold message and
    only the sweep is written. *)
Theorem attach_contact_cohort {rt : Runtime}
    t_sweep now generated trips trip_id hold_token customer_name customer_wa
    db trip :
  t_sweep <= now ->
  filter (active_trip trip_id) trips = [trip] ->
  let mine := active_hold_of trip_id hold_token now in
  let written := attach_columns generated customer_name customer_wa in
  let after := row_after t_sweep mine written in
  (existsb mine db = true ->
   exists r,
     attach_contact_and_generate_claim t_sweep now generated trips trip_id
       hold_token customer_name customer_wa db = (Return r, map after db)
     /\ ok r = true)
  /\ (existsb mine db = false ->
      attach_contact_and_generate_claim t_sweep now generated trips trip_id
        hold_token customer_name customer_wa db
      = (Return (failure "Tidak ada kursi hold aktif untuk token ini."),
         swept t_sweep db))
  /\ (forall s, mine s = true ->
                after s = written s
                /\ Seat.claim_code (after s) = Some generated
                /\ Seat.customer_name (after s) = Some (str_strip customer_name)
                /\ Seat.customer_wa (after s) = Some (str_strip customer_wa))
  /\ (forall s, mine s = false ->
                after s = sweep_row t_sweep s
                /\ (expired t_sweep s = false -> after s = s)).
Proof.
  intros Hle Htrip mine written after.
  assert (Hrun :
    attach_contact_and_generate_claim t_sweep now generated trips trip_id
      hold_token customer_name customer_wa db
    = if existsb mine db
      then
        (Return
           (mkResult true "Kontak disimpan & claim code dibuat."
              (Some (VDict
                 [ ("claim_code"%string, VStr generated);
                   ("seat_codes"%string,
                     VList (map VStr
                              (map Seat.code
                                 (order_by_code
                                    (filter mine (map after db))))));
                   ("hold_until"%string,
                     opt_iso (fold_right max_opt None
                                (map Seat.hold_until
                                   (filter mine (map after db)))));
                   ("admin_wa"%string, VStr (admin_wa_or_empty trip)) ]))),
         map after db)
      else (Return (failure "Tidak ada kursi hold aktif untuk token ini."),
            swept t_sweep db)).
  { unfold_ops. rewrite Htrip. cbv beta iota.
    rewrite exists_swept by (intros; now apply active_hold_sweep).
    fold mine. destruct (existsb mine db); cbv beta iota delta [negb].
    - rewrite update_swept by (intros; now apply active_hold_sweep).
      reflexivity.
    - reflexivity. }
  split; [|split; [|split]].
  - intros E. rewrite Hrun, E. eexists. split; reflexivity.
  - intros E. now rewrite Hrun, E.
  - intros s Hs.
    assert (E : after s = written s)
      by (apply (row_after_selected t_sweep now);
          [exact Hle | apply active_hold_live | exact Hs]).
    rewrite E. repeat split; reflexivity.
  - intros s Hs. now apply row_after_other.
Qed.

Lemma attach_contact_cohort_witness :
  let a1 := Sample.held 1 "A1" Sample.tokenA (Sample.t0 + Sample.minute) in
  let a2 := Sample.held 2 "A2" Sample.tokenA (Sample.t0 + Sample.minute) in
  let a3 := Sample.claimed 3 "A3" Sample.tokenB (Sample.t0 + Sample.minute)
              "Sari" "0899" "WXYZ-9876" in
  let db := [a1; a2; a3] in
  let written := attach_columns (rt := Sample.runtime)
    "ABCD-1234" "Budi" "08123456789" in
  (exists r,
      attach_contact_and_generate_claim (rt := Sample.runtime)
        Sample.t0 Sample.t0 "ABCD-1234"
        Sample.trips 1 Sample.tokenA "Budi" "08123456789" db
      = (Return r, [written a1; written a2; a3])
      /\ ok r = true)
  /\ Seat.claim_code (written a1) = Some "ABCD-1234"%string
  /\ Seat.claim_code (written a2) = Some "ABCD-1234"%string
  /\ Seat.claim_code a3 = Some "WXYZ-9876"%string.
Proof.
  intros a1 a2 a3 db written.
  destruct (attach_contact_cohort (rt := Sample.runtime)
              Sample.t0 Sample.t0 "ABCD-1234"
              Sample.trips 1 Sample.tokenA "Budi" "08123456789" db
              Sample.trip1 (Z.le_refl _) eq_refl) as (Hok & _ & _ & _).
  split; [exact (Hok eq_refl) | ].
  split; [reflexivity | split; reflexivity].
Defined.

(** C8, as stated, fails.  (1) The caller's only hold is stale: no seat
    qualifies, the call fails with the no-active-hold message, yet the seat
    has been released and its claim code is gone.  (2) A name and a handle
    given with surrounding blanks are stored without them.  (3) With no
    active trip the failure is the trip-not-found one, although no seat
    qualifies either. *)
Lemma attach_contact_writes_on_failure_and_strips :
  let stale1 := Sample.claimed 1 "A1" Sample.tokenA
                  (Sample.t0 - Sample.minute) "Budi" "0812" "OLD1-CODE" in
  let live1 := Sample.held 1 "A1" Sample.tokenA (Sample.t0 + Sample.minute) in
  (exists db',
      attach_contact_and_generate_claim (rt := Sample.runtime)
        Sample.t0 Sample.t0 "ABCD-1234"
        Sample.trips 1 Sample.tokenA "Budi" "0812" [stale1]
      = (Return (failure "Tidak ada kursi hold aktif untuk token ini."), db')
      /\ existsb (active_hold_of 1 Sample.tokenA Sample.t0) [stale1] = false
      /\ Seat.claim_code stale1 = Some "OLD1-CODE"%string
      /\ map Seat.claim_code db' = [None]
      /\ db' <> [stale1])
  /\ (exists r s',
        attach_contact_and_generate_claim (rt := Sample.runtime)
          Sample.t0 Sample.t0 "ABCD-1234"
          Sample.trips 1 Sample.tokenA " Budi " " 0812 " [live1]
        = (Return r, [s'])
        /\ ok r = true
        /\ Seat.customer_name s' = Some "Budi"%string
        /\ Seat.customer_name s' <> Some " Budi "%string
        /\ Seat.customer_wa s' <> Some " 0812 "%string)
  /\ attach_contact_and_generate_claim (rt := Sample.runtime)
       Sample.t0 Sample.t0 "ABCD-1234"
       [] 1 Sample.tokenA "Budi" "0812" []
     = (Return (failure "Trip tidak ditemukan."), []).
Proof.
  intros stale1 live1. split; [|split].
  - eexists. repeat (split; [reflexivity|]). discriminate.
  - eexists. eexists. repeat (split; [reflexivity|]).
    split; discriminate.
  - reflexivity.
Qed.

(** ** The public seat map *)

Lemma scrub_sweep_row now s :
  sweep_row now (scrub s) = scrub (sweep_row now s).
Proof.
  unfold sweep_row.
  change (expired now (scrub s)) with (expired now s).
  destruct (expired now s); reflexivity.
Qed.

Lemma insert_by_code_scrub s l :
  insert_by_code (scrub s) (map scrub l) = map scrub (insert_by_code s l).
Proof.
  induction l as [|x l IH]; simpl; [reflexivity|].
  destruct (String.leb (Seat.code s) (Seat.code x)); simpl;
    [reflexivity | now rewrite IH].
Qed.

Lemma order_by_code_scrub l :
  order_by_code (map scrub l) = map scrub (order_by_code l).
Proof.
  induction l as [|x l IH]; simpl; [reflexivity|].
  now rewrite IH, insert_by_code_scrub.
Qed.

Lemma seat_entries_scrub t_sweep trip_id db :
  seat_entries t_sweep trip_id (map scrub db) = seat_entries t_sweep trip_id db.
Proof.
  unfold seat_entries. rewrite !swept_map.
  rewrite (map_map scrub), (map_ext _ _ (scrub_sweep_row t_sweep)).
  rewrite <- (map_map (sweep_row t_sweep) scrub).
  rewrite filter_map_compat by reflexivity.
  rewrite order_by_code_scrub, map_map. reflexivity.
Qed.

Lemma get_seat_map_run t_sweep trips trip_id db :
  fst (get_seat_map t_sweep trips trip_id db)
  = match filter (active_trip trip_id) trips with
    | [] => Return (failure "Trip tidak ditemukan.")
    | [trip] =>
        Return
          (mkResult true "OK"
             (Some (VDict
                [ ("trip"%string, trip_payload trip);
                  ("seats"%string,
                    VList (seat_entries t_sweep (Trip.id trip) db)) ])))
    | _ => Raise Trip_MultipleObjectsReturned
    end.
Proof.
  unfold_ops.
  destruct (filter (active_trip trip_id) trips) as [|trip [|? ?]];
    reflexivity.
Qed.

(** C7, as amended: each per-seat entry of the seat map has the fields
    [id], [code], [status] and [hold_until] and no other, and the result of
    [get_seat_map] is the same for two tables that differ only in
    [hold_token], [claim_code], [booking_code], [customer_name] and
    [customer_wa]. *)
Theorem seat_map_hides_private_fields t_sweep trips trip_id db1 db2 :
  map scrub db1 = map scrub db2 ->
  fst (get_seat_map t_sweep trips trip_id db1)
  = fst (get_seat_map t_sweep trips trip_id db2)
  /\ (forall r, fst (get_seat_map t_sweep trips trip_id db1) = Return r ->
                ok r = true ->
                exists trip,
                  data r = Some (VDict
                    [ ("trip"%string, trip_payload trip);
                      ("seats"%string,
                        VList (seat_entries t_sweep (Trip.id trip) db1)) ]))
  /\ (forall tid e, In e (seat_entries t_sweep tid db1) ->
                    dict_keys e = ["id"; "code"; "status"; "hold_until"]%string).
Proof.
  intros Heq. split; [|split].
  - rewrite !get_seat_map_run.
    destruct (filter (active_trip trip_id) trips) as [|trip [|? ?]];
      try reflexivity.
    rewrite <- (seat_entries_scrub _ _ db1), <- (seat_entries_scrub _ _ db2).
    now rewrite Heq.
  - intros r Hr Hok. rewrite get_seat_map_run in Hr.
    destruct (filter (active_trip trip_id) trips) as [|trip [|? ?]];
      try discriminate.
    + injection Hr as <-. discriminate.
    + injection Hr as <-. now exists trip.
  - intros tid e He. unfold seat_entries in He.
    apply in_map_iff in He as (s & <- & _). reflexivity.
Qed.

Lemma seat_map_hides_private_fields_witness :
  let db1 := [Sample.claimed 1 "A1" Sample.tokenA
                (Sample.t0 + Sample.minute) "Budi" "0812" "ABCD-1234";
              Sample.fresh 2 "A2"] in
  let db2 := [Sample.held 1 "A1" Sample.tokenB (Sample.t0 + Sample.minute);
              Seat.set_booking_code (Some "BK-1"%string)
                (Sample.fresh 2 "A2")] in
  db1 <> db2
  /\ fst (get_seat_map Sample.t0 Sample.trips 1 db1)
     = fst (get_seat_map Sample.t0 Sample.trips 1 db2).
Proof.
  intros db1 db2. split; [discriminate|].
  exact (proj1 (seat_map_hides_private_fields Sample.t0 Sample.trips 1
                  db1 db2 eq_refl)).
Defined.

(** C7, as stated, fails on the field list: the entry of a seat also has
    the seat's [id], and two tables that agree on [code], [status] and
    [hold_until] but not on [id] render differently. *)
Lemma seat_map_entry_has_id :
  let db := [Sample.fresh 7 "A1"] in
  let db_other := [Sample.fresh 8 "A1"] in
  (exists r e,
      fst (get_seat_map Sample.t0 Sample.trips 1 db) = Return r
      /\ seat_entries Sample.t0 1 db = [e]
      /\ dict_keys e <> ["code"; "status"; "hold_until"]%string
      /\ In "id"%string (dict_keys e))
  /\ fst (get_seat_map Sample.t0 Sample.trips 1 db)
     <> fst (get_seat_map Sample.t0 Sample.trips 1 db_other).
Proof.
  intros db db_other. split.
  - eexists. eexists. repeat (split; [reflexivity|]).
    split; [discriminate | left; reflexivity].
  - discriminate.
Qed.

(** * Further properties of the services *)

(** ** More on the expiry sweeper *)

Lemma expired_mono t1 t2 s :
  t1 <= t2 -> expired t1 s = true -> expired t2 s = true.
Proof.
  unfold expired, col_lt. intros Hle H.
  apply andb_true_iff in H as [-> H]. simpl.
  destruct (Seat.hold_until s); [|discriminate].
  apply Z.ltb_lt in H. apply Z.ltb_lt. lia.
Qed.

Lemma released_never_expired now s : expired now (released s) = false.
Proof. reflexivity. Qed.

Lemma sweep_row_absorbs t1 t2 s :
  t1 <= t2 ->
  sweep_row t2 (sweep_row t1 s) = sweep_row t2 s
  /\ expired t1 (sweep_row t2 s) = false.
Proof.
  intros Hle. split.
  - unfold sweep_row at 2. destruct (expired t1 s) eqn:E1; [|reflexivity].
    unfold sweep_row. rewrite released_never_expired.
    now rewrite (expired_mono t1 t2 s Hle E1).
  - unfold sweep_row. destruct (expired t2 s) eqn:E2; [reflexivity|].
    destruct (expired t1 s) eqn:E1; [|reflexivity].
    now rewrite (expired_mono t1 t2 s Hle E1) in E2.
Qed.

Lemma filter_none {A} (p : A -> bool) (l : list A) :
  (forall x, In x l -> p x = false) -> filter p l = [].
Proof.
  induction l as [|x l IH]; simpl; intros H; [reflexivity|].
  rewrite (H x (or_introl eq_refl)). apply IH. intros y Hy. apply H. now right.
Qed.

(** X1: the sweep is idempotent.  A sweep that runs after another one, with
    a clock reading that is the same or earlier, releases nothing: it
    returns 0 and leaves the table as it is. *)
Theorem expire_holds_idempotent t1 t2 db :
  t1 <= t2 ->
  expire_holds t1 (swept t2 db) = (Return 0, swept t2 db).
Proof.
  intros Hle. rewrite expire_holds_run.
  assert (Hnone : filter (expired t1) (swept t2 db) = []).
  { apply filter_none. intros s Hs. rewrite swept_map in Hs.
    apply in_map_iff in Hs as (s0 & <- & _).
    now apply sweep_row_absorbs. }
  rewrite Hnone. simpl. f_equal.
  rewrite !swept_map, map_map. apply map_ext_in. intros s _.
  apply sweep_row_not_expired. now apply sweep_row_absorbs.
Qed.

Lemma expire_holds_idempotent_witness :
  let db := [Sample.held 1 "A1" Sample.tokenA (Sample.t0 - Sample.minute);
             Sample.held 2 "A2" Sample.tokenB (Sample.t0 + Sample.minute)] in
  expire_holds Sample.t0 db
  = (Return 1, [Sample.fresh 1 "A1";
                Sample.held 2 "A2" Sample.tokenB (Sample.t0 + Sample.minute)])
  /\ expire_holds Sample.t0 (swept Sample.t0 db)
     = (Return 0, swept Sample.t0 db).
Proof.
  intros db. split; [reflexivity|].
  exact (expire_holds_idempotent Sample.t0 Sample.t0 db (Z.le_refl _)).
Defined.

(** X2: sweeps compose.  A sweep at [t1] followed by a sweep at a later
    time [t2] leaves the table that a single sweep at [t2] leaves; the
    sweep that opens each operation makes any earlier one redundant. *)
Theorem expire_holds_later_absorbs_earlier t1 t2 db :
  t1 <= t2 ->
  swept t2 (swept t1 db) = swept t2 db.
Proof.
  intros Hle. rewrite !swept_map, map_map. apply map_ext. intros s.
  now apply sweep_row_absorbs.
Qed.

Lemma expire_holds_later_absorbs_earlier_witness :
  let db := [Sample.held 1 "A1" Sample.tokenA (Sample.t0 - Sample.minute);
             Sample.held 2 "A2" Sample.tokenB (Sample.t0 + Sample.minute)] in
  swept (Sample.t0 + 2 * Sample.minute) (swept Sample.t0 db)
  = [Sample.fresh 1 "A1"; Sample.fresh 2 "A2"]
  /\ swept (Sample.t0 + 2 * Sample.minute) (swept Sample.t0 db)
     = swept (Sample.t0 + 2 * Sample.minute) db.
Proof.
  intros db. split; [reflexivity|].
  apply (expire_holds_later_absorbs_earlier Sample.t0
           (Sample.t0 + 2 * Sample.minute) db).
  unfold Sample.minute. lia.
Defined.

Lemma sweep_row_status_counts now s :
  let n := if expired now s then 1 else 0 in
  (if is_status Seat.AVAILABLE (sweep_row now s) then 1 else 0)
  = (if is_status Seat.AVAILABLE s then 1 else 0) + n
  /\ (if is_status Seat.HOLD (sweep_row now s) then 1 else 0)
     = (if is_status Seat.HOLD s then 1 else 0) - n
  /\ is_status Seat.BOOKED (sweep_row now s) = is_status Seat.BOOKED s.
Proof.
  unfold sweep_row. destruct (expired now s) eqn:E; simpl.
  - unfold expired in E. apply andb_true_iff in E as [E _].
    unfold is_status in *. simpl.
    destruct (Seat.status s); simpl in *; try discriminate. auto.
  - repeat split; lia.
Qed.

Lemma count_status_cons st s db :
  count_status st (s :: db)
  = (if is_status st s then 1 else 0) + count_status st db.
Proof.
  unfold count_status. simpl.
  destruct (is_status st s); cbn [List.length]; lia.
Qed.

(** X3: the number [expire_holds] returns is the number of seats it moved
    from HOLD to AVAILABLE: the table keeps its length, gains that many
    AVAILABLE rows, loses that many HOLD rows and keeps its BOOKED rows. *)
Theorem expire_holds_count_is_released now db :
  exists n,
    expire_holds now db = (Return n, swept now db)
    /\ 0 <= n
    /\ List.length (swept now db) = List.length db
    /\ count_status Seat.AVAILABLE (swept now db)
       = count_status Seat.AVAILABLE db + n
    /\ count_status Seat.HOLD (swept now db)
       = count_status Seat.HOLD db - n
    /\ count_status Seat.BOOKED (swept now db)
       = count_status Seat.BOOKED db.
Proof.
  rewrite expire_holds_run. eexists. split; [reflexivity|].
  split; [lia|]. rewrite swept_map. split; [apply length_map|].
  induction db as [|s db (IHa & IHh & IHb)].
  - repeat split; reflexivity.
  - cbn [map filter]. rewrite !count_status_cons, IHa, IHh, IHb.
    destruct (sweep_row_status_counts now s) as (-> & -> & ->).
    destruct (expired now s); cbn [List.length]; repeat split; lia.
Qed.

(** ** [hold_seat] and [release_seat] in closed form *)

Lemma hold_seat_run t_sweep now t_count t_save trip_id seat_code hold_token
    hold_minutes max_hold_per_session db :
  hold_seat t_sweep now t_count t_save trip_id seat_code hold_token
    hold_minutes max_hold_per_session db
  = let db1 := swept t_sweep db in
    if Z.of_nat (List.length
                   (filter (active_hold_of trip_id hold_token t_count) db1))
       >=? max_hold_per_session
    then (Return (failure ("Maksimal hold "
                           ++ Py.str_of_int max_hold_per_session
                           ++ " kursi.")), db1)
    else
      match filter (seat_at trip_id seat_code) db1 with
      | [] => (Return (failure "Kursi tidak ditemukan."), db1)
      | [seat] =>
          if is_status Seat.BOOKED seat then
            (Return (failure "Kursi sudah terisi (BOOKED)."), db1)
          else if live_hold now seat then
            if negb (col_eq (Seat.hold_token seat) hold_token) then
              (Return (failure "Kursi sedang di-hold user lain."), db1)
            else
              match Py.plus_minutes now hold_minutes with
              | Some hold_until =>
                  let inst := refreshed hold_until t_save seat in
                  (Return (mkResult true "Hold diperpanjang."
                             (Some (seat_payload inst))),
                   saved inst fields_hold_until_updated_at db1)
              | None => (Raise OverflowError, db)
              end
          else
            match Py.plus_minutes now hold_minutes with
            | Some hold_until =>
                let inst := acquired hold_until t_save hold_token seat in
                (Return (mkResult true "Kursi berhasil di-hold."
                           (Some (seat_payload inst))),
                 saved inst all_fields db1)
            | None => (Raise OverflowError, db)
            end
      | _ => (Raise Seat_MultipleObjectsReturned, db)
      end.
Proof.
  unfold_ops. cbv zeta. unfold live_hold.
  destruct (_ >=? max_hold_per_session); cbv beta iota; [reflexivity|].
  destruct (filter (seat_at trip_id seat_code) (swept t_sweep db))
    as [|seat [|? ?]]; cbv beta iota; try reflexivity.
  destruct (is_status Seat.BOOKED seat); [reflexivity|].
  destruct (is_status Seat.HOLD seat && col_gte (Seat.hold_until seat) now).
  - destruct (col_eq (Seat.hold_token seat) hold_token); [|reflexivity].
    destruct (Py.plus_minutes now hold_minutes); reflexivity.
  - destruct (Py.plus_minutes now hold_minutes); reflexivity.
Qed.

Lemma release_seat_run t_sweep now t_save trip_id seat_code hold_token db :
  release_seat t_sweep now t_save trip_id seat_code hold_token db
  = let db1 := swept t_sweep db in
    match filter (seat_at trip_id seat_code) db1 with
    | [] => (Return (failure "Kursi tidak ditemukan."), db1)
    | [seat] =>
        if negb (live_hold now seat) then
          (Return (failure "Kursi tidak sedang di-hold aktif."), db1)
        else if negb (col_eq (Seat.hold_token seat) hold_token) then
          (Return (failure "Tidak punya akses untuk melepas hold ini."), db1)
        else
          let inst := freed t_save seat in
          (Return (mkResult true "Hold dilepas." (Some (seat_payload inst))),
           saved inst all_fields db1)
    | _ => (Raise Seat_MultipleObjectsReturned, db)
    end.
Proof.
  unfold_ops. cbv zeta. unfold live_hold.
  destruct (filter (seat_at trip_id seat_code) (swept t_sweep db))
    as [|seat [|? ?]]; cbv beta iota; try reflexivity.
  assert (E : negb (is_status Seat.HOLD seat)
              || match Seat.hold_until seat with
                 | Some u => u <? now
                 | None => true
                 end
              = negb (is_status Seat.HOLD seat
                      && col_gte (Seat.hold_until seat) now)).
  { rewrite negb_andb. f_equal. unfold col_gte.
    destruct (Seat.hold_until seat) as [u|]; [|reflexivity].
    rewrite Z.geb_leb. apply Z.ltb_antisym. }
  rewrite E.
  destruct (is_status Seat.HOLD seat && col_gte (Seat.hold_until seat) now);
    [|reflexivity].
  destruct (col_eq (Seat.hold_token seat) hold_token); reflexivity.
Qed.

Lemma saved_map inst write db :
  saved inst write db
  = map (fun r => if Seat.id r =? Seat.id inst then write inst r else r) db.
Proof. reflexivity. Qed.

Lemma loaded_after_sweep t_sweep trip_id seat_code db seat :
  filter (seat_at trip_id seat_code) db = [seat] ->
  filter (seat_at trip_id seat_code) (swept t_sweep db)
  = [sweep_row t_sweep seat].
Proof.
  intros H. rewrite filter_swept by (intros; apply seat_at_sweep).
  now rewrite H.
Qed.

Lemma count_after_sweep t_sweep t_count trip_id hold_token db :
  t_sweep <= t_count ->
  List.length (filter (active_hold_of trip_id hold_token t_count)
                 (swept t_sweep db))
  = List.length (filter (active_hold_of trip_id hold_token t_count) db).
Proof.
  intros Hle. rewrite count_holds_swept by exact Hle. apply length_map.
Qed.

(** A [save] keeps the rows with another primary key, and it keeps the key
    columns of every row when the instance carries them. *)
Lemma saved_nth inst write db i r :
  nth_error db i = Some r ->
  nth_error (saved inst write db) i
  = Some (if Seat.id r =? Seat.id inst then write inst r else r).
Proof. intros H. rewrite saved_map, nth_error_map, H. reflexivity. Qed.

Lemma swept_nth now db i r :
  nth_error db i = Some r ->
  nth_error (swept now db) i = Some (sweep_row now r).
Proof. intros H. rewrite swept_map, nth_error_map, H. reflexivity. Qed.

Lemma filter_map_compat_in {A} (p : A -> bool) (f : A -> A) (l : list A) :
  (forall x, In x l -> p (f x) = p x) ->
  filter p (map f l) = map f (filter p l).
Proof.
  induction l as [|x l IH]; simpl; intros H; [reflexivity|].
  rewrite (H x (or_introl eq_refl)).
  assert (IH' := IH (fun y Hy => H y (or_intror Hy))).
  destruct (p x); simpl; now rewrite IH'.
Qed.

Lemma swept_ids now db : map Seat.id (swept now db) = map Seat.id db.
Proof.
  rewrite swept_map, map_map. apply map_ext. intros s.
  now destruct (sweep_row_keys now s) as (-> & _).
Qed.

(** With unique primary keys, the row a key names is the only one. *)
Lemma unique_ids_row db r1 r2 :
  unique_ids db -> In r1 db -> In r2 db -> Seat.id r1 = Seat.id r2 ->
  r1 = r2.
Proof.
  unfold unique_ids. induction db as [|x db IH]; simpl; [tauto|].
  intros Hnd H1 H2 Hid. inversion Hnd as [|? ? Hnotin Hnd']; subst.
  destruct H1 as [<-|H1], H2 as [<-|H2]; auto.
  - exfalso. apply Hnotin. rewrite Hid. now apply in_map.
  - exfalso. apply Hnotin. rewrite <- Hid. now apply in_map.
Qed.

(** Saving the instance loaded for (trip, code), with its key columns as
    loaded, leaves exactly that instance's columns under (trip, code). *)
Lemma saved_loaded trip_id seat_code inst write db seat :
  unique_ids db ->
  filter (seat_at trip_id seat_code) db = [seat] ->
  Seat.id inst = Seat.id seat ->
  seat_at trip_id seat_code (write inst seat) = true ->
  filter (seat_at trip_id seat_code) (saved inst write db)
  = [write inst seat].
Proof.
  intros Hu Hget Hid Hw.
  assert (Hin : In seat db /\ seat_at trip_id seat_code seat = true).
  { apply filter_In. rewrite Hget. now left. }
  destruct Hin as [Hin Hat].
  rewrite saved_map, filter_map_compat_in.
  - rewrite Hget. simpl. now rewrite Hid, Z.eqb_refl.
  - intros r Hr. destruct (Seat.id r =? Seat.id inst) eqn:E; [|reflexivity].
    apply Z.eqb_eq in E. rewrite Hid in E.
    rewrite (unique_ids_row db r seat Hu Hr Hin E). now rewrite Hw, Hat.
Qed.

Lemma not_live_after_sweep t_sweep now seat :
  live_hold now seat = false ->
  live_hold now (sweep_row t_sweep seat) = false.
Proof.
  intros H. unfold sweep_row. destruct (expired t_sweep seat); [|exact H].
  reflexivity.
Qed.

(** ** Taking a seat *)

(** X4: with unique primary keys, a hold request for a seat that is
    neither BOOKED nor under a hold that is live at [now], by a session
    below its quota and for a number of minutes that gives a deadline
    Python can represent, succeeds as an acquisition.  The stored row
    becomes a HOLD for the caller until [now + hold_minutes] with name,
    handle, claim code, booking code and booking time all cleared, whatever
    the row carried before; the payload describes that row; rows with
    another primary key are as the sweep left them. *)
Theorem hold_seat_acquires
    t_sweep now t_count t_save trip_id seat_code hold_token hold_minutes
    max_hold_per_session db seat current_holds :
  unique_ids db ->
  t_sweep <= t_count ->
  filter (seat_at trip_id seat_code) db = [seat] ->
  is_status Seat.BOOKED seat = false ->
  live_hold now seat = false ->
  _count_holds_for_token t_count trip_id hold_token db
    = (Return current_holds, db) ->
  current_holds < max_hold_per_session ->
  -999999999 <= hold_minutes / 1440 <= 999999999 ->
  Py.datetime_min <= now + hold_minutes * 60000000 <= Py.datetime_max ->
  let row :=
    Seat.mk (Seat.id seat) (Seat.trip_id seat) (Seat.code seat) Seat.HOLD
      (Some hold_token) (Some (now + hold_minutes * 60000000))
      None None None None None t_save in
  exists db',
    hold_seat t_sweep now t_count t_save trip_id seat_code hold_token
      hold_minutes max_hold_per_session db
    = (Return (mkResult true "Kursi berhasil di-hold."
                 (Some (seat_payload row))), db')
    /\ filter (seat_at trip_id seat_code) db' = [row]
    /\ forall i r, nth_error db i = Some r ->
                   Seat.id r <> Seat.id seat ->
                   nth_error db' i = Some (sweep_row t_sweep r).
Proof.
  intros Hu Hle Hget Hb Hlive Hcount Hquota Hdays Hsum row.
  unfold _count_holds_for_token, qs_count in Hcount.
  injection Hcount as Hcount.
  assert (Hplus : Py.plus_minutes now hold_minutes
                  = Some (now + hold_minutes * 60000000))
    by (apply plus_minutes_spec; auto).
  assert (Hat : seat_at trip_id seat_code seat = true).
  { apply (filter_In (seat_at trip_id seat_code) seat db).
    rewrite Hget. now left. }
  assert (Hrow : acquired (now + hold_minutes * 60000000) t_save hold_token
                   (sweep_row t_sweep seat) = row).
  { destruct (sweep_row_keys t_sweep seat) as (E1 & E2 & E3).
    unfold row. rewrite <- E1, <- E2, <- E3.
    generalize (sweep_row t_sweep seat). reflexivity. }
  rewrite hold_seat_run. cbv zeta.
  rewrite count_after_sweep by exact Hle. rewrite Hcount.
  replace (current_holds >=? max_hold_per_session) with false
    by (symmetry; rewrite Z.geb_leb; apply Z.leb_gt; lia).
  rewrite (loaded_after_sweep _ _ _ _ _ Hget).
  rewrite sweep_row_booked, Hb, (not_live_after_sweep _ _ _ Hlive), Hplus.
  cbv zeta. rewrite Hrow.
  eexists. split; [reflexivity|]. split.
  - apply (saved_loaded trip_id seat_code row all_fields
             (swept t_sweep db) (sweep_row t_sweep seat)).
    + unfold unique_ids. now rewrite swept_ids.
    + now apply loaded_after_sweep.
    + now destruct (sweep_row_keys t_sweep seat) as (-> & _).
    + exact Hat.
  - intros i r Hi Hid.
    rewrite (saved_nth _ _ _ i _ (swept_nth t_sweep db i r Hi)).
    destruct (sweep_row_keys t_sweep r) as (-> & _).
    simpl. now apply Z.eqb_neq in Hid as ->.
Qed.

Lemma hold_seat_acquires_witness :
  let a1 := Sample.claimed 1 "A1" Sample.tokenA (Sample.t0 - Sample.minute)
              "Budi" "0812" "OLD1-CODE" in
  let a2 := Sample.held 2 "A2" Sample.tokenB (Sample.t0 + Sample.minute) in
  let db := [a1; a2] in
  let row := Sample.held 1 "A1" Sample.tokenB
               (Sample.t0 + 10 * Sample.minute) in
  exists db',
    hold_seat Sample.t0 Sample.t0 Sample.t0 0 1 "A1" Sample.tokenB
      HOLD_MINUTES_DEFAULT MAX_HOLD_PER_SESSION_DEFAULT db
    = (Return (mkResult true "Kursi berhasil di-hold."
                 (Some (seat_payload row))), db')
    /\ filter (seat_at 1 "A1") db' = [row]
    /\ nth_error db' 1 = Some a2.
Proof.
  intros a1 a2 db row.
  assert (Hu : unique_ids db).
  { unfold unique_ids. simpl.
    constructor; [intros [H|[]]; discriminate|].
    constructor; [intros []|constructor]. }
  assert (Hdays : -999999999 <= HOLD_MINUTES_DEFAULT / 1440 <= 999999999)
    by (vm_compute; split; discriminate).
  assert (Hsum : Py.datetime_min <= Sample.t0 + HOLD_MINUTES_DEFAULT * 60000000
                 <= Py.datetime_max)
    by (vm_compute; split; discriminate).
  destruct (hold_seat_acquires Sample.t0 Sample.t0 Sample.t0 0 1 "A1"
              Sample.tokenB HOLD_MINUTES_DEFAULT MAX_HOLD_PER_SESSION_DEFAULT
              db a1 1 Hu (Z.le_refl _) eq_refl eq_refl eq_refl eq_refl
              eq_refl Hdays Hsum) as (db' & Hrun & Hrow & Hother).
  exists db'. split; [exact Hrun | split; [exact Hrow | ]].
  apply (Hother 1%nat a2 eq_refl). discriminate.
Defined.

Lemma live_hold_survives_sweep t_sweep now seat :
  t_sweep <= now ->
  live_hold now seat = true ->
  sweep_row t_sweep seat = seat.
Proof.
  intros Hle H. apply sweep_row_not_expired.
  now apply (live_not_expired t_sweep now).
Qed.

Lemma live_hold_not_booked now seat :
  live_hold now seat = true -> is_status Seat.BOOKED seat = false.
Proof.
  unfold live_hold. intros H. apply andb_true_iff in H as [Hs _].
  unfold is_status in *. destruct (Seat.status seat); simpl in *; congruence.
Qed.

(** X5: holds are exclusive.  While a seat is under a hold that is live at
    [now], a hold request by any other token fails with the held-by-other
    message, which is the same whoever the holder is, and the holder's row
    stays exactly as it was. *)
Theorem hold_seat_rejects_other_token
    t_sweep now t_count t_save trip_id seat_code hold_token hold_minutes
    max_hold_per_session db seat current_holds :
  t_sweep <= now ->
  t_sweep <= t_count ->
  filter (seat_at trip_id seat_code) db = [seat] ->
  live_hold now seat = true ->
  Seat.hold_token seat <> Some hold_token ->
  _count_holds_for_token t_count trip_id hold_token db
    = (Return current_holds, db) ->
  current_holds < max_hold_per_session ->
  hold_seat t_sweep now t_count t_save trip_id seat_code hold_token
    hold_minutes max_hold_per_session db
  = (Return (failure "Kursi sedang di-hold user lain."), swept t_sweep db)
  /\ filter (seat_at trip_id seat_code) (swept t_sweep db) = [seat].
Proof.
  intros Hle1 Hle2 Hget Hlive Htok Hcount Hquota.
  unfold _count_holds_for_token, qs_count in Hcount.
  injection Hcount as Hcount.
  assert (Hget' : filter (seat_at trip_id seat_code) (swept t_sweep db)
                  = [seat]).
  { rewrite (loaded_after_sweep _ _ _ _ _ Hget).
    now rewrite (live_hold_survives_sweep t_sweep now seat Hle1 Hlive). }
  split; [|exact Hget'].
  rewrite hold_seat_run. cbv zeta.
  rewrite count_after_sweep by exact Hle2. rewrite Hcount.
  replace (current_holds >=? max_hold_per_session) with false
    by (symmetry; rewrite Z.geb_leb; apply Z.leb_gt; lia).
  rewrite Hget', Hlive, (live_hold_not_booked now seat Hlive).
  replace (col_eq (Seat.hold_token seat) hold_token) with false;
    [reflexivity|].
  symmetry. unfold col_eq.
  destruct (Seat.hold_token seat) as [x|]; [|reflexivity].
  apply String.eqb_neq. congruence.
Qed.

Lemma hold_seat_rejects_other_token_witness :
  let a1 := Sample.held 1 "A1" Sample.tokenA (Sample.t0 + Sample.minute) in
  let db := [a1; Sample.fresh 2 "A2"] in
  hold_seat Sample.t0 Sample.t0 Sample.t0 Sample.t0 1 "A1" Sample.tokenB
    HOLD_MINUTES_DEFAULT MAX_HOLD_PER_SESSION_DEFAULT db
  = (Return (failure "Kursi sedang di-hold user lain."), db)
  /\ filter (seat_at 1 "A1") db = [a1].
Proof.
  intros a1 db.
  refine (hold_seat_rejects_other_token Sample.t0 Sample.t0 Sample.t0
            Sample.t0 1 "A1" Sample.tokenB HOLD_MINUTES_DEFAULT
            MAX_HOLD_PER_SESSION_DEFAULT db a1 0 (Z.le_refl _) (Z.le_refl _)
            eq_refl eq_refl _ eq_refl eq_refl).
  discriminate.
Defined.

(** X6: the quota test comes before everything else but the sweep.  A
    session that already has [max_hold_per_session] or more live holds in
    the trip, and any session when the quota is zero or less, gets the quota
    message for every seat code, whether the seat is free, taken, booked or
    does not exist. *)
Theorem hold_seat_quota_first
    t_sweep now t_count t_save trip_id seat_code hold_token hold_minutes
    max_hold_per_session db current_holds :
  t_sweep <= t_count ->
  _count_holds_for_token t_count trip_id hold_token db
    = (Return current_holds, db) ->
  max_hold_per_session <= current_holds \/ max_hold_per_session <= 0 ->
  hold_seat t_sweep now t_count t_save trip_id seat_code hold_token
    hold_minutes max_hold_per_session db
  = (Return (failure ("Maksimal hold " ++ Py.str_of_int max_hold_per_session
                      ++ " kursi.")), swept t_sweep db).
Proof.
  intros Hle Hcount Hquota.
  unfold _count_holds_for_token, qs_count in Hcount.
  injection Hcount as Hcount.
  rewrite hold_seat_run. cbv zeta.
  rewrite count_after_sweep by exact Hle. rewrite Hcount.
  replace (current_holds >=? max_hold_per_session) with true; [reflexivity|].
  symmetry. rewrite Z.geb_leb. apply Z.leb_le. lia.
Qed.

Lemma hold_seat_quota_first_witness :
  let db := [Sample.held 1 "A1" Sample.tokenA (Sample.t0 + Sample.minute);
             Sample.fresh 2 "A2"] in
  hold_seat Sample.t0 Sample.t0 Sample.t0 Sample.t0 1 "Z9" Sample.tokenA
    HOLD_MINUTES_DEFAULT 1 db
  = (Return (failure "Maksimal hold 1 kursi."), db).
Proof.
  intros db.
  refine (hold_seat_quota_first Sample.t0 Sample.t0 Sample.t0 Sample.t0 1
            "Z9" Sample.tokenA HOLD_MINUTES_DEFAULT 1 db 1 (Z.le_refl _)
            eq_refl _).
  left. lia.
Defined.

Lemma saved_absent inst write db :
  ~ In (Seat.id inst) (map Seat.id db) -> saved inst write db = db.
Proof.
  rewrite saved_map. induction db as [|x db IH]; simpl; intros H; [reflexivity|].
  destruct (Z.eqb_spec (Seat.id x) (Seat.id inst)) as [E|E].
  - exfalso. apply H. now left.
  - f_equal. apply IH. intros Hin. apply H. now right.
Qed.

Lemma filter_length_le {A} (p : A -> bool) (l : list A) :
  (List.length (filter p l) <= List.length l)%nat.
Proof.
  induction l as [|x l IH]; simpl; [lia|]. destruct (p x); simpl; lia.
Qed.

(** With unique primary keys a [save] rewrites at most one row, so it adds
    at most one row to any selection. *)
Lemma saved_filter_le (p : Seat.t -> bool) inst write db :
  unique_ids db ->
  (List.length (filter p (saved inst write db))
   <= S (List.length (filter p db)))%nat.
Proof.
  unfold unique_ids. induction db as [|x db IH]; simpl; intros Hnd; [lia|].
  inversion Hnd as [|? ? Hnotin Hnd']; subst.
  change (map _ db) with (saved inst write db).
  destruct (Z.eqb_spec (Seat.id x) (Seat.id inst)) as [E|E].
  - rewrite saved_absent by (now rewrite <- E).
    destruct (p (write inst x)), (p x); simpl; lia.
  - specialize (IH Hnd'). destruct (p x); simpl; lia.
Qed.

(** X7: the quota holds after every successful hold.  With unique primary
    keys, when [hold_seat] succeeds (as an acquisition or as an extension)
    the caller's live holds in the trip, counted at the reading the quota
    test used, number at most [max_hold_per_session]. *)
Theorem hold_seat_keeps_quota
    t_sweep now t_count t_save trip_id seat_code hold_token hold_minutes
    max_hold_per_session db r db' :
  unique_ids db ->
  hold_seat t_sweep now t_count t_save trip_id seat_code hold_token
    hold_minutes max_hold_per_session db = (Return r, db') ->
  ok r = true ->
  exists n, _count_holds_for_token t_count trip_id hold_token db'
            = (Return n, db')
            /\ n <= max_hold_per_session.
Proof.
  intros Hu H Hok. eexists. split; [reflexivity|].
  assert (Hu' : unique_ids (swept t_sweep db))
    by (unfold unique_ids; now rewrite swept_ids).
  rewrite hold_seat_run in H. cbv zeta in H.
  destruct (_ >=? max_hold_per_session) eqn:Hq in H.
  { injection H as <- _. discriminate. }
  rewrite Z.geb_leb in Hq. apply Z.leb_gt in Hq.
  pose proof (saved_filter_le (active_hold_of trip_id hold_token t_count))
    as Hbound.
  destruct (filter (seat_at trip_id seat_code) (swept t_sweep db))
    as [|seat [|? ?]]; try discriminate.
  { injection H as <- _. discriminate. }
  destruct (is_status Seat.BOOKED seat).
  { injection H as <- _. discriminate. }
  destruct (live_hold now seat).
  - destruct (col_eq (Seat.hold_token seat) hold_token); simpl in H.
    + destruct (Py.plus_minutes now hold_minutes) as [hold_until|];
        [|discriminate].
      injection H as _ <-.
      specialize (Hbound (refreshed hold_until t_save seat)
                    fields_hold_until_updated_at _ Hu'). lia.
    + injection H as <- _. discriminate.
  - destruct (Py.plus_minutes now hold_minutes) as [hold_until|];
      [|discriminate].
    injection H as _ <-.
    specialize (Hbound (acquired hold_until t_save hold_token seat)
                  all_fields _ Hu'). lia.
Qed.

Lemma hold_seat_keeps_quota_witness :
  let db := [Sample.held 1 "A1" Sample.tokenA (Sample.t0 + Sample.minute);
             Sample.fresh 2 "A2"] in
  exists r db' n,
    hold_seat Sample.t0 Sample.t0 Sample.t0 Sample.t0 1 "A2" Sample.tokenA
      HOLD_MINUTES_DEFAULT 2 db = (Return r, db')
    /\ ok r = true
    /\ _count_holds_for_token Sample.t0 1 Sample.tokenA db' = (Return n, db')
    /\ n <= 2.
Proof.
  intros db.
  assert (Hu : unique_ids db).
  { unfold unique_ids. simpl.
    constructor; [intros [H|[]]; discriminate|].
    constructor; [intros []|constructor]. }
  eexists. eexists.
  destruct (hold_seat_keeps_quota Sample.t0 Sample.t0 Sample.t0 Sample.t0 1
              "A2" Sample.tokenA HOLD_MINUTES_DEFAULT 2 db _ _ Hu
              eq_refl eq_refl) as (n & Hn & Hle).
  exists n. split; [reflexivity | split; [reflexivity | split; assumption]].
Defined.

(** X25: a hold too long for a [datetime] takes nothing.  When the
    request gets as far as computing the deadline (quota not reached, seat
    found, not BOOKED, not under a live hold) and
    [now + timedelta(minutes=hold_minutes)] is out of Python's range, the
    call raises [OverflowError] and the table is exactly as before the call:
    the rollback undoes the sweep as well, so stale holds are still there. *)
Theorem hold_seat_overflow_rolls_back
    t_sweep now t_count t_save trip_id seat_code hold_token hold_minutes
    max_hold_per_session db seat current_holds :
  t_sweep <= t_count ->
  filter (seat_at trip_id seat_code) db = [seat] ->
  is_status Seat.BOOKED seat = false ->
  live_hold now seat = false ->
  _count_holds_for_token t_count trip_id hold_token db
    = (Return current_holds, db) ->
  current_holds < max_hold_per_session ->
  ~ (-999999999 <= hold_minutes / 1440 <= 999999999
     /\ Py.datetime_min <= now + hold_minutes * 60000000 <= Py.datetime_max) ->
  hold_seat t_sweep now t_count t_save trip_id seat_code hold_token
    hold_minutes max_hold_per_session db
  = (Raise OverflowError, db).
Proof.
  intros Hle Hget Hb Hlive Hcount Hquota Hout.
  unfold _count_holds_for_token, qs_count in Hcount.
  injection Hcount as Hcount.
  assert (Hplus : Py.plus_minutes now hold_minutes = None).
  { destruct (Py.plus_minutes now hold_minutes) as [v|] eqn:E; [|reflexivity].
    apply plus_minutes_spec in E as (Hd & Hs & _). exfalso. auto. }
  rewrite hold_seat_run. cbv zeta.
  rewrite count_after_sweep by exact Hle. rewrite Hcount.
  replace (current_holds >=? max_hold_per_session) with false
    by (symmetry; rewrite Z.geb_leb; apply Z.leb_gt; lia).
  rewrite (loaded_after_sweep _ _ _ _ _ Hget).
  rewrite sweep_row_booked, Hb, (not_live_after_sweep _ _ _ Hlive), Hplus.
  reflexivity.
Qed.

Lemma hold_seat_overflow_rolls_back_witness :
  let stale := Sample.held 1 "A1" Sample.tokenA (Sample.t0 - Sample.minute) in
  let db := [stale; Sample.fresh 2 "A2"] in
  hold_seat Sample.t0 Sample.t0 Sample.t0 Sample.t0 1 "A1" Sample.tokenB
    10000000000 MAX_HOLD_PER_SESSION_DEFAULT db
  = (Raise OverflowError, db)
  /\ Seat.status stale = Seat.HOLD.
Proof.
  intros stale db. split; [|reflexivity].
  refine (hold_seat_overflow_rolls_back Sample.t0 Sample.t0 Sample.t0
            Sample.t0 1 "A1" Sample.tokenB 10000000000
            MAX_HOLD_PER_SESSION_DEFAULT db stale 0 (Z.le_refl _) eq_refl
            eq_refl eq_refl eq_refl eq_refl _).
  intros [_ [_ Hmax]]. vm_compute in Hmax. apply Hmax. reflexivity.
Defined.

(** ** Releasing a seat *)

(** X8: with unique primary keys, the holder of a live hold can release it.
    The row becomes AVAILABLE with holder, deadline, name, handle and claim
    code cleared, while its booking code and booking time stay as stored;
    rows with another primary key are as the sweep left them. *)
Theorem release_seat_by_holder
    t_sweep now t_save trip_id seat_code hold_token db seat :
  unique_ids db ->
  t_sweep <= now ->
  filter (seat_at trip_id seat_code) db = [seat] ->
  live_hold now seat = true ->
  Seat.hold_token seat = Some hold_token ->
  let row :=
    Seat.mk (Seat.id seat) (Seat.trip_id seat) (Seat.code seat)
      Seat.AVAILABLE None None None None None (Seat.booking_code seat)
      (Seat.booked_at seat) t_save in
  exists db',
    release_seat t_sweep now t_save trip_id seat_code hold_token db
    = (Return (mkResult true "Hold dilepas." (Some (seat_payload row))), db')
    /\ filter (seat_at trip_id seat_code) db' = [row]
    /\ forall i r, nth_error db i = Some r ->
                   Seat.id r <> Seat.id seat ->
                   nth_error db' i = Some (sweep_row t_sweep r).
Proof.
  intros Hu Hle Hget Hlive Htok row.
  assert (Hat : seat_at trip_id seat_code seat = true).
  { apply (filter_In (seat_at trip_id seat_code) seat db).
    rewrite Hget. now left. }
  assert (Hget' : filter (seat_at trip_id seat_code) (swept t_sweep db)
                  = [seat]).
  { rewrite (loaded_after_sweep _ _ _ _ _ Hget).
    now rewrite (live_hold_survives_sweep t_sweep now seat Hle Hlive). }
  rewrite release_seat_run. cbv zeta. rewrite Hget', Hlive.
  replace (col_eq (Seat.hold_token seat) hold_token) with true
    by (rewrite Htok; simpl; symmetry; apply String.eqb_refl).
  change (freed t_save seat) with row. simpl negb. cbv iota.
  eexists. split; [reflexivity|]. split.
  - apply (saved_loaded trip_id seat_code row all_fields
             (swept t_sweep db) seat); auto.
    unfold unique_ids. now rewrite swept_ids.
  - intros i r Hi Hid.
    rewrite (saved_nth _ _ _ i _ (swept_nth t_sweep db i r Hi)).
    destruct (sweep_row_keys t_sweep r) as (-> & _).
    simpl. now apply Z.eqb_neq in Hid as ->.
Qed.

Lemma release_seat_by_holder_witness :
  let a1 := Sample.claimed 1 "A1" Sample.tokenA (Sample.t0 + Sample.minute)
              "Budi" "0812" "ABCD-1234" in
  let a2 := Sample.held 2 "A2" Sample.tokenA (Sample.t0 + Sample.minute) in
  let db := [a1; a2] in
  exists db',
    release_seat Sample.t0 Sample.t0 0 1 "A1" Sample.tokenA db
    = (Return (mkResult true "Hold dilepas."
                 (Some (seat_payload (Sample.fresh 1 "A1")))), db')
    /\ filter (seat_at 1 "A1") db' = [Sample.fresh 1 "A1"]
    /\ nth_error db' 1 = Some a2.
Proof.
  intros a1 a2 db.
  assert (Hu : unique_ids db).
  { unfold unique_ids. simpl.
    constructor; [intros [H|[]]; discriminate|].
    constructor; [intros []|constructor]. }
  destruct (release_seat_by_holder Sample.t0 Sample.t0 0 1 "A1" Sample.tokenA
              db a1 Hu (Z.le_refl _) eq_refl eq_refl eq_refl)
    as (db' & Hrun & Hrow & Hother).
  exists db'. split; [exact Hrun | split; [exact Hrow | ]].
  apply (Hother 1%nat a2 eq_refl). discriminate.
Defined.

(** X9: nobody releases a hold they do not own.  Whenever [release_seat]
    succeeds, the table held, before the call, a row for that trip and code
    that was on HOLD for the caller's token with a deadline not before
    [now]. *)
Theorem release_seat_requires_holder
    t_sweep now t_save trip_id seat_code hold_token db r db' :
  release_seat t_sweep now t_save trip_id seat_code hold_token db
    = (Return r, db') ->
  ok r = true ->
  exists seat u,
    In seat db
    /\ seat_at trip_id seat_code seat = true
    /\ Seat.status seat = Seat.HOLD
    /\ Seat.hold_token seat = Some hold_token
    /\ Seat.hold_until seat = Some u
    /\ now <= u.
Proof.
  intros H Hok. rewrite release_seat_run in H. cbv zeta in H.
  destruct (filter (seat_at trip_id seat_code) (swept t_sweep db))
    as [|seat [|? ?]] eqn:Hget; try discriminate.
  { injection H as <- _. discriminate. }
  destruct (live_hold now seat) eqn:Hlive; simpl in H.
  2:{ injection H as <- _. discriminate. }
  destruct (col_eq (Seat.hold_token seat) hold_token) eqn:Htok; simpl in H.
  2:{ injection H as <- _. discriminate. }
  assert (Hin : In seat (swept t_sweep db)
                /\ seat_at trip_id seat_code seat = true).
  { apply filter_In. rewrite Hget. now left. }
  destruct Hin as [Hin Hat]. rewrite swept_map in Hin.
  apply in_map_iff in Hin as (s0 & Hs0 & Hin0).
  unfold live_hold in Hlive. apply andb_true_iff in Hlive as [Hst Hu].
  assert (Hsame : s0 = seat).
  { unfold sweep_row in Hs0. destruct (expired t_sweep s0); [|exact Hs0].
    subst seat. discriminate. }
  subst s0.
  unfold col_gte in Hu. destruct (Seat.hold_until seat) as [u|] eqn:Eu;
    [|discriminate].
  unfold col_eq in Htok. destruct (Seat.hold_token seat) as [x|] eqn:Ex;
    [|discriminate].
  apply String.eqb_eq in Htok. subst x.
  exists seat, u. repeat split; auto.
  - unfold is_status in Hst. destruct (Seat.status seat); simpl in Hst;
      congruence.
  - apply Z.geb_le in Hu. exact Hu.
Qed.

Lemma release_seat_requires_holder_witness :
  let a1 := Sample.held 1 "A1" Sample.tokenA (Sample.t0 + Sample.minute) in
  exists r db' seat u,
    release_seat Sample.t0 Sample.t0 0 1 "A1" Sample.tokenA [a1]
    = (Return r, db')
    /\ ok r = true
    /\ In seat [a1]
    /\ Seat.hold_token seat = Some Sample.tokenA
    /\ Seat.hold_until seat = Some u
    /\ Sample.t0 <= u.
Proof.
  intros a1. eexists. eexists.
  destruct (release_seat_requires_holder Sample.t0 Sample.t0 0 1 "A1"
              Sample.tokenA [a1] _ _ eq_refl eq_refl)
    as (seat & u & Hin & _ & _ & Htok & Hu & Hle).
  exists seat, u.
  split; [reflexivity | split; [reflexivity | ]].
  split; [exact Hin | split; [exact Htok | split; [exact Hu | exact Hle]]].
Defined.

(** ** What an operation may write *)

Lemma updated_map p f db :
  updated p f db = map (fun s => if p s then f s else s) db.
Proof. reflexivity. Qed.

Lemma loaded_in (p : Seat.t -> bool) db seat l :
  filter p db = seat :: l -> In seat db.
Proof.
  intros H. apply (filter_In p seat db). rewrite H. now left.
Qed.

(** Every operation leaves either the table it found (when it raises) or
    the swept table with one of the writes of [table_write]. *)
Lemma perform_writes {rt : Runtime} t_sweep now t_count t_save c db o db' :
  perform t_sweep now t_count t_save c db = (o, db') ->
  db' = db \/ table_write now t_save (swept t_sweep db) db'.
Proof.
  intros H. destruct c; cbn [perform] in H.
  - rewrite hold_seat_run in H. cbv zeta in H.
    destruct (_ >=? max_hold_per_session) in H.
    { injection H as _ <-. right. constructor. }
    destruct (filter (seat_at trip_id seat_code) (swept t_sweep db))
      as [|seat [|? ?]] eqn:Hget.
    + injection H as _ <-. right. constructor.
    + apply loaded_in in Hget.
      destruct (is_status Seat.BOOKED seat) eqn:Hb.
      { injection H as _ <-. right. constructor. }
      destruct (live_hold now seat) eqn:Hlive.
      * destruct (col_eq (Seat.hold_token seat) hold_token); simpl in H.
        -- destruct (Py.plus_minutes now hold_minutes) as [hold_until|];
             injection H as _ <-; [right; now apply W_refresh | now left].
        -- injection H as _ <-. right. constructor.
      * destruct (Py.plus_minutes now hold_minutes) as [hold_until|];
          injection H as _ <-; [right; now apply W_acquire | now left].
    + injection H as _ <-. now left.
  - rewrite release_seat_run in H. cbv zeta in H.
    destruct (filter (seat_at trip_id seat_code) (swept t_sweep db))
      as [|seat [|? ?]] eqn:Hget.
    + injection H as _ <-. right. constructor.
    + apply loaded_in in Hget.
      destruct (live_hold now seat) eqn:Hlive; simpl in H.
      2:{ injection H as _ <-. right. constructor. }
      destruct (col_eq (Seat.hold_token seat) hold_token); simpl in H;
        injection H as _ <-; right; [now apply W_free | constructor].
    + injection H as _ <-. now left.
  - unfold_ops.
    destruct (filter (active_trip trip_id) trips) as [|trip [|? ?]];
      cbv beta iota in H.
    + injection H as _ <-. right. constructor.
    + destruct (existsb _ (swept t_sweep db)); cbv beta iota delta [negb] in H;
        injection H as _ <-; right; [apply W_attach | constructor].
    + injection H as _ <-. now left.
  - unfold_ops.
    destruct (existsb _ (swept t_sweep db)); cbv beta iota delta [negb] in H;
      injection H as _ <-; right; [apply W_claim | constructor].
  - unfold_ops.
    destruct (negb _); cbv beta iota in H.
    { injection H as _ <-. right. constructor. }
    destruct (filter (requested_booked trip_id seat_codes) (swept t_sweep db))
      as [|s l] eqn:Hnone.
    + rewrite (proj2 (db_order_empty []) eq_refl) in H.
      injection H as _ <-. right. now apply W_book.
    + destruct (map Seat.code (db_order (s :: l))) eqn:Hcodes.
      * apply map_eq_nil in Hcodes. apply (proj1 (db_order_empty _)) in Hcodes.
        discriminate Hcodes.
      * injection H as _ <-. right. constructor.
  - unfold_ops.
    destruct (negb _); cbv beta iota in H.
    { injection H as _ <-. right. constructor. }
    destruct (filter (requested_booked trip_id seat_codes) (swept t_sweep db))
      as [|s l] eqn:Hnone.
    + rewrite (proj2 (db_order_empty []) eq_refl) in H.
      injection H as _ <-. right. now apply W_confirm.
    + destruct (map Seat.code (db_order (s :: l))) eqn:Hcodes.
      * apply map_eq_nil in Hcodes. apply (proj1 (db_order_empty _)) in Hcodes.
        discriminate Hcodes.
      * injection H as _ <-. right. constructor.
Qed.

Lemma live_hold_status now s :
  live_hold now s = true -> Seat.status s = Seat.HOLD.
Proof.
  unfold live_hold, is_status. intros H. apply andb_true_iff in H as [H _].
  destruct (Seat.status s); simpl in H; congruence.
Qed.

Lemma hold_row_ok_columns s :
  Seat.status s = Seat.HOLD -> row_ok s = true ->
  is_some (Seat.hold_token s) = true
  /\ is_some (Seat.hold_until s) = true
  /\ is_none (Seat.booking_code s) = true.
Proof.
  unfold row_ok. intros ->. intros H.
  apply andb_true_iff in H as [H H3]. apply andb_true_iff in H as [H1 H2].
  auto.
Qed.

Lemma sweep_gentle now db : gentle (sweep_row now) db.
Proof.
  intros r _. unfold sweep_row. destruct (expired now r) eqn:E; [right|now left].
  unfold expired in E. apply andb_true_iff in E as [E _].
  assert (Hst : Seat.status r = Seat.HOLD)
    by (unfold is_status in E; destruct (Seat.status r); simpl in E; congruence).
  split; [|split]; [|reflexivity|reflexivity].
  unfold is_status. now rewrite Hst.
Qed.

Lemma saved_gentle inst write db seat :
  unique_ids db ->
  In seat db ->
  Seat.id inst = Seat.id seat ->
  is_status Seat.BOOKED seat = false ->
  seat_ident (write inst seat) = seat_ident seat ->
  (row_ok seat = true -> row_ok (write inst seat) = true) ->
  gentle (fun r => if Seat.id r =? Seat.id inst then write inst r else r) db.
Proof.
  intros Hu Hin Hid Hb Hident Hok r Hr.
  destruct (Z.eqb_spec (Seat.id r) (Seat.id inst)) as [E|E]; [right|now left].
  rewrite Hid in E. rewrite (unique_ids_row db r seat Hu Hr Hin E). auto.
Qed.

Lemma updated_gentle (p : Seat.t -> bool) f db :
  (forall r, In r db -> p r = true ->
             is_status Seat.BOOKED r = false
             /\ seat_ident (f r) = seat_ident r
             /\ (row_ok r = true -> row_ok (f r) = true)) ->
  gentle (fun r => if p r then f r else r) db.
Proof.
  intros H r Hr. destruct (p r) eqn:E; [right; now apply H | now left].
Qed.

Lemma not_requested_booked trip_id seat_codes db r :
  filter (requested_booked trip_id seat_codes) db = [] ->
  In r db -> requested trip_id seat_codes r = true ->
  is_status Seat.BOOKED r = false.
Proof.
  intros Hnone Hr Hreq. destruct (is_status Seat.BOOKED r) eqn:Hb; [|reflexivity].
  assert (Hin : In r (filter (requested_booked trip_id seat_codes) db)).
  { apply filter_In. split; [exact Hr|].
    unfold requested_booked. now rewrite Hreq, Hb. }
  rewrite Hnone in Hin. destruct Hin.
Qed.

Lemma table_write_gentle {rt : Runtime} now t_save db db' :
  unique_ids db ->
  table_write now t_save db db' ->
  exists g, db' = map g db /\ gentle g db.
Proof.
  intros Hu W. destruct W as
    [ | seat m Hin Hlive | seat m tok Hin Hb | seat Hin Hlive
      | trip tok cc name wa | trip cc wa tok | trip codes bc Hnone
      | trip codes Hnone ].
  - exists (fun r => r). split; [now rewrite map_id | intros r _; now left].
  - eexists. split; [apply saved_map|].
    apply (saved_gentle _ _ db seat); auto.
    + now apply (live_hold_not_booked now).
    + intros Hok. pose proof (live_hold_status now seat Hlive) as Hst.
      destruct (hold_row_ok_columns seat Hst Hok) as (H1 & _ & H3).
      unfold row_ok, fields_hold_until_updated_at, refreshed. simpl.
      rewrite Hst, H1, H3. reflexivity.
  - eexists. split; [apply saved_map|].
    apply (saved_gentle _ _ db seat); auto.
  - eexists. split; [apply saved_map|].
    apply (saved_gentle _ _ db seat); auto.
    now apply (live_hold_not_booked now).
  - eexists. split; [apply updated_map|].
    apply updated_gentle. intros r _ Hp. apply active_hold_live in Hp.
    fold (live_hold now r) in Hp.
    split; [now apply (live_hold_not_booked now)|]. split; [reflexivity|].
    intros Hok. pose proof (live_hold_status now r Hp) as Hst.
    destruct (hold_row_ok_columns r Hst Hok) as (H1 & H2 & H3).
    unfold row_ok, attach_columns. simpl. rewrite Hst, H1, H2, H3. reflexivity.
  - eexists. split; [apply updated_map|].
    apply updated_gentle. intros r _ Hp. apply claim_q_live in Hp.
    fold (live_hold now r) in Hp.
    split; [now apply (live_hold_not_booked now)|]. split; [reflexivity|].
    intros Hok. pose proof (live_hold_status now r Hp) as Hst.
    destruct (hold_row_ok_columns r Hst Hok) as (H1 & H2 & H3).
    unfold row_ok. simpl. rewrite Hst, H2, H3. reflexivity.
  - eexists. split; [apply updated_map|].
    apply updated_gentle. intros r Hr Hp.
    split; [now apply (not_requested_booked trip codes db)|].
    split; reflexivity.
  - eexists. split; [apply updated_map|].
    apply updated_gentle. intros r Hr Hp.
    split; [now apply (not_requested_booked trip codes db)|].
    split; reflexivity.
Qed.

Lemma gentle_ident g db : gentle g db -> map seat_ident (map g db) = map seat_ident db.
Proof.
  intros H. rewrite map_map. apply map_ext_in. intros r Hr.
  destruct (H r Hr) as [->|(_ & E & _)]; auto.
Qed.

Lemma ident_ids db1 db2 :
  map seat_ident db1 = map seat_ident db2 -> map Seat.id db1 = map Seat.id db2.
Proof.
  intros H. apply (f_equal (map (fun k => fst (fst k)))) in H.
  now rewrite !map_map in H.
Qed.

(** Every operation, whatever it returns or raises, rewrites the table it
    found row by row with a gentle rewrite. *)
Lemma perform_gentle {rt : Runtime} t_sweep now t_count t_save c db o db' :
  unique_ids db ->
  perform t_sweep now t_count t_save c db = (o, db') ->
  exists g, db' = map g db /\ gentle g db.
Proof.
  intros Hu H. apply perform_writes in H as [->|W].
  { exists (fun r => r). split; [now rewrite map_id | intros r _; now left]. }
  pose proof (sweep_gentle t_sweep db) as Hs.
  assert (Hu1 : unique_ids (swept t_sweep db))
    by (unfold unique_ids; now rewrite swept_ids).
  destruct (table_write_gentle now t_save _ db' Hu1 W) as (g & -> & Hg).
  exists (fun r => g (sweep_row t_sweep r)).
  split; [now rewrite swept_map, map_map|].
  intros r Hr.
  assert (Hr1 : In (sweep_row t_sweep r) (swept t_sweep db))
    by (rewrite swept_map; now apply in_map).
  destruct (Hs r Hr) as [E|(Hb & Hi & Hok)].
  - rewrite E in *. exact (Hg r Hr1).
  - destruct (Hg _ Hr1) as [E|(Hb' & Hi' & Hok')].
    + rewrite E. right. auto.
    + right. split; [exact Hb|]. split; [congruence|auto].
Qed.

(** ** Invariants of the reservation engine *)

(** X10: no operation creates, deletes, renumbers, moves or renames a
    seat.  With unique primary keys, after any operation, whatever it
    returned or raised, the table lists the same (id, trip, code) triples in
    the same order; so primary keys and (trip, code) pairs stay unique. *)
Theorem perform_keeps_seat_identities {rt : Runtime}
    t_sweep now t_count t_save c db o db' :
  unique_ids db ->
  perform t_sweep now t_count t_save c db = (o, db') ->
  map seat_ident db' = map seat_ident db
  /\ unique_ids db'
  /\ (unique_codes db -> unique_codes db').
Proof.
  intros Hu H.
  destruct (perform_gentle _ _ _ _ _ _ _ _ Hu H) as (g & -> & Hg).
  pose proof (gentle_ident g db Hg) as Hi.
  split; [exact Hi|]. split.
  - unfold unique_ids. now rewrite (ident_ids _ _ Hi).
  - unfold unique_codes. intros Hc.
    replace (map seat_key (map g db)) with (map seat_key db); [exact Hc|].
    apply (f_equal (map (fun k => (snd (fst k), snd k)))) in Hi.
    rewrite !map_map in Hi. rewrite map_map. symmetry. exact Hi.
Qed.

Lemma perform_keeps_seat_identities_witness :
  let db := [Sample.held 1 "A1" Sample.tokenA (Sample.t0 - Sample.minute);
             Sample.fresh 2 "A2"] in
  exists o db',
    perform (rt := Sample.runtime) Sample.t0 Sample.t0 Sample.t0 Sample.t0
      (Hold 1 "A2" Sample.tokenB 10 4) db = (o, db')
    /\ db' <> db
    /\ map seat_ident db' = map seat_ident db.
Proof.
  intros db.
  assert (Hu : unique_ids db).
  { unfold unique_ids. simpl.
    constructor; [intros [H|[]]; discriminate|].
    constructor; [intros []|constructor]. }
  destruct (perform (rt := Sample.runtime)
              Sample.t0 Sample.t0 Sample.t0 Sample.t0
              (Hold 1 "A2" Sample.tokenB 10 4) db) as [o db'] eqn:Hrun.
  exists o, db'. split; [reflexivity|]. split.
  - vm_compute in Hrun. injection Hrun as _ <-. discriminate.
  - exact (proj1 (perform_keeps_seat_identities (rt := Sample.runtime)
      _ _ _ _ _ db o db' Hu Hrun)).
Defined.

(** X11: BOOKED is final.  With unique primary keys, a row that is BOOKED
    before an operation (a hold, a release, a contact attachment, a claim,
    either admin booking, succeeding, failing or raising) is the same row,
    at the same place, after it. *)
Theorem perform_never_touches_booked {rt : Runtime}
    t_sweep now t_count t_save c db o db' i s :
  unique_ids db ->
  perform t_sweep now t_count t_save c db = (o, db') ->
  nth_error db i = Some s ->
  Seat.status s = Seat.BOOKED ->
  nth_error db' i = Some s.
Proof.
  intros Hu H Hi Hst.
  destruct (perform_gentle _ _ _ _ _ _ _ _ Hu H) as (g & -> & Hg).
  rewrite nth_error_map, Hi. simpl. f_equal.
  destruct (Hg s (nth_error_In _ _ Hi)) as [E|(Hb & _)]; [exact E|].
  unfold is_status in Hb. rewrite Hst in Hb. discriminate.
Qed.

Lemma perform_never_touches_booked_witness :
  let a1 := Sample.booked 1 "A1" 5 in
  let db := [a1; Sample.fresh 2 "A2"] in
  exists o db',
    perform (rt := Sample.runtime) Sample.t0 Sample.t0 Sample.t0 Sample.t0
      (AdminBook "BK-2" 1 ["A2"%string]) db = (o, db')
    /\ db' <> db
    /\ nth_error db' 0 = Some a1.
Proof.
  intros a1 db.
  assert (Hu : unique_ids db).
  { unfold unique_ids. simpl.
    constructor; [intros [H|[]]; discriminate|].
    constructor; [intros []|constructor]. }
  destruct (perform (rt := Sample.runtime)
              Sample.t0 Sample.t0 Sample.t0 Sample.t0
              (AdminBook "BK-2" 1 ["A2"%string]) db) as [o db'] eqn:Hrun.
  exists o, db'. split; [reflexivity|]. split.
  - vm_compute in Hrun. injection Hrun as _ <-. discriminate.
  - exact (perform_never_touches_booked (rt := Sample.runtime)
             _ _ _ _ _ db o db' 0%nat a1 Hu Hrun
             eq_refl eq_refl).
Defined.

(** X12: the shape of the rows is an invariant.  With unique primary keys,
    if every row has the shape of its status (AVAILABLE: no holder, no
    deadline, no claim code; HOLD: a holder, a deadline, no booking code;
    BOOKED: no holder, no deadline, a booking time), then so does every row
    after any operation, whatever it returned or raised. *)
Theorem perform_keeps_rows_well_shaped {rt : Runtime}
    t_sweep now t_count t_save c db o db' :
  unique_ids db ->
  forallb row_ok db = true ->
  perform t_sweep now t_count t_save c db = (o, db') ->
  forallb row_ok db' = true.
Proof.
  intros Hu Hok H.
  destruct (perform_gentle _ _ _ _ _ _ _ _ Hu H) as (g & -> & Hg).
  apply forallb_forall. intros r' Hr'.
  apply in_map_iff in Hr' as (r & <- & Hr).
  pose proof (proj1 (forallb_forall row_ok db) Hok r Hr) as Hr_ok.
  destruct (Hg r Hr) as [->|(_ & _ & Hkeep)]; auto.
Qed.

Lemma perform_keeps_rows_well_shaped_witness :
  let db := [Sample.claimed 1 "A1" Sample.tokenA (Sample.t0 + Sample.minute)
               "Budi" "0812" "ABCD-1234";
             Sample.fresh 2 "A2"] in
  exists o db',
    perform (rt := Sample.runtime) Sample.t0 Sample.t0 Sample.t0 Sample.t0
      (AdminConfirm 1 ["A1"; "A2"]%string) db = (o, db')
    /\ db' <> db
    /\ forallb row_ok db' = true.
Proof.
  intros db.
  assert (Hu : unique_ids db).
  { unfold unique_ids. simpl.
    constructor; [intros [H|[]]; discriminate|].
    constructor; [intros []|constructor]. }
  destruct (perform (rt := Sample.runtime)
              Sample.t0 Sample.t0 Sample.t0 Sample.t0
              (AdminConfirm 1 ["A1"; "A2"]%string) db) as [o db'] eqn:Hrun.
  exists o, db'. split; [reflexivity|]. split.
  - vm_compute in Hrun. injection Hrun as _ <-. discriminate.
  - exact (perform_keeps_rows_well_shaped (rt := Sample.runtime)
      _ _ _ _ _ db o db' Hu eq_refl Hrun).
Defined.

(** ** Hold, then release *)

Lemma saved_ids inst write db seat :
  unique_ids db ->
  In seat db ->
  Seat.id inst = Seat.id seat ->
  Seat.id (write inst seat) = Seat.id seat ->
  map Seat.id (saved inst write db) = map Seat.id db.
Proof.
  intros Hu Hin Hid Hw. rewrite saved_map, map_map. apply map_ext_in.
  intros r Hr. destruct (Z.eqb_spec (Seat.id r) (Seat.id inst)) as [E|E];
    [|reflexivity].
  rewrite Hid in E. now rewrite (unique_ids_row db r seat Hu Hr Hin E).
Qed.

Lemma acquired_keys hold_until t_save hold_token trip_id seat_code s :
  Seat.id (acquired hold_until t_save hold_token s) = Seat.id s
  /\ seat_at trip_id seat_code (acquired hold_until t_save hold_token s)
     = seat_at trip_id seat_code s
  /\ live_hold hold_until (acquired hold_until t_save hold_token s) = true
  /\ Seat.hold_token (acquired hold_until t_save hold_token s)
     = Some hold_token.
Proof.
  repeat split. unfold live_hold, is_status, col_gte. simpl.
  apply Z.geb_le. lia.
Qed.

Lemma freed_acquired t_save2 hold_until t_save hold_token s :
  freed t_save2 (acquired hold_until t_save hold_token s)
  = Seat.mk (Seat.id s) (Seat.trip_id s) (Seat.code s) Seat.AVAILABLE
      None None None None None None None t_save2.
Proof. reflexivity. Qed.

Lemma freed_id t_save s : Seat.id (freed t_save s) = Seat.id s.
Proof. reflexivity. Qed.

Lemma live_hold_earlier t1 t2 s :
  t1 <= t2 -> live_hold t2 s = true -> live_hold t1 s = true.
Proof.
  unfold live_hold, col_gte. intros Hle H.
  apply andb_true_iff in H as [-> H]. simpl.
  destruct (Seat.hold_until s); [|discriminate].
  apply Z.geb_le in H. apply Z.geb_le. lia.
Qed.

(** X13: a hold and its release undo each other.  With unique primary
    keys, when a session below its quota takes a seat that is neither BOOKED
    nor under a live hold, for a number of minutes that gives a deadline
    Python can represent, and then releases it before that deadline, both
    calls succeed and the seat is AVAILABLE again with every hold, contact,
    claim and booking column empty. *)
Theorem hold_then_release_round_trip
    t_sweep1 now1 t_count1 t_save1 t_sweep2 now2 t_save2
    trip_id seat_code hold_token hold_minutes max_hold_per_session
    db seat current_holds :
  unique_ids db ->
  t_sweep1 <= t_count1 ->
  filter (seat_at trip_id seat_code) db = [seat] ->
  is_status Seat.BOOKED seat = false ->
  live_hold now1 seat = false ->
  _count_holds_for_token t_count1 trip_id hold_token db
    = (Return current_holds, db) ->
  current_holds < max_hold_per_session ->
  -999999999 <= hold_minutes / 1440 <= 999999999 ->
  Py.datetime_min <= now1 + hold_minutes * 60000000 <= Py.datetime_max ->
  t_sweep2 <= now2 ->
  now2 <= now1 + hold_minutes * 60000000 ->
  exists r1 db1 r2 db2,
    hold_seat t_sweep1 now1 t_count1 t_save1 trip_id seat_code hold_token
      hold_minutes max_hold_per_session db = (Return r1, db1)
    /\ ok r1 = true
    /\ release_seat t_sweep2 now2 t_save2 trip_id seat_code hold_token db1
       = (Return r2, db2)
    /\ ok r2 = true
    /\ filter (seat_at trip_id seat_code) db2
       = [Seat.mk (Seat.id seat) (Seat.trip_id seat) (Seat.code seat)
            Seat.AVAILABLE None None None None None None None t_save2].
Proof.
  intros Hu Hle1 Hget Hb Hlive Hcount Hquota Hdays Hsum Hle2 Hdue.
  unfold _count_holds_for_token, qs_count in Hcount.
  injection Hcount as Hcount.
  assert (Hplus : Py.plus_minutes now1 hold_minutes
                  = Some (now1 + hold_minutes * 60000000))
    by (apply plus_minutes_spec; auto).
  revert Hdue Hplus. generalize (now1 + hold_minutes * 60000000).
  intros deadline Hdue Hplus.
  assert (Hat : seat_at trip_id seat_code seat = true).
  { apply (filter_In (seat_at trip_id seat_code) seat db).
    rewrite Hget. now left. }
  destruct (sweep_row_keys t_sweep1 seat) as (K1 & K2 & K3).
  assert (Hu1 : unique_ids (swept t_sweep1 db))
    by (unfold unique_ids; now rewrite swept_ids).
  pose proof (loaded_after_sweep t_sweep1 _ _ _ _ Hget) as Hget1.
  pose proof (sweep_row_booked t_sweep1 seat) as Hb1. rewrite Hb in Hb1.
  pose proof (not_live_after_sweep t_sweep1 _ _ Hlive) as Hlive1.
  pose proof (seat_at_sweep t_sweep1 trip_id seat_code seat) as Hat1.
  rewrite Hat in Hat1.
  revert K1 K2 K3 Hget1 Hb1 Hlive1 Hat1.
  generalize (sweep_row t_sweep1 seat). intros seat1 K1 K2 K3 Hget1 Hb1 Hlive1 Hat1.
  destruct (acquired_keys deadline t_save1 hold_token trip_id
              seat_code seat1) as (A1 & A2 & A3 & A4).
  pose proof (freed_acquired t_save2 deadline t_save1 hold_token
                seat1) as Hfreed.
  rewrite K1, K2, K3 in Hfreed. rewrite Hat1 in A2.
  apply (live_hold_earlier now2) in A3; [|exact Hdue].
  assert (Hrun1 :
    hold_seat t_sweep1 now1 t_count1 t_save1 trip_id seat_code hold_token
      hold_minutes max_hold_per_session db
    = (Return (mkResult true "Kursi berhasil di-hold."
                 (Some (seat_payload
                          (acquired deadline t_save1 hold_token seat1)))),
       saved (acquired deadline t_save1 hold_token seat1)
         all_fields (swept t_sweep1 db))).
  { rewrite hold_seat_run. cbv zeta.
    rewrite count_after_sweep by exact Hle1. rewrite Hcount.
    replace (current_holds >=? max_hold_per_session) with false
      by (symmetry; rewrite Z.geb_leb; apply Z.leb_gt; lia).
    rewrite Hget1, Hb1, Hlive1, Hplus. reflexivity. }
  revert A1 A2 A3 A4 Hfreed Hrun1.
  generalize (acquired deadline t_save1 hold_token seat1).
  intros row1 A1 A2 A3 A4 Hfreed Hrun1.
  assert (Hget2 : filter (seat_at trip_id seat_code)
                    (saved row1 all_fields (swept t_sweep1 db)) = [row1]).
  { apply (saved_loaded trip_id seat_code row1 all_fields _ seat1 Hu1 Hget1 A1).
    exact A2. }
  assert (Hu2 : unique_ids (saved row1 all_fields (swept t_sweep1 db))).
  { unfold unique_ids.
    rewrite (saved_ids row1 all_fields _ seat1 Hu1
               (loaded_in _ _ _ _ Hget1) A1 A1).
    exact Hu1. }
  assert (Hu3 : unique_ids (swept t_sweep2
                              (saved row1 all_fields (swept t_sweep1 db))))
    by (unfold unique_ids; now rewrite swept_ids).
  assert (Hget3 : filter (seat_at trip_id seat_code)
                    (swept t_sweep2
                       (saved row1 all_fields (swept t_sweep1 db)))
                  = [row1]).
  { rewrite (loaded_after_sweep _ _ _ _ _ Hget2).
    now rewrite (live_hold_survives_sweep t_sweep2 now2 row1 Hle2 A3). }
  exists (mkResult true "Kursi berhasil di-hold." (Some (seat_payload row1))).
  exists (saved row1 all_fields (swept t_sweep1 db)).
  exists (mkResult true "Hold dilepas."
            (Some (seat_payload (freed t_save2 row1)))).
  exists (saved (freed t_save2 row1) all_fields
            (swept t_sweep2 (saved row1 all_fields (swept t_sweep1 db)))).
  split; [exact Hrun1|]. split; [reflexivity|]. split; [|split].
  - rewrite release_seat_run. cbv zeta. rewrite Hget3, A3.
    replace (col_eq (Seat.hold_token row1) hold_token) with true
      by (rewrite A4; simpl; symmetry; apply String.eqb_refl).
    reflexivity.
  - reflexivity.
  - pose proof (saved_loaded trip_id seat_code (freed t_save2 row1)
                  all_fields _ row1 Hu3 Hget3 (freed_id t_save2 row1) A2)
      as Hfin.
    exact (eq_trans Hfin (f_equal (fun x => [x]) Hfreed)).
Qed.


Lemma hold_then_release_round_trip_witness :
  let db := [Sample.fresh 1 "A1"; Sample.fresh 2 "A2"] in
  exists r1 db1 r2 db2,
    hold_seat Sample.t0 Sample.t0 Sample.t0 0 1 "A1" Sample.tokenA
      HOLD_MINUTES_DEFAULT MAX_HOLD_PER_SESSION_DEFAULT db = (Return r1, db1)
    /\ ok r1 = true
    /\ release_seat (Sample.t0 + Sample.minute) (Sample.t0 + Sample.minute) 0
         1 "A1" Sample.tokenA db1 = (Return r2, db2)
    /\ ok r2 = true
    /\ filter (seat_at 1 "A1") db2 = [Sample.fresh 1 "A1"].
Proof.
  intros db.
  assert (Hu : unique_ids db).
  { unfold unique_ids. simpl.
    constructor; [intros [H|[]]; discriminate|].
    constructor; [intros []|constructor]. }
  refine (hold_then_release_round_trip Sample.t0 Sample.t0 Sample.t0 0
            (Sample.t0 + Sample.minute) (Sample.t0 + Sample.minute) 0
            1 "A1" Sample.tokenA HOLD_MINUTES_DEFAULT
            MAX_HOLD_PER_SESSION_DEFAULT db (Sample.fresh 1 "A1") 0 Hu
            (Z.le_refl _) eq_refl eq_refl eq_refl eq_refl eq_refl
            _ _ (Z.le_refl _) _);
    vm_compute; try split; discriminate.
Defined.

(** ** Ordering by code, and the public seat map *)

From Stdlib Require Import Sorting.Sorted.
From Stdlib Require Import DecimalPos DecimalZ.

Lemma insert_by_code_perm s l : Permutation (insert_by_code s l) (s :: l).
Proof.
  induction l as [|x l IH]; simpl; [apply Permutation_refl|].
  destruct (String.leb (Seat.code s) (Seat.code x)).
  - apply Permutation_refl.
  - apply perm_trans with (x :: s :: l); [now apply perm_skip | apply perm_swap].
Qed.

Lemma order_by_code_perm l : Permutation (order_by_code l) l.
Proof.
  induction l as [|x l IH]; simpl; [constructor|].
  apply perm_trans with (x :: order_by_code l);
    [apply insert_by_code_perm | now apply perm_skip].
Qed.

Lemma insert_by_code_sorted s l :
  Sorted code_le l -> Sorted code_le (insert_by_code s l).
Proof.
  induction l as [|x l IH]; simpl; intros Hs.
  - repeat constructor.
  - destruct (String.leb (Seat.code s) (Seat.code x)) eqn:E.
    + constructor; [exact Hs | constructor; exact E].
    + inversion Hs as [|? ? Hs' Hhd]; subst.
      constructor; [now apply IH|].
      assert (Hxs : code_le x s).
      { destruct (String.leb_total (Seat.code s) (Seat.code x)) as [H|H];
          [congruence | exact H]. }
      destruct l as [|y l]; simpl.
      * constructor. exact Hxs.
      * destruct (String.leb (Seat.code s) (Seat.code y)).
        -- constructor. exact Hxs.
        -- constructor. now inversion Hhd.
Qed.

Lemma order_by_code_sorted l : Sorted code_le (order_by_code l).
Proof.
  induction l as [|x l IH]; simpl; [constructor|].
  now apply insert_by_code_sorted.
Qed.

Lemma get_seat_map_table t_sweep trips trip_id db :
  snd (get_seat_map t_sweep trips trip_id db) = swept t_sweep db.
Proof.
  unfold_ops.
  destruct (filter (active_trip trip_id) trips) as [|trip [|? ?]];
    reflexivity.
Qed.

(** X14: a successful [get_seat_map] lists every seat of the trip exactly
    once, in ascending order of seat code: its entries are the rendering of
    a list of rows that is a permutation of the trip's rows in the swept
    table and is sorted by code. *)
Theorem seat_map_lists_trip_seats_by_code t_sweep trips trip_id db r :
  fst (get_seat_map t_sweep trips trip_id db) = Return r ->
  ok r = true ->
  exists trip rows,
    data r = Some (VDict [ ("trip"%string, trip_payload trip);
                           ("seats"%string, VList (map seat_map_entry rows)) ])
    /\ Trip.id trip = trip_id
    /\ Trip.is_active trip = true
    /\ Permutation rows (filter (of_trip trip_id) (swept t_sweep db))
    /\ Sorted code_le rows.
Proof.
  intros Hr Hok. rewrite get_seat_map_run in Hr.
  destruct (filter (active_trip trip_id) trips) as [|trip [|? ?]] eqn:Htrip;
    try discriminate.
  { injection Hr as <-. discriminate. }
  injection Hr as <-.
  assert (Hin : In trip (filter (active_trip trip_id) trips))
    by (rewrite Htrip; now left).
  apply filter_In in Hin as [_ Hact]. unfold active_trip in Hact.
  apply andb_true_iff in Hact as [Hid Hact]. apply Z.eqb_eq in Hid.
  exists trip, (order_by_code (filter (of_trip trip_id) (swept t_sweep db))).
  split; [unfold seat_entries; now rewrite Hid|].
  split; [exact Hid|]. split; [exact Hact|].
  split; [apply order_by_code_perm | apply order_by_code_sorted].
Qed.

Lemma seat_map_lists_trip_seats_by_code_witness :
  let a2 := Sample.held 1 "A2" Sample.tokenA (Sample.t0 + Sample.minute) in
  let a1 := Sample.fresh 2 "A1" in
  let db := [a2; a1] in
  exists r trip,
    fst (get_seat_map Sample.t0 Sample.trips 1 db) = Return r
    /\ data r = Some (VDict [ ("trip"%string, trip_payload trip);
                             ("seats"%string,
                               VList (map seat_map_entry [a1; a2])) ]).
Proof.
  intros a2 a1 db.
  destruct (fst (get_seat_map Sample.t0 Sample.trips 1 db)) as [r|e] eqn:Hrun;
    [|vm_compute in Hrun; discriminate].
  assert (Hok : ok r = true)
    by (vm_compute in Hrun; injection Hrun as <-; reflexivity).
  destruct (seat_map_lists_trip_seats_by_code Sample.t0 Sample.trips 1 db r
              Hrun Hok) as (trip & rows & _).
  exists r, Sample.trip1. split; [reflexivity|].
  vm_compute in Hrun. injection Hrun as <-. reflexivity.
Defined.

(** X15: the seat map never shows an expired hold.  In the answer of
    [get_seat_map], no entry of the seat list has status HOLD with a
    deadline before the reading of the clock its sweep used: such a seat
    was released by the sweep before the list was read, and is shown as
    AVAILABLE. *)
Theorem seat_map_shows_no_expired_hold
    t_sweep trips trip_id db r shown entries id code u :
  fst (get_seat_map t_sweep trips trip_id db) = Return r ->
  data r = Some (VDict [ ("trip"%string, shown);
                         ("seats"%string, VList entries) ]) ->
  In (VDict [ ("id"%string, VInt id);
              ("code"%string, VStr code);
              ("status"%string, VStatus Seat.HOLD);
              ("hold_until"%string, VIso u) ])
     entries ->
  t_sweep <= u.
Proof.
  intros Hr Hdata H. rewrite get_seat_map_run in Hr.
  destruct (filter (active_trip trip_id) trips) as [|trip [|? ?]];
    try discriminate.
  { injection Hr as <-. discriminate. }
  injection Hr as <-. cbn [data] in Hdata. injection Hdata as _ <-.
  unfold seat_entries in H.
  apply in_map_iff in H as (s & Hs & Hin).
  apply (Permutation_in _ (order_by_code_perm _)) in Hin.
  apply filter_In in Hin as [Hin _]. rewrite swept_map in Hin.
  apply in_map_iff in Hin as (s0 & <- & _).
  pose proof (sweep_row_clean t_sweep s0) as Hc.
  unfold seat_map_entry in Hs.
  injection Hs as _ _ Hst Hu.
  unfold expired, is_status in Hc. rewrite Hst in Hc. simpl in Hc.
  destruct (Seat.hold_until (sweep_row t_sweep s0)) as [v|]; [|discriminate].
  injection Hu as ->. simpl in Hc. apply Z.ltb_ge in Hc. exact Hc.
Qed.

Lemma seat_map_shows_no_expired_hold_witness :
  let live := Sample.held 1 "A1" Sample.tokenA (Sample.t0 + Sample.minute) in
  let stale := Sample.held 2 "A2" Sample.tokenB (Sample.t0 - Sample.minute) in
  let db := [live; stale] in
  fst (get_seat_map Sample.t0 Sample.trips 1 db)
  = Return (mkResult true "OK"
              (Some (VDict
                 [ ("trip"%string, trip_payload Sample.trip1);
                   ("seats"%string,
                     VList [ seat_map_entry live;
                             seat_map_entry (Sample.fresh 2 "A2") ]) ])))
  /\ Sample.t0 <= Sample.t0 + Sample.minute.
Proof.
  intros live stale db.
  assert (Hrun : fst (get_seat_map Sample.t0 Sample.trips 1 db)
                 = Return (mkResult true "OK"
                             (Some (VDict
                                [ ("trip"%string, trip_payload Sample.trip1);
                                  ("seats"%string,
                                    VList [ seat_map_entry live;
                                            seat_map_entry
                                              (Sample.fresh 2 "A2") ]) ]))))
    by (vm_compute; reflexivity).
  split; [exact Hrun|].
  exact (seat_map_shows_no_expired_hold Sample.t0 Sample.trips 1 db _ _ _
           1 "A1" (Sample.t0 + Sample.minute) Hrun eq_refl
           (or_introl eq_refl)).
Defined.

(** X16: the read path writes.  Whatever [get_seat_map] returns or raises,
    also when the trip is unknown or inactive and the answer is the
    trip-not-found failure, it leaves the table swept: the sweep is
    committed, and nothing else is written. *)
Theorem get_seat_map_commits_the_sweep t_sweep trips trip_id db :
  snd (get_seat_map t_sweep trips trip_id db) = swept t_sweep db
  /\ (filter (active_trip trip_id) trips = [] ->
      get_seat_map t_sweep trips trip_id db
      = (Return (failure "Trip tidak ditemukan."), swept t_sweep db)).
Proof.
  split; [apply get_seat_map_table|].
  intros Hnone. unfold_ops. rewrite Hnone. reflexivity.
Qed.

Lemma get_seat_map_commits_the_sweep_witness :
  let db := [Sample.held 1 "A1" Sample.tokenA (Sample.t0 - Sample.minute)] in
  get_seat_map Sample.t0 Sample.trips 9 db
  = (Return (failure "Trip tidak ditemukan."), [Sample.fresh 1 "A1"]).
Proof.
  intros db.
  exact (proj2 (get_seat_map_commits_the_sweep Sample.t0 Sample.trips 9 db)
           eq_refl).
Defined.

(** ** Trip listing *)

Lemma insert_by_depart_perm t l : Permutation (insert_by_depart t l) (t :: l).
Proof.
  induction l as [|x l IH]; simpl; [apply Permutation_refl|].
  destruct (Trip.depart_at t <=? Trip.depart_at x).
  - apply Permutation_refl.
  - apply perm_trans with (x :: t :: l); [now apply perm_skip | apply perm_swap].
Qed.

Lemma order_by_depart_perm l : Permutation (order_by_depart l) l.
Proof.
  induction l as [|x l IH]; simpl; [constructor|].
  apply perm_trans with (x :: order_by_depart l);
    [apply insert_by_depart_perm | now apply perm_skip].
Qed.

Lemma insert_by_depart_sorted t l :
  StronglySorted depart_le l -> StronglySorted depart_le (insert_by_depart t l).
Proof.
  induction l as [|x l IH]; simpl; intros Hs.
  - repeat constructor.
  - inversion Hs as [|? ? Hs' Hall]; subst.
    destruct (Z.leb_spec (Trip.depart_at t) (Trip.depart_at x)) as [E|E].
    + constructor; [exact Hs|]. constructor; [exact E|].
      apply Forall_forall. intros y Hy.
      pose proof (proj1 (Forall_forall _ _) Hall y Hy) as Hxy.
      unfold depart_le in *. lia.
    + constructor; [now apply IH|].
      apply Forall_forall. intros y Hy.
      apply (Permutation_in _ (insert_by_depart_perm t l)) in Hy.
      destruct Hy as [<-|Hy].
      * unfold depart_le. lia.
      * exact (proj1 (Forall_forall _ _) Hall y Hy).
Qed.

(** X17: [list_trips] returns the active trips, each exactly once, in
    ascending order of departure: every trip it returns departs no later
    than every trip listed after it, and inactive trips never appear. *)
Theorem list_trips_active_by_departure trips :
  Permutation (list_trips trips) (filter Trip.is_active trips)
  /\ StronglySorted depart_le (list_trips trips)
  /\ (forall t, In t (list_trips trips) <->
                In t trips /\ Trip.is_active t = true).
Proof.
  unfold list_trips. split; [apply order_by_depart_perm|]. split.
  - induction (filter Trip.is_active trips) as [|x l IH]; simpl;
      [constructor | now apply insert_by_depart_sorted].
  - intros t. rewrite <- filter_In. split; intros H.
    + exact (Permutation_in _ (order_by_depart_perm _) H).
    + exact (Permutation_in _ (Permutation_sym (order_by_depart_perm _)) H).
Qed.

(** ** What attach and claim report *)

Lemma insert_by_code_map (f : Seat.t -> Seat.t) s l :
  (forall x, Seat.code (f x) = Seat.code x) ->
  insert_by_code (f s) (map f l) = map f (insert_by_code s l).
Proof.
  intros Hf. induction l as [|x l IH]; simpl; [reflexivity|].
  rewrite !Hf. destruct (String.leb (Seat.code s) (Seat.code x)); simpl;
    [reflexivity | now rewrite IH].
Qed.

Lemma order_by_code_map (f : Seat.t -> Seat.t) l :
  (forall x, Seat.code (f x) = Seat.code x) ->
  order_by_code (map f l) = map f (order_by_code l).
Proof.
  intros Hf. induction l as [|x l IH]; simpl; [reflexivity|].
  now rewrite IH, insert_by_code_map.
Qed.

(** A queryset whose filter does not read the columns an [update] writes
    selects, after the update, the rewritten versions of the same rows. *)
Lemma selected_after_update (p : Seat.t -> bool) f db :
  (forall s, p (f s) = p s) ->
  filter p (updated p f db) = map f (filter p db).
Proof.
  intros H. rewrite updated_map.
  rewrite filter_map_compat.
  - induction db as [|x l IH]; simpl; [reflexivity|].
    destruct (p x) eqn:E; simpl; rewrite ?E, IH; reflexivity.
  - intros s. destruct (p s) eqn:E; [now rewrite H | exact E].
Qed.

Lemma codes_after_update (p : Seat.t -> bool) f db :
  (forall s, p (f s) = p s) ->
  (forall s, Seat.code (f s) = Seat.code s) ->
  map Seat.code (order_by_code (filter p (updated p f db)))
  = map Seat.code (order_by_code (filter p db)).
Proof.
  intros Hp Hc. rewrite selected_after_update by exact Hp.
  rewrite order_by_code_map by exact Hc.
  rewrite map_map. apply map_ext. exact Hc.
Qed.

Lemma deadlines_after_update (p : Seat.t -> bool) f db :
  (forall s, p (f s) = p s) ->
  (forall s, Seat.hold_until (f s) = Seat.hold_until s) ->
  map Seat.hold_until (filter p (updated p f db))
  = map Seat.hold_until (filter p db).
Proof.
  intros Hp Hu. rewrite selected_after_update by exact Hp.
  rewrite map_map. apply map_ext. exact Hu.
Qed.

(** The maximum of a non-empty list of deadlines that are all present. *)
Lemma max_deadline now (l : list Seat.t) :
  l <> [] ->
  (forall s, In s l -> live_hold now s = true) ->
  exists u,
    fold_right max_opt None (map Seat.hold_until l) = Some u
    /\ now <= u
    /\ (exists s, In s l /\ Seat.hold_until s = Some u)
    /\ (forall s v, In s l -> Seat.hold_until s = Some v -> v <= u).
Proof.
  induction l as [|x l IH]; intros Hne Hlive; [congruence|].
  assert (Hx : exists v, Seat.hold_until x = Some v /\ now <= v).
  { pose proof (Hlive x (or_introl eq_refl)) as H. unfold live_hold in H.
    apply andb_true_iff in H as [_ H]. unfold col_gte in H.
    destruct (Seat.hold_until x) as [v|]; [|discriminate].
    exists v. split; [reflexivity|]. now apply Z.geb_le. }
  destruct Hx as (v & Hv & Hnv). cbn [map fold_right]. rewrite Hv.
  destruct l as [|y l].
  - exists v. simpl. repeat split; auto.
    + exists x. split; [now left | exact Hv].
    + intros s w [<-|[]] Hw. rewrite Hv in Hw. injection Hw as <-. lia.
  - destruct IH as (u & Hu & Hnu & (s & Hs & Hsu) & Hmax);
      [discriminate | intros s Hs; apply Hlive; now right |].
    rewrite Hu. simpl. exists (Z.max v u). split; [reflexivity|].
    split; [lia|]. split.
    + destruct (Z.max_spec v u) as [[_ ->]|[_ ->]].
      * exists s. split; [now right | exact Hsu].
      * exists x. split; [now left | exact Hv].
    + intros s' w [<-|Hs'] Hw.
      * rewrite Hv in Hw. injection Hw as <-. lia.
      * specialize (Hmax s' w Hs' Hw). lia.
Qed.

Lemma existsb_filter_ne {A} (p : A -> bool) (l : list A) :
  existsb p l = true -> filter p l <> [].
Proof.
  intros H E. apply existsb_exists in H as (x & Hx & Hp).
  assert (Hin : In x (filter p l)) by (apply filter_In; auto).
  rewrite E in Hin. destruct Hin.
Qed.

Lemma claim_hold_by_code_run {rt : Runtime}
    t_sweep now trip_id claim_code new_hold_token customer_wa db :
  claim_hold_by_code t_sweep now trip_id claim_code new_hold_token
    customer_wa db
  = let db1 := swept t_sweep db in
    let q := claim_q trip_id claim_code customer_wa now in
    let db2 := updated q (Seat.set_hold_token (Some new_hold_token)) db1 in
    if existsb q db1 then
      (Return
         (mkResult true "Hold berhasil di-claim."
            (Some (VDict
               [ ("seat_codes"%string,
                   VList (map VStr
                            (map Seat.code (order_by_code (filter q db2)))));
                 ("hold_until"%string,
                   opt_iso (fold_right max_opt None
                              (map Seat.hold_until (filter q db2)))) ]))),
       db2)
    else (Return (failure "Claim code tidak valid atau sudah expired."), db1).
Proof.
  unfold_ops. cbv zeta.
  destruct (existsb _ (swept t_sweep db)); reflexivity.
Qed.

Lemma attach_run {rt : Runtime}
    t_sweep now generated trips trip_id hold_token customer_name customer_wa
    db trip :
  filter (active_trip trip_id) trips = [trip] ->
  attach_contact_and_generate_claim t_sweep now generated trips trip_id
    hold_token customer_name customer_wa db
  = let db1 := swept t_sweep db in
    let q := active_hold_of trip_id hold_token now in
    let db2 :=
      updated q (attach_columns generated customer_name customer_wa) db1 in
    if existsb q db1 then
      (Return
         (mkResult true "Kontak disimpan & claim code dibuat."
            (Some (VDict
               [ ("claim_code"%string, VStr generated);
                 ("seat_codes"%string,
                   VList (map VStr
                            (map Seat.code (order_by_code (filter q db2)))));
                 ("hold_until"%string,
                   opt_iso (fold_right max_opt None
                              (map Seat.hold_until (filter q db2))));
                 ("admin_wa"%string, VStr (admin_wa_or_empty trip)) ]))),
       db2)
    else (Return (failure "Tidak ada kursi hold aktif untuk token ini."),
          db1).
Proof.
  intros Htrip. unfold_ops. rewrite Htrip. cbv beta iota zeta.
  destruct (existsb _ (swept t_sweep db)); reflexivity.
Qed.

(** X18: a successful [claim_hold_by_code] reports exactly what it
    rewrote.  Its [seat_codes] are the codes of the rows the claim matched
    in the swept table, each once, in ascending order; each of those rows
    is in the final table with the new token and nothing else changed; its
    [hold_until] is the latest deadline among them, which is not before
    [now]. *)
Theorem claim_reports_transferred_seats {rt : Runtime}
    t_sweep now trip_id claim_code new_hold_token customer_wa db r db' :
  claim_hold_by_code t_sweep now trip_id claim_code new_hold_token
    customer_wa db = (Return r, db') ->
  ok r = true ->
  let matched := filter (claim_q trip_id claim_code customer_wa now)
                   (swept t_sweep db) in
  exists rows u,
    data r = Some (VDict
               [ ("seat_codes"%string, VList (map VStr (map Seat.code rows)));
                 ("hold_until"%string, VIso u) ])
    /\ Permutation rows matched
    /\ Sorted code_le rows
    /\ (forall s, In s matched ->
                  In (Seat.set_hold_token (Some new_hold_token) s) db')
    /\ now <= u
    /\ (exists s, In s matched /\ Seat.hold_until s = Some u)
    /\ (forall s v, In s matched -> Seat.hold_until s = Some v -> v <= u).
Proof.
  intros H Hok matched. rewrite claim_hold_by_code_run in H. cbv zeta in H.
  destruct (existsb _ (swept t_sweep db)) eqn:Hex.
  2:{ injection H as <- _. discriminate. }
  rewrite codes_after_update, deadlines_after_update in H by reflexivity.
  fold matched in H.
  destruct (max_deadline now matched) as (u & Hu & Hnu & Hex_u & Hmax).
  { now apply existsb_filter_ne. }
  { intros s Hs. apply filter_In in Hs as [_ Hs].
    now apply claim_q_live in Hs. }
  rewrite Hu in H. injection H as <- <-.
  exists (order_by_code matched), u.
  split; [reflexivity|]. split; [apply order_by_code_perm|].
  split; [apply order_by_code_sorted|]. split; [|auto].
  intros s Hs. apply filter_In in Hs as [Hin Hq].
  rewrite updated_map. apply in_map_iff. exists s. now rewrite Hq.
Qed.

Lemma claim_reports_transferred_seats_witness :
  let a2 := Sample.claimed 1 "A2" Sample.tokenA (Sample.t0 + Sample.minute)
              "Budi" "0812" "ABCD-1234" in
  let a1 := Sample.claimed 2 "A1" Sample.tokenA
              (Sample.t0 + 2 * Sample.minute) "Budi" "0812" "ABCD-1234" in
  let db := [a2; a1] in
  exists r db',
    claim_hold_by_code (rt := Sample.runtime)
      Sample.t0 Sample.t0 1 "abcd-1234" Sample.tokenB None db
    = (Return r, db')
    /\ data r = Some (VDict
                  [ ("seat_codes"%string, VList [VStr "A1"; VStr "A2"]);
                    ("hold_until"%string,
                      VIso (Sample.t0 + 2 * Sample.minute)) ])
    /\ In (Seat.set_hold_token (Some Sample.tokenB) a1) db'.
Proof.
  intros a2 a1 db.
  destruct (claim_hold_by_code (rt := Sample.runtime)
              Sample.t0 Sample.t0 1 "abcd-1234"
              Sample.tokenB None db) as [[r|e] db'] eqn:Hrun;
    [|vm_compute in Hrun; discriminate].
  assert (Hok : ok r = true)
    by (vm_compute in Hrun; injection Hrun as <- _; reflexivity).
  destruct (claim_reports_transferred_seats (rt := Sample.runtime)
              Sample.t0 Sample.t0 1 "abcd-1234"
              Sample.tokenB None db r db' Hrun Hok)
    as (rows & u & _ & _ & _ & Hin & _).
  exists r, db'. split; [reflexivity|]. split.
  - vm_compute in Hrun. injection Hrun as <- _. reflexivity.
  - apply Hin. vm_compute. right. left. reflexivity.
Defined.

(** X19: a successful [attach_contact_and_generate_claim] reports exactly
    the cohort it wrote.  Its [claim_code] is the generated code, its
    [seat_codes] are the codes of the caller's live holds in the swept
    table, each once, in ascending order, each of those rows is in the final
    table with the attached columns, its [hold_until] is the latest deadline
    among them, and its [admin_wa] is the trip's contact or the empty string
    when the trip has none. *)
Theorem attach_reports_cohort {rt : Runtime}
    t_sweep now generated trips trip_id hold_token customer_name customer_wa
    db trip r db' :
  filter (active_trip trip_id) trips = [trip] ->
  attach_contact_and_generate_claim t_sweep now generated trips trip_id
    hold_token customer_name customer_wa db = (Return r, db') ->
  ok r = true ->
  let cohort := filter (active_hold_of trip_id hold_token now)
                  (swept t_sweep db) in
  exists rows u,
    data r = Some (VDict
               [ ("claim_code"%string, VStr generated);
                 ("seat_codes"%string, VList (map VStr (map Seat.code rows)));
                 ("hold_until"%string, VIso u);
                 ("admin_wa"%string,
                   VStr (match Trip.admin_wa trip with
                         | Some wa => wa
                         | None => EmptyString
                         end)) ])
    /\ Permutation rows cohort
    /\ Sorted code_le rows
    /\ (forall s, In s cohort ->
                  In (attach_columns generated customer_name customer_wa s)
                     db')
    /\ now <= u
    /\ (exists s, In s cohort /\ Seat.hold_until s = Some u)
    /\ (forall s v, In s cohort -> Seat.hold_until s = Some v -> v <= u).
Proof.
  intros Htrip H Hok cohort.
  rewrite (attach_run _ _ _ _ _ _ _ _ _ trip Htrip) in H. cbv zeta in H.
  destruct (existsb _ (swept t_sweep db)) eqn:Hex.
  2:{ injection H as <- _. discriminate. }
  rewrite codes_after_update, deadlines_after_update in H by reflexivity.
  fold cohort in H.
  destruct (max_deadline now cohort) as (u & Hu & Hnu & Hex_u & Hmax).
  { now apply existsb_filter_ne. }
  { intros s Hs. apply filter_In in Hs as [_ Hs].
    now apply active_hold_live in Hs. }
  rewrite Hu in H. injection H as <- <-.
  exists (order_by_code cohort), u.
  split; [reflexivity|]. split; [apply order_by_code_perm|].
  split; [apply order_by_code_sorted|]. split; [|auto].
  intros s Hs. apply filter_In in Hs as [Hin Hq].
  rewrite updated_map. apply in_map_iff. exists s. now rewrite Hq.
Qed.

Lemma attach_reports_cohort_witness :
  let a2 := Sample.held 1 "A2" Sample.tokenA (Sample.t0 + Sample.minute) in
  let a1 := Sample.held 2 "A1" Sample.tokenA
              (Sample.t0 + 2 * Sample.minute) in
  let a3 := Sample.held 3 "A3" Sample.tokenB (Sample.t0 + Sample.minute) in
  let db := [a2; a1; a3] in
  exists r db',
    attach_contact_and_generate_claim (rt := Sample.runtime)
      Sample.t0 Sample.t0 "ABCD-1234"
      Sample.trips 1 Sample.tokenA "Budi" "0812" db = (Return r, db')
    /\ data r = Some (VDict
                  [ ("claim_code"%string, VStr "ABCD-1234");
                    ("seat_codes"%string, VList [VStr "A1"; VStr "A2"]);
                    ("hold_until"%string,
                      VIso (Sample.t0 + 2 * Sample.minute));
                    ("admin_wa"%string, VStr "") ])
    /\ In (attach_columns (rt := Sample.runtime)
         "ABCD-1234" "Budi" "0812" a1) db'.
Proof.
  intros a2 a1 a3 db.
  destruct (attach_contact_and_generate_claim (rt := Sample.runtime)
              Sample.t0 Sample.t0
              "ABCD-1234" Sample.trips 1 Sample.tokenA "Budi" "0812" db)
    as [[r|e] db'] eqn:Hrun; [|vm_compute in Hrun; discriminate].
  assert (Hok : ok r = true)
    by (vm_compute in Hrun; injection Hrun as <- _; reflexivity).
  destruct (attach_reports_cohort (rt := Sample.runtime)
              Sample.t0 Sample.t0 "ABCD-1234"
              Sample.trips 1 Sample.tokenA "Budi" "0812" db Sample.trip1
              r db' eq_refl Hrun Hok)
    as (rows & u & _ & _ & _ & Hin & _).
  exists r, db'. split; [reflexivity|]. split.
  - vm_compute in Hrun. injection Hrun as <- _. reflexivity.
  - apply Hin. vm_compute. right. left. reflexivity.
Defined.

(** ** Attach, then claim *)

(** X20: a claim code carries the cohort to a new session.  When a session
    attaches contact data on an active trip, a later claim with a typed code
    that the lookup's [strip] and [upper] turn into the generated code, and
    with either no contact handle or a non-empty one that strips to what the
    stored handle was stripped to, moves every cohort seat whose hold is
    still live to the new token, keeping the deadline, the contact data and
    the claim code. *)
Theorem attach_then_claim_transfers_cohort {rt : Runtime}
    t_sweep1 now1 t_sweep2 now2 generated trips trip_id hold_token
    customer_name customer_wa typed_code handle new_hold_token db trip i s :
  t_sweep1 <= now1 ->
  t_sweep2 <= now2 ->
  filter (active_trip trip_id) trips = [trip] ->
  str_upper (str_strip typed_code) = generated ->
  handle = None
  \/ (exists w, handle = Some w /\ w <> EmptyString
                /\ str_strip w = str_strip customer_wa) ->
  nth_error db i = Some s ->
  active_hold_of trip_id hold_token now1 s = true ->
  live_hold now2 s = true ->
  exists r1 db1 r2 db2,
    attach_contact_and_generate_claim t_sweep1 now1 generated trips trip_id
      hold_token customer_name customer_wa db = (Return r1, db1)
    /\ ok r1 = true
    /\ claim_hold_by_code t_sweep2 now2 trip_id typed_code new_hold_token
         handle db1 = (Return r2, db2)
    /\ ok r2 = true
    /\ nth_error db2 i
       = Some (Seat.set_hold_token (Some new_hold_token)
                 (attach_columns generated customer_name customer_wa s)).
Proof.
  intros Hle1 Hle2 Htrip Hcode Hhandle Hi Hmine Hlive2.
  pose (f1 := attach_columns generated customer_name customer_wa).
  pose (q1 := active_hold_of trip_id hold_token now1).
  pose (q2 := claim_q trip_id typed_code handle now2).
  assert (Hlive1 : live_hold now1 s = true)
    by exact (active_hold_live trip_id hold_token now1 s Hmine).
  assert (Hs1 : sweep_row t_sweep1 s = s)
    by now apply (live_hold_survives_sweep t_sweep1 now1).
  (* the attach *)
  assert (Hi1 : nth_error (updated q1 f1 (swept t_sweep1 db)) i = Some (f1 s)).
  { rewrite updated_map, nth_error_map, (swept_nth _ _ _ _ Hi), Hs1. simpl.
    unfold q1. now rewrite Hmine. }
  assert (Hex1 : existsb q1 (swept t_sweep1 db) = true).
  { apply existsb_exists. exists s. split; [|exact Hmine].
    rewrite <- Hs1. rewrite swept_map. apply in_map.
    exact (nth_error_In _ _ Hi). }
  (* the attached row is matched by the claim *)
  assert (Hlive2' : live_hold now2 (f1 s) = true) by exact Hlive2.
  assert (Hs2 : sweep_row t_sweep2 (f1 s) = f1 s)
    by now apply (live_hold_survives_sweep t_sweep2 now2).
  assert (Hq2 : q2 (f1 s) = true).
  { unfold q2, claim_q.
    assert (Hq : of_trip trip_id (f1 s) && is_status Seat.HOLD (f1 s)
                 && col_gte (Seat.hold_until (f1 s)) now2
                 && col_eq (Seat.claim_code (f1 s))
                      (str_upper (str_strip typed_code)) = true).
    { unfold active_hold_of in Hmine.
      apply andb_true_iff in Hmine as [Hm _].
      apply andb_true_iff in Hm as [Hm _].
      apply andb_true_iff in Hm as [Ht Hst].
      unfold live_hold in Hlive2. apply andb_true_iff in Hlive2 as [_ Hu].
      change (of_trip trip_id (f1 s)) with (of_trip trip_id s).
      change (is_status Seat.HOLD (f1 s)) with (is_status Seat.HOLD s).
      change (Seat.hold_until (f1 s)) with (Seat.hold_until s).
      rewrite Ht, Hst, Hu, Hcode. simpl. apply String.eqb_refl. }
    rewrite Hq.
    destruct Hhandle as [->|(w & -> & Hw & Hstrip)]; [reflexivity|].
    replace (Py.truthy (Some w)) with true.
    - simpl. rewrite Hstrip. apply String.eqb_refl.
    - unfold Py.truthy. apply String.eqb_neq in Hw. now rewrite Hw. }
  assert (Hex2 : existsb q2 (swept t_sweep2 (updated q1 f1 (swept t_sweep1 db)))
                 = true).
  { apply existsb_exists. exists (f1 s). split; [|exact Hq2].
    rewrite <- Hs2 at 1. rewrite swept_map. apply in_map.
    exact (nth_error_In _ _ Hi1). }
  eexists. eexists. eexists. eexists.
  split.
  { rewrite (attach_run _ _ _ _ _ _ _ _ _ trip Htrip). cbv zeta.
    fold q1. rewrite Hex1. reflexivity. }
  split; [reflexivity|]. split.
  { rewrite claim_hold_by_code_run. cbv zeta. fold q2 f1.
    rewrite Hex2. reflexivity. }
  split; [reflexivity|].
  rewrite updated_map, nth_error_map, (swept_nth _ _ _ _ Hi1), Hs2. simpl.
  fold q2. now rewrite Hq2.
Qed.

Lemma attach_then_claim_transfers_cohort_witness :
  let a1 := Sample.held 1 "A1" Sample.tokenA
              (Sample.t0 + 5 * Sample.minute) in
  let db := [a1; Sample.fresh 2 "A2"] in
  exists r1 db1 r2 db2,
    attach_contact_and_generate_claim (rt := Sample.runtime)
      Sample.t0 Sample.t0 "ABCD-1234"
      Sample.trips 1 Sample.tokenA "Budi" " 0812" db = (Return r1, db1)
    /\ ok r1 = true
    /\ claim_hold_by_code (rt := Sample.runtime) (Sample.t0 + Sample.minute)
         (Sample.t0 + Sample.minute) 1 " abcd-1234 " Sample.tokenB
         (Some "0812 "%string) db1 = (Return r2, db2)
    /\ ok r2 = true
    /\ nth_error db2 0
       = Some (Seat.set_hold_token (Some Sample.tokenB)
                 (attach_columns (rt := Sample.runtime)
                   "ABCD-1234" "Budi" " 0812" a1)).
Proof.
  intros a1 db.
  assert (Hcode : Py.ascii_upper (Py.ascii_strip " abcd-1234 ")
                  = "ABCD-1234"%string)
    by (vm_compute; reflexivity).
  assert (Hstrip : Py.ascii_strip "0812 " = Py.ascii_strip " 0812")
    by (vm_compute; reflexivity).
  assert (Hmine : active_hold_of 1 Sample.tokenA Sample.t0 a1 = true)
    by (vm_compute; reflexivity).
  assert (Hlive : live_hold (Sample.t0 + Sample.minute) a1 = true)
    by (vm_compute; reflexivity).
  refine (attach_then_claim_transfers_cohort (rt := Sample.runtime)
            Sample.t0 Sample.t0
            (Sample.t0 + Sample.minute) (Sample.t0 + Sample.minute)
            "ABCD-1234" Sample.trips 1 Sample.tokenA "Budi" " 0812"
            " abcd-1234 " (Some "0812 "%string) Sample.tokenB db Sample.trip1
            0%nat a1 (Z.le_refl _) (Z.le_refl _) eq_refl Hcode _ eq_refl
            Hmine Hlive).
  right. exists "0812 "%string.
  split; [reflexivity | split; [discriminate | exact Hstrip]].
Defined.

(** ** The management command [generate_seats] *)

Lemma bulk_rows_length stored i trip_id codes :
  List.length (GenerateSeats.bulk_rows stored i trip_id codes)
  = List.length codes.
Proof.
  revert i. induction codes as [|c codes IH]; intros i; simpl;
    [reflexivity | now rewrite IH].
Qed.

Lemma bulk_rows_mine stored i trip_id codes :
  GenerateSeats.stored_ok stored ->
  filter (of_trip trip_id) (GenerateSeats.bulk_rows stored i trip_id codes)
  = GenerateSeats.bulk_rows stored i trip_id codes
  /\ map Seat.code (GenerateSeats.bulk_rows stored i trip_id codes) = codes.
Proof.
  intros Hok. revert i. induction codes as [|c codes IH]; intros i; simpl;
    [split; reflexivity|].
  destruct (Hok i trip_id c) as (Ht & Hc & _).
  destruct (IH (S i)) as [IH1 IH2].
  unfold of_trip at 1. rewrite Ht, Z.eqb_refl, IH1, Hc, IH2. split; reflexivity.
Qed.

Lemma layout_codes_length prefix rows seats_per_row :
  List.length (GenerateSeats.layout_codes prefix rows seats_per_row)
  = (Z.to_nat rows * Z.to_nat seats_per_row)%nat.
Proof.
  unfold GenerateSeats.layout_codes.
  rewrite (flat_map_constant_length (c := Z.to_nat seats_per_row)).
  - unfold GenerateSeats.row_letters. now rewrite length_map, length_seq.
  - intros row _. unfold GenerateSeats.numbers.
    now rewrite !length_map, length_seq.
Qed.

Lemma filter_filter_negb {A} (p : A -> bool) (l : list A) :
  filter p (filter (fun x => negb (p x)) l) = [].
Proof.
  apply filter_none. intros x Hx. apply filter_In in Hx as [_ Hx].
  now apply negb_true_iff in Hx.
Qed.

Lemma filter_filter_negb_r {A} (p : A -> bool) (l : list A) :
  filter (fun x => negb (p x)) (filter p l) = [].
Proof.
  apply filter_none. intros x Hx. apply filter_In in Hx as [_ Hx].
  now rewrite Hx.
Qed.

Lemma filter_idem {A} (p : A -> bool) (l : list A) :
  filter p (filter p l) = filter p l.
Proof.
  induction l as [|x l IH]; simpl; [reflexivity|].
  destruct (p x) eqn:E; simpl; rewrite ?E, IH; reflexivity.
Qed.

Lemma filter_all_true {A} (p : A -> bool) (l : list A) :
  (forall x, p x = true) -> filter p l = l.
Proof.
  intros H. induction l as [|x l IH]; simpl; [reflexivity|].
  now rewrite H, IH.
Qed.

(** The command in closed form, once its arguments are accepted and its
    trip is found. *)
Lemma generate_seats_run {rt : Runtime} stored o w trip :
  0 < GenerateSeats.rows o <= 1114047 ->
  0 < GenerateSeats.seats_per_row o ->
  filter (fun t => Trip.id t =? GenerateSeats.trip o) (GenerateSeats.trips w)
    = [trip] ->
  exists kept codes out,
    kept = (if GenerateSeats.reset o
            then filter (fun s => negb (of_trip (Trip.id trip) s))
                   (GenerateSeats.seats w)
            else GenerateSeats.seats w)
    /\ codes
       = filter (fun c => negb (code_in
                                  (map Seat.code
                                     (filter (of_trip (Trip.id trip)) kept))
                                  c))
           (GenerateSeats.layout_codes
              (str_upper (str_strip
                 (if Py.truthy (GenerateSeats.prefix o)
                  then match GenerateSeats.prefix o with
                       | Some p => p
                       | None => EmptyString
                       end
                  else EmptyString)))
              (GenerateSeats.rows o) (GenerateSeats.seats_per_row o))
    /\ GenerateSeats.handle stored o w
       = (GenerateSeats.Done,
          GenerateSeats.mkWorld
            (kept ++ GenerateSeats.bulk_rows stored 0 (Trip.id trip) codes)
            (let total :=
               Z.of_nat (List.length
                           (filter (of_trip (Trip.id trip))
                              (kept ++ GenerateSeats.bulk_rows stored 0
                                         (Trip.id trip) codes))) in
             if negb (Trip.capacity_total trip =? total)
             then map (fun t => if Trip.id t =? Trip.id trip
                                then GenerateSeats.set_capacity_total total t
                                else t) (GenerateSeats.trips w)
             else GenerateSeats.trips w)
            out).
Proof.
  intros Hr Hs Htrip. unfold GenerateSeats.handle.
  replace (GenerateSeats.rows o <=? 0) with false
    by (symmetry; apply Z.leb_gt; lia).
  replace (GenerateSeats.seats_per_row o <=? 0) with false
    by (symmetry; apply Z.leb_gt; lia).
  cbn [orb]. rewrite Htrip.
  replace (GenerateSeats.maxunicode <? 65 + (GenerateSeats.rows o - 1))
    with false
    by (symmetry; apply Z.ltb_ge; unfold GenerateSeats.maxunicode; lia).
  destruct (GenerateSeats.reset o); cbn [GenerateSeats.seats
    GenerateSeats.trips GenerateSeats.stdout];
    eexists; eexists; eexists; (split; [reflexivity|]);
    (split; [reflexivity|]); reflexivity.
Qed.

(** X21: [generate_seats] checks its arguments before it touches anything.
    With [rows] or [seats_per_row] zero or negative it raises the
    must-be-positive error, and with acceptable sizes but an unknown trip it
    raises the trip-not-found error naming the id; in both cases, also with
    [--reset], no seat is deleted or created and nothing is printed. *)
Theorem generate_seats_rejects_bad_arguments {rt : Runtime} stored o w :
  (GenerateSeats.rows o <= 0 \/ GenerateSeats.seats_per_row o <= 0 ->
   GenerateSeats.handle stored o w
   = (GenerateSeats.CommandError "--rows dan --seats-per-row harus > 0", w))
  /\ (0 < GenerateSeats.rows o ->
      0 < GenerateSeats.seats_per_row o ->
      filter (fun t => Trip.id t =? GenerateSeats.trip o)
        (GenerateSeats.trips w) = [] ->
      GenerateSeats.handle stored o w
      = (GenerateSeats.CommandError
           ("Trip id=" ++ Py.str_of_int (GenerateSeats.trip o)
            ++ " tidak ditemukan."), w)).
Proof.
  unfold GenerateSeats.handle. split.
  - intros H.
    replace ((GenerateSeats.rows o <=? 0)
             || (GenerateSeats.seats_per_row o <=? 0)) with true; [reflexivity|].
    symmetry. apply orb_true_iff.
    destruct H as [H|H]; [left|right]; now apply Z.leb_le.
  - intros Hr Hs Hnone.
    replace (GenerateSeats.rows o <=? 0) with false
      by (symmetry; apply Z.leb_gt; lia).
    replace (GenerateSeats.seats_per_row o <=? 0) with false
      by (symmetry; apply Z.leb_gt; lia).
    cbn [orb]. now rewrite Hnone.
Qed.

Lemma generate_seats_rejects_bad_arguments_witness :
  let w := GenerateSeats.mkWorld [Sample.fresh 1 "A1"] Sample.trips [] in
  GenerateSeats.handle (rt := Sample.runtime) (GenerateSeats.sample_stored 10)
    (GenerateSeats.mkOptions 1 0 4 None true) w
  = (GenerateSeats.CommandError "--rows dan --seats-per-row harus > 0", w)
  /\ GenerateSeats.handle (rt := Sample.runtime)
       (GenerateSeats.sample_stored 10)
       (GenerateSeats.mkOptions 7 2 4 None true) w
     = (GenerateSeats.CommandError "Trip id=7 tidak ditemukan.", w).
Proof.
  intros w. split.
  - apply (proj1 (generate_seats_rejects_bad_arguments (rt := Sample.runtime) _
                    (GenerateSeats.mkOptions 1 0 4 None true) w)).
    left. simpl. lia.
  - apply (proj2 (generate_seats_rejects_bad_arguments (rt := Sample.runtime) _
                    (GenerateSeats.mkOptions 7 2 4 None true) w));
      [simpl; lia | simpl; lia | reflexivity].
Defined.

Lemma generate_seats_done_sizes {rt : Runtime} stored o w w' :
  GenerateSeats.handle stored o w = (GenerateSeats.Done, w') ->
  0 < GenerateSeats.rows o <= 1114047 /\ 0 < GenerateSeats.seats_per_row o.
Proof.
  intros H. unfold GenerateSeats.handle in H.
  destruct (Z.leb_spec (GenerateSeats.rows o) 0) as [|Hr];
    [discriminate|].
  destruct (Z.leb_spec (GenerateSeats.seats_per_row o) 0) as [|Hs];
    [discriminate|]. cbn [orb] in H.
  destruct (filter _ (GenerateSeats.trips w)) as [|trip [|? ?]];
    try discriminate.
  destruct (Z.ltb_spec GenerateSeats.maxunicode
              (65 + (GenerateSeats.rows o - 1))) as [|Hmax];
    [discriminate|].
  unfold GenerateSeats.maxunicode in Hmax. repeat split; lia.
Qed.

Lemma set_capacity_same t :
  GenerateSeats.set_capacity_total (Trip.capacity_total t) t = t.
Proof. now destruct t. Qed.

Lemma trip_of_filter trip_id trips trip :
  filter (fun t => Trip.id t =? trip_id) trips = [trip] ->
  Trip.id trip = trip_id.
Proof.
  intros H.
  assert (Hin : In trip (filter (fun t => Trip.id t =? trip_id) trips))
    by (rewrite H; now left).
  apply filter_In in Hin as [_ Hin]. now apply Z.eqb_eq.
Qed.

(** X22: [generate_seats] reconciles the capacity and leaves other trips
    alone.  After a run that completes, the trip's [capacity_total] is the
    number of seats the table holds for it, seats of other trips are exactly
    those that were there, and with [--reset] that number is
    [rows * seats_per_row] whatever the trip had before. *)
Theorem generate_seats_reconciles_capacity {rt : Runtime} stored o w w' trip :
  GenerateSeats.stored_ok stored ->
  filter (fun t => Trip.id t =? GenerateSeats.trip o) (GenerateSeats.trips w)
    = [trip] ->
  GenerateSeats.handle stored o w = (GenerateSeats.Done, w') ->
  let mine := of_trip (GenerateSeats.trip o) in
  let total := Z.of_nat (List.length (filter mine (GenerateSeats.seats w'))) in
  filter (fun t => Trip.id t =? GenerateSeats.trip o) (GenerateSeats.trips w')
    = [GenerateSeats.set_capacity_total total trip]
  /\ filter (fun s => negb (mine s)) (GenerateSeats.seats w')
     = filter (fun s => negb (mine s)) (GenerateSeats.seats w)
  /\ (GenerateSeats.reset o = true ->
      total = GenerateSeats.rows o * GenerateSeats.seats_per_row o).
Proof.
  intros Hok Htrip H. cbv zeta.
  destruct (generate_seats_done_sizes _ _ _ _ H) as [Hr Hs].
  pose proof (trip_of_filter _ _ _ Htrip) as Hid.
  destruct (generate_seats_run stored o w trip Hr Hs Htrip)
    as (kept & codes & out & Hkept & Hcodes & Hrun).
  rewrite Hrun in H. injection H as <-.
  cbn [GenerateSeats.seats GenerateSeats.trips]. cbv zeta.
  rewrite Hid in *.
  destruct (bulk_rows_mine stored 0 (GenerateSeats.trip o) codes Hok)
    as [Hbulk _].
  set (mine := of_trip (GenerateSeats.trip o)) in *.
  set (total := Z.of_nat (List.length (filter mine (kept ++ _)))).
  split; [|split].
  - destruct (Z.eqb_spec (Trip.capacity_total trip) total) as [E|E];
      cbn [negb].
    + rewrite Htrip. now rewrite <- E, set_capacity_same.
    + rewrite filter_map_compat.
      * rewrite Htrip. simpl. now rewrite Hid, Z.eqb_refl.
      * intros t.
        destruct (Trip.id t =? GenerateSeats.trip o) eqn:Et; exact Et.
  - rewrite filter_app.
    replace (filter (fun s => negb (mine s))
               (GenerateSeats.bulk_rows stored 0 (GenerateSeats.trip o) codes))
      with (@nil Seat.t).
    2:{ symmetry. rewrite <- Hbulk. apply filter_filter_negb_r. }
    rewrite app_nil_r, Hkept.
    destruct (GenerateSeats.reset o); [|reflexivity].
    apply filter_idem.
  - intros Hreset. rewrite Hreset in Hkept.
    assert (Hnone : filter mine kept = [])
      by (rewrite Hkept; apply filter_filter_negb).
    unfold total. rewrite filter_app, Hnone, Hbulk. simpl.
    rewrite bulk_rows_length, Hcodes, Hnone. simpl.
    rewrite filter_all_true by reflexivity.
    rewrite layout_codes_length. lia.
Qed.

Lemma sample_stored_ok first_id :
  GenerateSeats.stored_ok (GenerateSeats.sample_stored first_id).
Proof. intros i t c. repeat split. Qed.

Lemma generate_seats_reconciles_capacity_witness :
  let other := Seat.mk 5 2 "A1" Seat.AVAILABLE None None None None None None
                 None 0 in
  let w := GenerateSeats.mkWorld [Sample.booked 1 "A1" 5; other]
             Sample.trips [] in
  let o := GenerateSeats.mkOptions 1 2 3 (Some " l "%string) true in
  exists w',
    GenerateSeats.handle (rt := Sample.runtime)
      (GenerateSeats.sample_stored 10) o w
    = (GenerateSeats.Done, w')
    /\ map Trip.capacity_total (GenerateSeats.trips w') = [6]
    /\ map Seat.code (GenerateSeats.seats w')
       = ["A1"; "LA1"; "LA2"; "LA3"; "LB1"; "LB2"; "LB3"]%string
    /\ Z.of_nat (List.length (filter (of_trip 1) (GenerateSeats.seats w')))
       = 2 * 3.
Proof.
  intros other w o.
  destruct (GenerateSeats.handle (rt := Sample.runtime)
    (GenerateSeats.sample_stored 10) o w)
    as [res w'] eqn:Hrun.
  assert (Hres : res = GenerateSeats.Done)
    by (vm_compute in Hrun; injection Hrun as <- _; reflexivity).
  subst res.
  destruct (generate_seats_reconciles_capacity (rt := Sample.runtime)
              (GenerateSeats.sample_stored 10) o w w' Sample.trip1
              (sample_stored_ok 10) eq_refl Hrun) as (_ & _ & Htotal).
  exists w'. split; [reflexivity|].
  split; [vm_compute in Hrun; injection Hrun as <-; reflexivity|].
  split; [vm_compute in Hrun; injection Hrun as <-; reflexivity|].
  exact (Htotal eq_refl).
Defined.

Lemma code_in_spec l c : code_in l c = true <-> In c l.
Proof.
  unfold code_in. rewrite existsb_exists. split.
  - intros (x & Hx & E). apply String.eqb_eq in E. now subst.
  - intros H. exists c. split; [exact H | apply String.eqb_refl].
Qed.

(** X23: [generate_seats] without [--reset] is idempotent.  A second run
    with the same arguments, right after a run that completed, creates no
    seat and leaves the seat table and the trip table exactly as the first
    run left them. *)
Theorem generate_seats_idempotent {rt : Runtime} stored stored' o w w1 trip :
  GenerateSeats.stored_ok stored ->
  GenerateSeats.reset o = false ->
  filter (fun t => Trip.id t =? GenerateSeats.trip o) (GenerateSeats.trips w)
    = [trip] ->
  GenerateSeats.handle stored o w = (GenerateSeats.Done, w1) ->
  exists out,
    GenerateSeats.handle stored' o w1
    = (GenerateSeats.Done,
       GenerateSeats.mkWorld (GenerateSeats.seats w1) (GenerateSeats.trips w1)
         out).
Proof.
  intros Hok Hreset Htrip H.
  destruct (generate_seats_done_sizes _ _ _ _ H) as [Hr Hs].
  pose proof (trip_of_filter _ _ _ Htrip) as Hid.
  destruct (generate_seats_run stored o w trip Hr Hs Htrip)
    as (kept & codes & out & Hkept & Hcodes & Hrun).
  rewrite Hrun in H. injection H as <-. clear Hrun.
  rewrite Hreset in Hkept. subst kept. rewrite Hid in *.
  destruct (bulk_rows_mine stored 0 (GenerateSeats.trip o) codes Hok)
    as [Hbulk Hbcodes].
  set (mine := of_trip (GenerateSeats.trip o)) in *.
  set (seats1 := (GenerateSeats.seats w
                  ++ GenerateSeats.bulk_rows stored 0 (GenerateSeats.trip o)
                       codes)%list) in *.
  set (total := Z.of_nat (List.length (filter mine seats1))) in *.
  cbv zeta.
  set (trips1 := if negb (Trip.capacity_total trip =? total)
                 then map (fun t => if Trip.id t =? GenerateSeats.trip o
                                    then GenerateSeats.set_capacity_total
                                           total t
                                    else t) (GenerateSeats.trips w)
                 else GenerateSeats.trips w).
  (* the trip after the first run *)
  assert (Htrip1 : filter (fun t => Trip.id t =? GenerateSeats.trip o) trips1
                   = [GenerateSeats.set_capacity_total total trip]).
  { unfold trips1.
    destruct (Z.eqb_spec (Trip.capacity_total trip) total) as [E|E];
      cbn [negb].
    - rewrite Htrip. now rewrite <- E, set_capacity_same.
    - rewrite filter_map_compat.
      + rewrite Htrip. simpl. now rewrite Hid, Z.eqb_refl.
      + intros t.
        destruct (Trip.id t =? GenerateSeats.trip o) eqn:Et; exact Et. }
  (* every code of the layout is taken after the first run *)
  assert (Hall : forall c,
             In c (GenerateSeats.layout_codes
                     (str_upper (str_strip
                        (if Py.truthy (GenerateSeats.prefix o)
                         then match GenerateSeats.prefix o with
                              | Some p => p
                              | None => EmptyString
                              end
                         else EmptyString)))
                     (GenerateSeats.rows o) (GenerateSeats.seats_per_row o)) ->
             negb (code_in (map Seat.code (filter mine seats1)) c) = false).
  { intros c Hc. apply negb_false_iff. apply code_in_spec.
    unfold seats1. rewrite filter_app, map_app, Hbulk, Hbcodes.
    apply in_or_app.
    destruct (code_in (map Seat.code (filter mine (GenerateSeats.seats w))) c)
      eqn:E.
    - left. now apply code_in_spec.
    - right. rewrite Hcodes. apply filter_In. split; [exact Hc|].
      now rewrite E. }
  destruct (generate_seats_run stored' o
              (GenerateSeats.mkWorld seats1 trips1 out)
              (GenerateSeats.set_capacity_total total trip) Hr Hs Htrip1)
    as (kept2 & codes2 & out2 & Hkept2 & Hcodes2 & Hrun2).
  cbn [GenerateSeats.seats GenerateSeats.trips Trip.id
       GenerateSeats.set_capacity_total Trip.capacity_total] in *.
  rewrite Hreset in Hkept2. subst kept2. rewrite Hid in *. fold mine in Hcodes2.
  rewrite (filter_none _ _ Hall) in Hcodes2. subst codes2.
  cbn [GenerateSeats.bulk_rows] in Hrun2. rewrite app_nil_r in Hrun2.
  fold mine total in Hrun2. rewrite Z.eqb_refl in Hrun2. cbn [negb] in Hrun2.
  exists out2. exact Hrun2.
Qed.

Lemma generate_seats_idempotent_witness :
  let w := GenerateSeats.mkWorld [Sample.fresh 1 "A1"] Sample.trips [] in
  let o := GenerateSeats.mkOptions 1 2 2 None false in
  exists w1 out,
    GenerateSeats.handle (rt := Sample.runtime)
      (GenerateSeats.sample_stored 10) o w
    = (GenerateSeats.Done, w1)
    /\ map Seat.code (GenerateSeats.seats w1)
       = ["A1"; "A2"; "B1"; "B2"]%string
    /\ GenerateSeats.handle (rt := Sample.runtime)
         (GenerateSeats.sample_stored 20) o w1
       = (GenerateSeats.Done,
          GenerateSeats.mkWorld (GenerateSeats.seats w1)
            (GenerateSeats.trips w1) out).
Proof.
  intros w o.
  destruct (GenerateSeats.handle (rt := Sample.runtime)
    (GenerateSeats.sample_stored 10) o w)
    as [res w1] eqn:Hrun.
  assert (Hres : res = GenerateSeats.Done)
    by (vm_compute in Hrun; injection Hrun as <- _; reflexivity).
  subst res.
  destruct (generate_seats_idempotent (rt := Sample.runtime)
              (GenerateSeats.sample_stored 10)
              (GenerateSeats.sample_stored 20) o w w1 Sample.trip1
              (sample_stored_ok 10) eq_refl eq_refl Hrun) as (out & Hsecond).
  exists w1, out. split; [reflexivity|].
  split; [vm_compute in Hrun; injection Hrun as <-; reflexivity|].
  exact Hsecond.
Defined.

(** *** Seat codes of a layout are pairwise different *)

Lemma str_of_int_inj a b : Py.str_of_int a = Py.str_of_int b -> a = b.
Proof.
  unfold Py.str_of_int. intros H.
  assert (Hnn : forall n, Z.to_int n <> Decimal.Pos Decimal.Nil
                          /\ Z.to_int n <> Decimal.Neg Decimal.Nil).
  { intros [|p|p]; simpl; split; try discriminate; intros E;
      injection E as E; exact (Unsigned.to_uint_nonnil p E). }
  apply to_int_inj.
  destruct (Hnn a) as [Ha1 Ha2]. destruct (Hnn b) as [Hb1 Hb2].
  pose proof (NilZero.isi _ Ha1 Ha2) as Ea.
  pose proof (NilZero.isi _ Hb1 Hb2) as Eb.
  rewrite H in Ea. rewrite Ea in Eb. now injection Eb.
Qed.

Lemma append_inj_l (p a b : string) :
  (p ++ a)%string = (p ++ b)%string -> a = b.
Proof.
  induction p as [|c p IH]; simpl; intros H; [exact H|].
  injection H as H. now apply IH.
Qed.

(** Below 128 a code point is one byte, and the byte tells it. *)
Lemma chr_ascii n :
  0 <= n < 128 ->
  GenerateSeats.chr n = String (ascii_of_N (Z.to_N n)) EmptyString.
Proof.
  intros Hn. unfold GenerateSeats.chr.
  now replace (n <? 128) with true by (symmetry; apply Z.ltb_lt; lia).
Qed.

Lemma ascii_of_N_inj a b :
  0 <= a < 256 -> 0 <= b < 256 ->
  ascii_of_N (Z.to_N a) = ascii_of_N (Z.to_N b) -> a = b.
Proof.
  intros Ha Hb H. apply (f_equal N_of_ascii) in H.
  rewrite !N_ascii_embedding in H by lia. lia.
Qed.

Lemma chr_inj i j :
  0 <= i < 128 -> 0 <= j < 128 ->
  GenerateSeats.chr i = GenerateSeats.chr j -> i = j.
Proof.
  intros Hi Hj H. rewrite !chr_ascii in H by assumption.
  injection H as H. apply ascii_of_N_inj; auto; lia.
Qed.

Lemma NoDup_map_inj_in {A B} (f : A -> B) (l : list A) :
  (forall x y, In x l -> In y l -> f x = f y -> x = y) ->
  NoDup l -> NoDup (map f l).
Proof.
  induction l as [|x l IH]; simpl; intros Hinj Hnd; [constructor|].
  inversion Hnd as [|? ? Hnotin Hnd']; subst. constructor.
  - intros Hin. apply in_map_iff in Hin as (y & Hy & Hyl).
    apply Hnotin. rewrite (Hinj x y); auto.
  - apply IH; auto.
Qed.

Lemma NoDup_flat_map {A B} (f : A -> list B) (l : list A) :
  NoDup l ->
  (forall x, In x l -> NoDup (f x)) ->
  (forall x y b, In x l -> In y l -> In b (f x) -> In b (f y) -> x = y) ->
  NoDup (flat_map f l).
Proof.
  induction l as [|x l IH]; simpl; intros Hnd Hf Hdisj; [constructor|].
  inversion Hnd as [|? ? Hnotin Hnd']; subst.
  apply NoDup_app.
  - apply Hf. now left.
  - apply IH; auto. intros a b c Ha Hb. apply Hdisj; now right.
  - intros b Hb Hb'. apply in_flat_map in Hb' as (y & Hy & Hby).
    apply Hnotin. rewrite (Hdisj x y b); auto.
Qed.

Lemma row_letters_spec rows row :
  In row (GenerateSeats.row_letters rows) ->
  exists i, (i < Z.to_nat rows)%nat
            /\ row = GenerateSeats.chr (65 + Z.of_nat i).
Proof.
  unfold GenerateSeats.row_letters. intros H.
  apply in_map_iff in H as (i & <- & Hi). apply in_seq in Hi.
  exists i. split; [lia | reflexivity].
Qed.

Lemma layout_code_spec prefix rows seats_per_row c :
  In c (GenerateSeats.layout_codes prefix rows seats_per_row) ->
  exists i num,
    (i < Z.to_nat rows)%nat /\ 1 <= num <= seats_per_row
    /\ c = (prefix ++ GenerateSeats.chr (65 + Z.of_nat i)
            ++ Py.str_of_int num)%string.
Proof.
  unfold GenerateSeats.layout_codes. intros H.
  apply in_flat_map in H as (row & Hrow & Hc).
  apply row_letters_spec in Hrow as (i & Hi & ->).
  apply in_map_iff in Hc as (num & <- & Hnum).
  unfold GenerateSeats.numbers in Hnum.
  apply in_map_iff in Hnum as (k & <- & Hk). apply in_seq in Hk.
  exists i, (Z.of_nat k). split; [exact Hi|]. split; [lia | reflexivity].
Qed.

Lemma layout_codes_NoDup prefix rows seats_per_row :
  rows <= 63 ->
  NoDup (GenerateSeats.layout_codes prefix rows seats_per_row).
Proof.
  intros Hrows. unfold GenerateSeats.layout_codes.
  apply NoDup_flat_map.
  - unfold GenerateSeats.row_letters. apply NoDup_map_inj_in.
    + intros i j Hi Hj H. apply in_seq in Hi, Hj.
      apply chr_inj in H; lia.
    + apply seq_NoDup.
  - intros row _. apply NoDup_map_inj_in.
    + intros a b _ _ H. apply append_inj_l in H.
      apply append_inj_l in H. now apply str_of_int_inj.
    + unfold GenerateSeats.numbers. apply NoDup_map_inj_in.
      * intros a b _ _ H. lia.
      * apply seq_NoDup.
  - intros r1 r2 c H1 H2 Hc1 Hc2.
    apply row_letters_spec in H1 as (i & Hi & ->).
    apply row_letters_spec in H2 as (j & Hj & ->).
    apply in_map_iff in Hc1 as (n1 & <- & _).
    apply in_map_iff in Hc2 as (n2 & E & _).
    apply append_inj_l in E. rewrite !chr_ascii in E by lia.
    assert (Hci : 0 <= 65 + Z.of_nat i < 256) by lia.
    assert (Hcj : 0 <= 65 + Z.of_nat j < 256) by lia.
    revert E Hci Hcj.
    generalize (65 + Z.of_nat i) as ci, (65 + Z.of_nat j) as cj.
    intros ci cj E Hci Hcj. cbn [append] in E. injection E as E _.
    now rewrite (ascii_of_N_inj cj ci Hcj Hci E).
Qed.

Lemma bulk_rows_keys stored i trip_id codes :
  GenerateSeats.stored_ok stored ->
  map seat_key (GenerateSeats.bulk_rows stored i trip_id codes)
  = map (fun c => (trip_id, c)) codes.
Proof.
  intros Hok. revert i. induction codes as [|c codes IH]; intros i; simpl;
    [reflexivity|].
  destruct (Hok i trip_id c) as (Ht & Hc & _).
  unfold seat_key at 1. now rewrite Ht, Hc, IH.
Qed.

Lemma unique_codes_filter keep db :
  unique_codes db -> unique_codes (filter keep db).
Proof.
  unfold unique_codes. induction db as [|seat db IH]; simpl; intros Hu;
    [constructor|].
  apply NoDup_cons_iff in Hu as [Hfresh Hu].
  destruct (keep seat); simpl; [|now apply IH].
  apply NoDup_cons; [|now apply IH].
  intros Hin. apply Hfresh. apply in_map_iff in Hin as (other & Hkey & Hin).
  apply filter_In in Hin as [Hin _]. rewrite <- Hkey. now apply in_map.
Qed.

(** X24: [generate_seats] keeps seat codes unique within a trip.  For a
    layout of at most 63 rows (so that every row letter is one byte), if no two
    rows of the seat table share a (trip, code) pair before a run that
    completes, none do after it: the codes of a layout are pairwise
    different and a code the trip already has is skipped. *)
Theorem generate_seats_keeps_codes_unique {rt : Runtime} stored o w w' :
  GenerateSeats.stored_ok stored ->
  GenerateSeats.rows o <= 63 ->
  unique_codes (GenerateSeats.seats w) ->
  GenerateSeats.handle stored o w = (GenerateSeats.Done, w') ->
  unique_codes (GenerateSeats.seats w').
Proof.
  intros Hok Hrows Hu H.
  destruct (generate_seats_done_sizes _ _ _ _ H) as [Hr Hs].
  destruct (filter (fun t => Trip.id t =? GenerateSeats.trip o)
              (GenerateSeats.trips w)) as [|trip [|? ?]] eqn:Htrip.
  - unfold GenerateSeats.handle in H. rewrite Htrip in H.
    destruct (_ || _) in H; discriminate.
  - destruct (generate_seats_run stored o w trip Hr Hs Htrip)
      as (kept & codes & out & Hkept & Hcodes & Hrun).
    rewrite Hrun in H. injection H as <-. cbn [GenerateSeats.seats].
    unfold unique_codes in *. rewrite map_app, bulk_rows_keys by exact Hok.
    assert (Hkept_nd : NoDup (map seat_key kept)).
    { rewrite Hkept. destruct (GenerateSeats.reset o); [|exact Hu].
      now apply unique_codes_filter. }
    apply NoDup_app.
    + exact Hkept_nd.
    + apply NoDup_map_inj_in; [intros a b _ _ E; now injection E|].
      rewrite Hcodes. apply NoDup_filter. now apply layout_codes_NoDup.
    + intros [t c] Hin Hnew.
      apply in_map_iff in Hnew as (c' & E & Hc'). injection E as <- <-.
      rewrite Hcodes in Hc'. apply filter_In in Hc' as [_ Hc'].
      apply negb_true_iff in Hc'.
      assert (Htaken : code_in (map Seat.code
                                  (filter (of_trip (Trip.id trip)) kept)) c'
                       = true).
      { apply code_in_spec. apply in_map_iff in Hin as (s & Es & Hs').
        unfold seat_key in Es. injection Es as Et Ec.
        apply in_map_iff. exists s. split; [exact Ec|].
        apply filter_In. split; [exact Hs'|].
        unfold of_trip. now apply Z.eqb_eq. }
      congruence.
  - unfold GenerateSeats.handle in H. rewrite Htrip in H.
    destruct (_ || _) in H; discriminate.
Qed.

Lemma generate_seats_keeps_codes_unique_witness :
  let w := GenerateSeats.mkWorld [Sample.fresh 1 "A2"] Sample.trips [] in
  let o := GenerateSeats.mkOptions 1 1 3 None false in
  exists w',
    GenerateSeats.handle (rt := Sample.runtime)
      (GenerateSeats.sample_stored 10) o w
    = (GenerateSeats.Done, w')
    /\ map Seat.code (GenerateSeats.seats w') = ["A2"; "A1"; "A3"]%string
    /\ unique_codes (GenerateSeats.seats w').
Proof.
  intros w o.
  destruct (GenerateSeats.handle (rt := Sample.runtime)
    (GenerateSeats.sample_stored 10) o w)
    as [res w'] eqn:Hrun.
  assert (Hres : res = GenerateSeats.Done)
    by (vm_compute in Hrun; injection Hrun as <- _; reflexivity).
  subst res.
  assert (Hu : unique_codes (GenerateSeats.seats w)).
  { unfold unique_codes. simpl. constructor; [intros []|constructor]. }
  assert (Hrows : GenerateSeats.rows o <= 63) by (simpl; lia).
  exists w'. split; [reflexivity|].
  split; [vm_compute in Hrun; injection Hrun as <-; reflexivity|].
  exact (generate_seats_keeps_codes_unique (rt := Sample.runtime)
           (GenerateSeats.sample_stored 10)
           o w w' (sample_stored_ok 10) Hrows Hu Hrun).
Defined.

(** X26: more rows than there are letters.  With acceptable sizes and a
    known trip, when the last row letter would be past the last code point
    (more than 1114047 rows) the command raises the [ValueError] of [chr]
    before it creates a seat: the seat table and the trip table are as
    before the run, the delete of [--reset] undone, and with [--reset] the
    reset line has been printed all the same. *)
Theorem generate_seats_too_many_rows {rt : Runtime} stored o w trip :
  1114047 < GenerateSeats.rows o ->
  0 < GenerateSeats.seats_per_row o ->
  filter (fun t => Trip.id t =? GenerateSeats.trip o) (GenerateSeats.trips w)
    = [trip] ->
  let deleted :=
    Z.of_nat (List.length (filter (of_trip (Trip.id trip))
                             (GenerateSeats.seats w))) in
  GenerateSeats.handle stored o w
  = (GenerateSeats.ValueError,
     GenerateSeats.mkWorld (GenerateSeats.seats w) (GenerateSeats.trips w)
       (if GenerateSeats.reset o
        then (GenerateSeats.stdout w
              ++ [("Reset: hapus " ++ Py.str_of_int deleted
                   ++ " seat.")%string])%list
        else GenerateSeats.stdout w)).
Proof.
  intros Hr Hs Htrip deleted. unfold GenerateSeats.handle.
  replace (GenerateSeats.rows o <=? 0) with false
    by (symmetry; apply Z.leb_gt; lia).
  replace (GenerateSeats.seats_per_row o <=? 0) with false
    by (symmetry; apply Z.leb_gt; lia).
  cbn [orb]. rewrite Htrip.
  replace (GenerateSeats.maxunicode <? 65 + (GenerateSeats.rows o - 1))
    with true
    by (symmetry; apply Z.ltb_lt; unfold GenerateSeats.maxunicode; lia).
  destruct (GenerateSeats.reset o); reflexivity.
Qed.

Lemma generate_seats_too_many_rows_witness :
  let w := GenerateSeats.mkWorld [Sample.fresh 1 "A1"] Sample.trips [] in
  let o := GenerateSeats.mkOptions 1 1114048 1 None true in
  GenerateSeats.handle (rt := Sample.runtime)
    (GenerateSeats.sample_stored 10) o w
  = (GenerateSeats.ValueError,
     GenerateSeats.mkWorld [Sample.fresh 1 "A1"] Sample.trips
       ["Reset: hapus 1 seat."%string]).
Proof.
  intros w o.
  refine (generate_seats_too_many_rows (rt := Sample.runtime)
            (GenerateSeats.sample_stored 10) o w Sample.trip1 _ _ eq_refl);
    simpl; lia.
Defined.

(** ** The scenarios of [booking/tests.py] *)

Module Scenarios.
Import Sample.

Example test_hold_seat_success :
  succeeded (hold "A1" tokenA) db0 = true
  /\ option_map Seat.status (seat_of "A1" (after (hold "A1" tokenA) db0))
     = Some Seat.HOLD
  /\ option_map Seat.hold_token (seat_of "A1" (after (hold "A1" tokenA) db0))
     = Some (Some tokenA).
Proof. repeat split; vm_compute; reflexivity. Qed.

Example test_hold_conflict_other_token :
  let db := after (hold "A1" tokenA) db0 in
  succeeded (hold "A1" tokenB) db = false
  /\ after (hold "A1" tokenB) db = db.
Proof. cbv zeta. split; vm_compute; reflexivity. Qed.

Example test_hold_expired_can_be_taken :
  let db := [held 1 "A1" tokenA (t0 - minute)] in
  succeeded (hold "A1" tokenB) db = true
  /\ option_map Seat.hold_token (seat_of "A1" (after (hold "A1" tokenB) db))
     = Some (Some tokenB).
Proof. cbv zeta. split; vm_compute; reflexivity. Qed.

Example test_max_hold_per_session :
  let db := after (hold "A4" tokenA)
              (after (hold "A3" tokenA)
                 (after (hold "A2" tokenA)
                    (after (hold "A1" tokenA) (db0 ++ [fresh 5 "B1"])))) in
  succeeded (hold "B1" tokenA) db = false.
Proof. vm_compute. reflexivity. Qed.

Example test_confirm_booked_by_admin :
  let db := after (hold "A1" tokenA) db0 in
  let confirm :=
    confirm_booked_by_admin (rt := runtime) t0 (t0 + 1) 1 ["A1"%string] in
  let db' := after confirm db in
  succeeded confirm db = true
  /\ option_map Seat.status (seat_of "A1" db') = Some Seat.BOOKED
  /\ option_map Seat.booked_at (seat_of "A1" db') = Some (Some (t0 + 1))
  /\ option_map Seat.hold_token (seat_of "A1" db') = Some None
  /\ option_map Seat.hold_until (seat_of "A1" db') = Some None.
Proof. cbv zeta. repeat split; vm_compute; reflexivity. Qed.

Example test_expire_holds_releases_seat :
  let db := [claimed 1 "A1" tokenA (t0 - minute) "Budi" "08" "AAAA-BBBB"] in
  expire_holds t0 db = (Return 1, [fresh 1 "A1"]).
Proof. reflexivity. Qed.

End Scenarios.
